(** * Environment controller of managed-gitops: model and properties

    Shallow embedding of
    [appstudio-controller/controllers/appstudio.redhat.com/environment_controller.go].

    The controller talks to the Kubernetes API through a [client.Client].
    The API server is modelled as a collection of objects per resource kind,
    each identified by the namespace and name in its metadata; a client call
    is served from that collection unless the fault schedule makes it fail
    with a generic (not "not found") error, as
    [sharedutil.IfEnabledSimulateUnreliableClient] may do.  Every call is
    appended, with its outcome, to a log, so that the calls a reconciliation
    issues can be counted. *)

From stdpp Require Import base strings list gmap option.

Set Default Proof Using "Type".
Open Scope string_scope.
Open Scope list_scope.

(** ** Kubernetes meta types *)

Record NamespacedName := mkNamespacedName {
  nnNamespace : string;
  nnName : string;
}.

#[global] Instance NamespacedName_eq_dec : EqDecision NamespacedName.
Proof. solve_decision. Defined.

Record OwnerReference := mkOwnerReference {
  orAPIVersion : string;
  orKind : string;
  orName : string;
  orUID : string;
  orBlockOwnerDeletion : option bool;
  orController : option bool;
}.

#[global] Instance OwnerReference_eq_dec : EqDecision OwnerReference.
Proof. solve_decision. Defined.

Record ObjectMeta := mkObjectMeta {
  Name : string;
  Namespace : string;
  UID : string;
  Labels : gmap string string;
  OwnerReferences : list OwnerReference;
  DeletionTimestamp : option nat;
}.

#[global] Instance ObjectMeta_eq_dec : EqDecision ObjectMeta.
Proof. solve_decision. Defined.

(** [metav1.ObjectMeta{Name: name, Namespace: namespace}] *)
Definition namedMeta (name namespace : string) : ObjectMeta :=
  {| Name := name; Namespace := namespace; UID := ""; Labels := ∅;
     OwnerReferences := []; DeletionTimestamp := None |}.

(** [client.ObjectKeyFromObject] *)
Definition ObjectKeyFromMeta (m : ObjectMeta) : NamespacedName :=
  {| nnNamespace := Namespace m; nnName := Name m |}.

Inductive ConditionStatus := ConditionTrue | ConditionFalse | ConditionUnknown.

#[global] Instance ConditionStatus_eq_dec : EqDecision ConditionStatus.
Proof. solve_decision. Defined.

(** [metav1.Condition]; the transition time stamp is left out, the controller
    never reads it. *)
Record Condition := mkCondition {
  condType : string;
  condMessage : string;
  condStatus : ConditionStatus;
  condReason : string;
}.

#[global] Instance Condition_eq_dec : EqDecision Condition.
Proof. solve_decision. Defined.

(** ** Resource kinds *)

Record KubernetesClusterCredentials := mkKubernetesClusterCredentials {
  APIURL : string;
  ClusterCredentialsSecret : string;
  AllowInsecureSkipTLSVerify : bool;
}.

#[global] Instance KubernetesClusterCredentials_eq_dec :
  EqDecision KubernetesClusterCredentials.
Proof. solve_decision. Defined.

Record UnstableEnvironmentConfiguration := mkUnstableEnvironmentConfiguration {
  ucfCredentials : KubernetesClusterCredentials;
  ucfClusterResources : bool;
  ucfNamespaces : list string;
}.

#[global] Instance UnstableEnvironmentConfiguration_eq_dec :
  EqDecision UnstableEnvironmentConfiguration.
Proof. solve_decision. Defined.

(** [envClaimName] is [Spec.Configuration.Target.DeploymentTargetClaim.ClaimName],
    empty when the Environment has no target. *)
Record EnvironmentSpec := mkEnvironmentSpec {
  envClaimName : string;
  UnstableConfigurationFields : option UnstableEnvironmentConfiguration;
}.

#[global] Instance EnvironmentSpec_eq_dec : EqDecision EnvironmentSpec.
Proof. solve_decision. Defined.

Record Environment := mkEnvironment {
  envAPIVersion : string;
  envKind : string;
  envMeta : ObjectMeta;
  envSpec : EnvironmentSpec;
  envConditions : list Condition;
}.

#[global] Instance Environment_eq_dec : EqDecision Environment.
Proof. solve_decision. Defined.

(** Accessor of the application-api library. *)
Definition GetDeploymentTargetClaimName (e : Environment) : string :=
  envClaimName (envSpec e).

Record DeploymentTargetClaim := mkDeploymentTargetClaim {
  dtcMeta : ObjectMeta;
  dtcTargetName : string;
  dtcPhase : string;
}.

#[global] Instance DeploymentTargetClaim_eq_dec : EqDecision DeploymentTargetClaim.
Proof. solve_decision. Defined.

Definition DeploymentTargetClaimPhase_Bound : string := "Bound".

Record DeploymentTarget := mkDeploymentTarget {
  dtMeta : ObjectMeta;
  dtClaimRef : string;
  dtCredentials : KubernetesClusterCredentials;
}.

#[global] Instance DeploymentTarget_eq_dec : EqDecision DeploymentTarget.
Proof. solve_decision. Defined.

Record GitOpsDeploymentManagedEnvironmentSpec := mkManagedEnvironmentSpec {
  meAPIURL : string;
  meClusterCredentialsSecret : string;
  meAllowInsecureSkipTLSVerify : bool;
  meClusterResources : bool;
  meNamespaces : list string;
}.

#[global] Instance GitOpsDeploymentManagedEnvironmentSpec_eq_dec :
  EqDecision GitOpsDeploymentManagedEnvironmentSpec.
Proof. solve_decision. Defined.

Record GitOpsDeploymentManagedEnvironment := mkManagedEnvironment {
  meMeta : ObjectMeta;
  meSpec : GitOpsDeploymentManagedEnvironmentSpec;
}.

#[global] Instance GitOpsDeploymentManagedEnvironment_eq_dec :
  EqDecision GitOpsDeploymentManagedEnvironment.
Proof. solve_decision. Defined.

Record Secret := mkSecret {
  secMeta : ObjectMeta;
  secType : string;
  secData : gmap string string;
}.

#[global] Instance Secret_eq_dec : EqDecision Secret.
Proof. solve_decision. Defined.

(** [corev1.Namespace] *)
Record NamespaceObject := mkNamespaceObject {
  nsMeta : ObjectMeta;
}.

#[global] Instance NamespaceObject_eq_dec : EqDecision NamespaceObject.
Proof. solve_decision. Defined.

(** ** Constants *)

Definition managedEnvironmentSecretLabel : string :=
  "appstudio.openshift.io/environment-secret".

Definition EnvironmentConditionErrorOccurred : string := "ErrorOccurred".
Definition EnvironmentReasonErrorOccurred : string := "ErrorOccurred".

Definition SecretTypeOpaque : string := "Opaque".

(** Modelled from the spec: [sharedutil.ManagedEnvironmentSecretType] is
    declared outside the controller file; it is the secret type the spec calls
    "managed-environment" type, a type of its own next to the opaque one. *)
Definition ManagedEnvironmentSecretType : string :=
  "managed-gitops.redhat.com/managed-environment".

(** Modelled from the spec: [managedgitopsv1alpha1.GroupVersion] is declared
    outside the controller file; group and version of the API the
    ManagedEnvironment belongs to. *)
Definition GroupVersion_Group : string := "managed-gitops.redhat.com".
Definition GroupVersion_Version : string := "v1alpha1".

(** ** Errors *)

Inductive error :=
  | StatusNotFound (msg : string)
  | StatusAlreadyExists (msg : string)
  | plainError (msg : string).

#[global] Instance error_eq_dec : EqDecision error.
Proof. solve_decision. Defined.

(** [apierr.IsNotFound] *)
Definition IsNotFound (e : error) : bool :=
  match e with StatusNotFound _ => true | _ => false end.

Definition errorString (e : error) : string :=
  match e with
  | StatusNotFound m => m
  | StatusAlreadyExists m => m
  | plainError m => m
  end.

(** [fmt.Errorf(prefix + "%v", err)]: the result no longer is a "not found"
    error, whatever [err] was. *)
Definition Errorf (prefix : string) (e : error) : error :=
  plainError (prefix +:+ errorString e).

(** ** The API server and the client *)

Inductive Verb := VGet | VList | VCreate | VUpdate | VDelete | VStatusUpdate.

#[global] Instance Verb_eq_dec : EqDecision Verb.
Proof. solve_decision. Defined.

Inductive ResourceKind :=
  | KNamespace | KEnvironment | KManagedEnvironment | KSecret
  | KDeploymentTargetClaim | KDeploymentTarget.

#[global] Instance ResourceKind_eq_dec : EqDecision ResourceKind.
Proof. solve_decision. Defined.

(** One client call and its outcome. For [VList] the key carries the
    namespace listed and an empty name. *)
Record Event := mkEvent {
  evVerb : Verb;
  evKind : ResourceKind;
  evKey : NamespacedName;
  evErr : option error;
}.

#[global] Instance Event_eq_dec : EqDecision Event.
Proof. solve_decision. Defined.

Record Cluster := mkCluster {
  namespaces : list NamespaceObject;
  environments : list Environment;
  managedEnvironments : list GitOpsDeploymentManagedEnvironment;
  secrets : list Secret;
  deploymentTargetClaims : list DeploymentTargetClaim;
  deploymentTargets : list DeploymentTarget;
}.

#[global] Instance Cluster_eq_dec : EqDecision Cluster.
Proof. solve_decision. Defined.

(** [schedule]: the head decides the next call, [Some m] makes it fail with
    the generic error [m] before it reaches the server; an exhausted schedule
    injects nothing. [calls]: the log, newest call first. *)
Record Client := mkClient {
  cluster : Cluster;
  schedule : list (option string);
  calls : list Event;
}.

Class Resource (T : Type) := {
  kindOf : ResourceKind;
  metaOf : T → ObjectMeta;
  items : Cluster → list T;
  setItems : list T → Cluster → Cluster;
}.

#[global] Instance Resource_Namespace : Resource NamespaceObject := {|
  kindOf := KNamespace; metaOf := nsMeta; items := namespaces;
  setItems l s := mkCluster l (environments s) (managedEnvironments s) (secrets s)
                    (deploymentTargetClaims s) (deploymentTargets s) |}.

#[global] Instance Resource_Environment : Resource Environment := {|
  kindOf := KEnvironment; metaOf := envMeta; items := environments;
  setItems l s := mkCluster (namespaces s) l (managedEnvironments s) (secrets s)
                    (deploymentTargetClaims s) (deploymentTargets s) |}.

#[global] Instance Resource_ManagedEnvironment :
  Resource GitOpsDeploymentManagedEnvironment := {|
  kindOf := KManagedEnvironment; metaOf := meMeta; items := managedEnvironments;
  setItems l s := mkCluster (namespaces s) (environments s) l (secrets s)
                    (deploymentTargetClaims s) (deploymentTargets s) |}.

#[global] Instance Resource_Secret : Resource Secret := {|
  kindOf := KSecret; metaOf := secMeta; items := secrets;
  setItems l s := mkCluster (namespaces s) (environments s) (managedEnvironments s) l
                    (deploymentTargetClaims s) (deploymentTargets s) |}.

#[global] Instance Resource_DeploymentTargetClaim : Resource DeploymentTargetClaim := {|
  kindOf := KDeploymentTargetClaim; metaOf := dtcMeta; items := deploymentTargetClaims;
  setItems l s := mkCluster (namespaces s) (environments s) (managedEnvironments s)
                    (secrets s) l (deploymentTargets s) |}.

#[global] Instance Resource_DeploymentTarget : Resource DeploymentTarget := {|
  kindOf := KDeploymentTarget; metaOf := dtMeta; items := deploymentTargets;
  setItems l s := mkCluster (namespaces s) (environments s) (managedEnvironments s)
                    (secrets s) (deploymentTargetClaims s) l |}.

Definition objectKey `{Resource T} (o : T) : NamespacedName :=
  ObjectKeyFromMeta (metaOf o).

(** *** The object collections *)

Section Collection.
Context `{Resource T}.

Fixpoint lookupObj (k : NamespacedName) (l : list T) : option T :=
  match l with
  | [] => None
  | o :: r => if decide (objectKey o = k) then Some o else lookupObj k r
  end.

(** Replace the object stored under the key of [o]. *)
Fixpoint replaceObj (o : T) (l : list T) : list T :=
  match l with
  | [] => []
  | x :: r =>
      if decide (objectKey x = objectKey o) then o :: r else x :: replaceObj o r
  end.

Fixpoint removeObj (k : NamespacedName) (l : list T) : list T :=
  match l with
  | [] => []
  | x :: r => if decide (objectKey x = k) then removeObj k r else x :: removeObj k r
  end.

Fixpoint inNamespace (ns : string) (l : list T) : list T :=
  match l with
  | [] => []
  | x :: r =>
      if decide (Namespace (metaOf x) = ns) then x :: inNamespace ns r
      else inNamespace ns r
  end.
End Collection.

(** *** Client calls *)

Definition M (A : Type) : Type := Client → A * Client.

Definition ret {A} (a : A) : M A := fun c => (a, c).

Definition bind {A B} (m : M A) (k : A → M B) : M B :=
  fun c => let '(a, c1) := m c in k a c1.

Notation "'do' x <- m ; k" := (bind m (fun x => k))
  (at level 10, x name, m at level 100, k at level 200).
Notation "'do' ' p <- m ; k" := (bind m (fun x => match x with p => k end))
  (at level 10, p pattern, m at level 100, k at level 200).

Definition nextFault (s : list (option string)) : option string * list (option string) :=
  match s with
  | [] => (None, [])
  | f :: r => (f, r)
  end.

(** A call: consult the schedule, otherwise let the server answer; log it. *)
Definition apiCall {A} (v : Verb) (k : ResourceKind) (key : NamespacedName)
    (serve : Cluster → error + (A * Cluster)) : M (error + A) :=
  fun c =>
    let '(f, rest) := nextFault (schedule c) in
    match f with
    | Some m =>
        (inl (plainError m),
         mkClient (cluster c) rest (mkEvent v k key (Some (plainError m)) :: calls c))
    | None =>
        match serve (cluster c) with
        | inl e => (inl e, mkClient (cluster c) rest (mkEvent v k key (Some e) :: calls c))
        | inr (a, s') => (inr a, mkClient s' rest (mkEvent v k key None :: calls c))
        end
    end.

Definition notFound (key : NamespacedName) : error :=
  StatusNotFound (nnName key +:+ " not found").

Section Calls.
Context `{Resource T}.

(** [client.Get(ctx, key, obj)] *)
Definition k8sGet (key : NamespacedName) : M (error + T) :=
  apiCall VGet kindOf key (fun s =>
    match lookupObj key (items s) with
    | Some o => inr (o, s)
    | None => inl (notFound key)
    end).

(** [client.List(ctx, list, &client.ListOptions{Namespace: ns})] *)
Definition k8sList (ns : string) : M (error + list T) :=
  apiCall VList kindOf (mkNamespacedName ns "") (fun s =>
    inr (inNamespace ns (items s), s)).

(** [client.Create(ctx, obj)] *)
Definition k8sCreate (o : T) : M (option error) :=
  do r <- apiCall VCreate kindOf (objectKey o) (fun s =>
    match lookupObj (objectKey o) (items s) with
    | Some _ => inl (StatusAlreadyExists (nnName (objectKey o) +:+ " already exists"))
    | None => inr (tt, setItems (items s ++ [o]) s)
    end);
  ret (match r with inl e => Some e | inr _ => None end).

(** [client.Update(ctx, obj)] *)
Definition k8sUpdate (o : T) : M (option error) :=
  do r <- apiCall VUpdate kindOf (objectKey o) (fun s =>
    match lookupObj (objectKey o) (items s) with
    | Some _ => inr (tt, setItems (replaceObj o (items s)) s)
    | None => inl (notFound (objectKey o))
    end);
  ret (match r with inl e => Some e | inr _ => None end).

(** [client.Delete(ctx, obj)] *)
Definition k8sDelete (o : T) : M (option error) :=
  do r <- apiCall VDelete kindOf (objectKey o) (fun s =>
    match lookupObj (objectKey o) (items s) with
    | Some _ => inr (tt, setItems (removeObj (objectKey o) (items s)) s)
    | None => inl (notFound (objectKey o))
    end);
  ret (match r with inl e => Some e | inr _ => None end).
End Calls.

Definition withConditions (e : Environment) (cs : list Condition) : Environment :=
  mkEnvironment (envAPIVersion e) (envKind e) (envMeta e) (envSpec e) cs.

(** [client.Status().Update(ctx, environment)]: only the status of the stored
    object is replaced; on success the object in memory becomes the stored one. *)
Definition k8sStatusUpdate (e : Environment) : M (option error * Environment) :=
  do r <- apiCall VStatusUpdate KEnvironment (objectKey e) (fun s =>
    match lookupObj (objectKey e) (environments s) with
    | Some stored =>
        let e' := withConditions stored (envConditions e) in
        inr (e', setItems (replaceObj e' (environments s)) s)
    | None => inl (notFound (objectKey e))
    end);
  ret (match r with inl err => (Some err, e) | inr e' => (None, e') end).

(** ** Status condition manager *)

(** Modelled from the spec: [insertOrUpdateConditionsInSlice] is defined in
    another file of the package. It upserts the condition of the type of
    [newCondition]: appended when no condition of that type is present,
    written in place when one is present with another message, reason or
    status, and left alone ("no-op") when an identical one is present. The
    boolean tells whether the list changed. *)
Fixpoint insertOrUpdateConditionsInSlice (newCondition : Condition)
    (existingConditions : list Condition) : bool * list Condition :=
  match existingConditions with
  | [] => (true, [newCondition])
  | c :: r =>
      if decide (condType c = condType newCondition) then
        if decide (c = newCondition) then (false, c :: r)
        else (true, newCondition :: r)
      else
        let '(changed, r') := insertOrUpdateConditionsInSlice newCondition r in
        (changed, c :: r')
  end.

(** Update .status.conditions field of Environment *)
Definition updateStatusConditionOfEnvironment (message : string)
    (environment : Environment) (conditionType : string)
    (status : ConditionStatus) (reason : string) : M (option error * Environment) :=
  let newCondition :=
    {| condType := conditionType; condMessage := message;
       condStatus := status; condReason := reason |} in
  let '(changed, newConditions) :=
    insertOrUpdateConditionsInSlice newCondition (envConditions environment) in
  if changed then
    let environment := withConditions environment newConditions in
    do '(err, environment) <- k8sStatusUpdate environment;
    match err with
    | Some err => ret (Some err, environment)
    | None => ret (None, environment)
    end
  else ret (None, environment).

(** findCondition finds the Condition of the given type, if the list has one. *)
Fixpoint findCondition (conditions : list Condition) (conditionType : string)
    : Condition * bool :=
  match conditions with
  | [] => (mkCondition "" "" ConditionUnknown "", false)
  | condition :: rest =>
      if decide (condType condition = conditionType) then (condition, true)
      else findCondition rest conditionType
  end.

Definition updateConditionErrorAsResolved (message : string)
    (environment : Environment) (conditionType : string)
    (status : ConditionStatus) (reason : string) : M (option error * Environment) :=
  let '(cond, present) :=
    findCondition (envConditions environment) EnvironmentConditionErrorOccurred in
  if negb present then ret (None, environment)
  else
    let reason := reason +:+ "Resolved" in
    if decide (condReason cond ≠ reason) then
      do '(err, environment) <-
        updateStatusConditionOfEnvironment "" environment
          EnvironmentConditionErrorOccurred ConditionFalse reason;
      match err with
      | Some err =>
          ret (Some (Errorf "unable to update status of Environment: " err), environment)
      | None => ret (None, environment)
      end
    else ret (None, environment).

(** ** Desired-state generator *)

Definition generateManagedEnvSecretName (envName : string) : string :=
  "managed-environment-secret-" +:+ envName.

Definition generateEmptyManagedEnvironment (environmentName environmentNamespace : string)
    : GitOpsDeploymentManagedEnvironment :=
  {| meMeta := namedMeta ("managed-environment-" +:+ environmentName) environmentNamespace;
     meSpec := mkManagedEnvironmentSpec "" "" false false [] |}.

(** The symmetric match of a claim and a target: the claim records the
    target's name, or the target records the claim's name. *)
Definition boundTogether (dtc : DeploymentTargetClaim) (d : DeploymentTarget) : Prop :=
  dtcTargetName dtc = Name (dtMeta d) ∨ dtClaimRef d = Name (dtcMeta dtc).

#[global] Instance boundTogether_dec dtc d : Decision (boundTogether dtc d).
Proof. unfold boundTogether. apply _. Defined.

(** [for _, d := range items { if match { dt = d; break } }] *)
Fixpoint firstBound (dtc : DeploymentTargetClaim) (items : list DeploymentTarget)
    : option DeploymentTarget :=
  match items with
  | [] => None
  | d :: r => if decide (boundTogether dtc d) then Some d else firstBound dtc r
  end.

(** The exact bidirectional match of a claim and a target: the claim records
    the target's name, and the target records the claim's name. *)
Definition boundBothWays (dtc : DeploymentTargetClaim) (d : DeploymentTarget) : Prop :=
  dtcTargetName dtc = Name (dtMeta d) ∧ dtClaimRef d = Name (dtcMeta dtc).

#[global] Instance boundBothWays_dec dtc d : Decision (boundBothWays dtc d).
Proof. unfold boundBothWays. apply _. Defined.

Fixpoint firstBoundBothWays (dtc : DeploymentTargetClaim) (items : list DeploymentTarget)
    : option DeploymentTarget :=
  match items with
  | [] => None
  | d :: r => if decide (boundBothWays dtc d) then Some d else firstBoundBothWays dtc r
  end.

(** Modelled from the spec: the target a claim resolves to among [items]. The
    target is "bound by a symmetric match: claim's recorded target name equals
    target's name, OR target's recorded claim reference equals claim's name",
    and the resolution "must prefer an exact bidirectional match": a target
    that matches both ways wins over one that matches one way only. *)
Definition resolveTarget (dtc : DeploymentTargetClaim) (items : list DeploymentTarget)
    : option DeploymentTarget :=
  match firstBoundBothWays dtc items with
  | Some d => Some d
  | None => firstBound dtc items
  end.

(** Modelled from the spec: [getDTBoundByDTC] is defined in another file of
    the package. It resolves the target of a claim among the targets of the
    claim's namespace by [resolveTarget]; no match is reported as no target
    and no error, a failed lookup as its error. *)
Definition getDTBoundByDTC (dtc : DeploymentTargetClaim)
    : M (option DeploymentTarget * option error) :=
  do r <- k8sList (T := DeploymentTarget) (Namespace (dtcMeta dtc));
  match r with
  | inl err => ret (None, Some err)
  | inr dtList => ret (resolveTarget dtc dtList, None)
  end.

Definition desiredResult : Type :=
  option GitOpsDeploymentManagedEnvironment * bool * option error.

(** Lines 426-535 of [generateDesiredResource]: what follows once the
    credentials are resolved into [manageEnvDetails]. *)
Definition generateDesiredResource_fromCredentials (env : Environment)
    (claimName : string) (manageEnvDetails : GitOpsDeploymentManagedEnvironmentSpec)
    : M desiredResult :=
  let manageEnvDetails :=
    match UnstableConfigurationFields (envSpec env) with
    | Some ucf =>
        mkManagedEnvironmentSpec (meAPIURL manageEnvDetails)
          (meClusterCredentialsSecret manageEnvDetails)
          (meAllowInsecureSkipTLSVerify manageEnvDetails)
          (ucfClusterResources ucf) ([] ++ ucfNamespaces ucf)
    | None => manageEnvDetails
    end in
  (* 1) Retrieve the secret that the Environment is pointing to *)
  let secret :=
    {| secMeta := namedMeta (meClusterCredentialsSecret manageEnvDetails)
                    (Namespace (envMeta env));
       secType := ""; secData := ∅ |} in
  let managedEnvSecret :=
    {| secMeta :=
         {| Name := generateManagedEnvSecretName (Name (envMeta env));
            Namespace := Namespace (secMeta secret);
            UID := "";
            Labels := {[ managedEnvironmentSecretLabel := Name (envMeta env) ]};
            OwnerReferences :=
              [ {| orAPIVersion := envAPIVersion env; orKind := envKind env;
                   orName := Name (envMeta env); orUID := UID (envMeta env);
                   orBlockOwnerDeletion := Some true; orController := Some true |} ];
            DeletionTimestamp := None |};
       secType := ManagedEnvironmentSecretType;
       secData := ∅ |} in
  do r <- k8sGet (T := Secret) (objectKey secret);
  match r with
  | inl err =>
      if IsNotFound err then
        do '(uerr, env) <-
          updateStatusConditionOfEnvironment
            ("the secret " +:+ Name (secMeta secret)
               +:+ " referenced by the Environment resource was not found")
            env EnvironmentConditionErrorOccurred ConditionTrue
            EnvironmentReasonErrorOccurred;
        match uerr with
        | Some uerr =>
            ret (None, true,
                 Some (Errorf "unable to update environment status condition. " uerr))
        | None =>
            (* Delete the managed Environment secret if the orginal secret is not found. *)
            do derr <- k8sDelete managedEnvSecret;
            match derr with
            | Some derr =>
                if negb (IsNotFound derr) then
                  ret (None, true,
                       Some (plainError
                         ("unable to delete the secret for managed Environment: "
                            +:+ Name (envMeta env))))
                else
                  ret (None, true,
                       Some (Errorf ("the secret '" +:+ Name (secMeta secret)
                          +:+ "' referenced by the Environment resource was not found: ")
                          err))
            | None =>
                ret (None, true,
                     Some (Errorf ("the secret '" +:+ Name (secMeta secret)
                        +:+ "' referenced by the Environment resource was not found: ")
                        err))
            end
        end
      else
        do '(uerr, env) <-
          updateStatusConditionOfEnvironment
            "Secret referenced by the Environment resource was not found"
            env EnvironmentConditionErrorOccurred ConditionTrue
            EnvironmentReasonErrorOccurred;
        match uerr with
        | Some uerr =>
            ret (None, true,
                 Some (Errorf "unable to update environment status condition. " uerr))
        | None => ret (None, true, Some err)
        end
  | inr secret =>
      let managedEnv :=
        generateEmptyManagedEnvironment (Name (envMeta env)) (Namespace (envMeta env)) in
      (* the tail shared by both arms of the mirroring test *)
      let finish (env : Environment)
          (manageEnvDetails : GitOpsDeploymentManagedEnvironmentSpec) : M desiredResult :=
        do '(rerr, env) <-
          updateConditionErrorAsResolved "" env EnvironmentConditionErrorOccurred
            ConditionFalse EnvironmentReasonErrorOccurred;
        match rerr with
        | Some rerr => ret (None, true, Some rerr)
        | None =>
            (* 2) Generate (but don't apply) the corresponding resource *)
            let managedEnv :=
              {| meMeta :=
                   {| Name := Name (meMeta managedEnv);
                      Namespace := Namespace (meMeta managedEnv);
                      UID := UID (meMeta managedEnv);
                      Labels := Labels (meMeta managedEnv);
                      OwnerReferences :=
                        [ {| orAPIVersion :=
                               GroupVersion_Group +:+ "/" +:+ GroupVersion_Version;
                             orKind := "Environment";
                             orName := Name (envMeta env); orUID := UID (envMeta env);
                             orBlockOwnerDeletion := None; orController := None |} ];
                      DeletionTimestamp := DeletionTimestamp (meMeta managedEnv) |};
                 meSpec := manageEnvDetails |} in
            ret (Some managedEnv, false, None)
        end in
      let withSecretName (name : string) :=
        mkManagedEnvironmentSpec (meAPIURL manageEnvDetails) name
          (meAllowInsecureSkipTLSVerify manageEnvDetails)
          (meClusterResources manageEnvDetails) (meNamespaces manageEnvDetails) in
      (* Skip reconciling if the secret is already of type ManagedEnvironment. *)
      if decide (claimName ≠ "" ∧ secType secret ≠ ManagedEnvironmentSecretType) then
        do r <- k8sGet (T := Secret) (objectKey managedEnvSecret);
        match r with
        | inl gerr =>
            if negb (IsNotFound gerr) then
              ret (None, false,
                   Some (Errorf ("failed to fetch the secret "
                      +:+ Name (secMeta managedEnvSecret) +:+ " for managed Environment "
                      +:+ Name (meMeta managedEnv) +:+ ": ") gerr))
            else
              (* Create a new managed environment secret if it is not found *)
              let managedEnvSecret :=
                mkSecret (secMeta managedEnvSecret) (secType managedEnvSecret)
                  (secData secret) in
              do cerr <- k8sCreate managedEnvSecret;
              match cerr with
              | Some cerr =>
                  ret (None, false,
                       Some (Errorf ("failed to create a secret for managed Environment "
                          +:+ Name (meMeta managedEnv) +:+ ": ") cerr))
              | None => finish env (withSecretName (Name (secMeta managedEnvSecret)))
              end
        | inr managedEnvSecret =>
            (* The managed Environment secret is found. Compare it with the
               original secret and update if required. *)
            if decide (secData secret ≠ secData managedEnvSecret) then
              let managedEnvSecret :=
                mkSecret (secMeta managedEnvSecret) (secType managedEnvSecret)
                  (secData secret) in
              do uerr <- k8sUpdate managedEnvSecret;
              match uerr with
              | Some uerr =>
                  ret (None, false,
                       Some (Errorf ("failed to update the secret for managed Environment "
                          +:+ Name (meMeta managedEnv) +:+ ": ") uerr))
              | None => finish env (withSecretName (Name (secMeta managedEnvSecret)))
              end
            else finish env (withSecretName (Name (secMeta managedEnvSecret)))
        end
      else finish env manageEnvDetails
  end.

Definition credentialsSpec (k : KubernetesClusterCredentials)
    : GitOpsDeploymentManagedEnvironmentSpec :=
  {| meAPIURL := APIURL k;
     meClusterCredentialsSecret := ClusterCredentialsSecret k;
     meAllowInsecureSkipTLSVerify := AllowInsecureSkipTLSVerify k;
     meClusterResources := false; meNamespaces := [] |}.

(** generateDesiredResource will return two types of error:
    - semanticErrOccurred_dontContinue = true - a error in user input; this
      does not require re-reconcilition
    - err != nil - any other error which does require reconciliation.
    [env] is the callee's copy of the Environment. *)
Definition generateDesiredResource (env : Environment) : M desiredResult :=
  let claimName := GetDeploymentTargetClaimName env in
  if decide (claimName ≠ "") then
    let dtc :=
      {| dtcMeta := namedMeta claimName (Namespace (envMeta env));
         dtcTargetName := ""; dtcPhase := "" |} in
    do r <- k8sGet (T := DeploymentTargetClaim) (objectKey dtc);
    match r with
    | inl err =>
        if IsNotFound err then
          do '(uerr, env) <-
            updateStatusConditionOfEnvironment
              "DeploymentTargetClaim not found while generating the desired Environment resource"
              env EnvironmentConditionErrorOccurred ConditionTrue
              EnvironmentReasonErrorOccurred;
          match uerr with
          | Some uerr =>
              ret (None, true,
                   Some (Errorf "unable to update environment status condition. " uerr))
          | None => ret (None, true, None)
          end
        else
          do '(uerr, env) <-
            updateStatusConditionOfEnvironment
              "Unable to find DeploymentTarget for DeploymentTargetClaim"
              env EnvironmentConditionErrorOccurred ConditionTrue
              EnvironmentReasonErrorOccurred;
          match uerr with
          | Some uerr =>
              ret (None, true,
                   Some (Errorf "unable to update environment status condition. " uerr))
          | None => ret (None, true, Some err)
          end
    | inr dtc =>
        (* Update Status.Conditions field of Environment as false if error is resolved *)
        do '(rerr, env) <-
          updateConditionErrorAsResolved "" env EnvironmentConditionErrorOccurred
            ConditionFalse EnvironmentReasonErrorOccurred;
        match rerr with
        | Some rerr => ret (None, true, Some rerr)
        | None =>
            (* wait until the claim reaches bounded phase *)
            if decide (dtcPhase dtc ≠ DeploymentTargetClaimPhase_Bound) then
              ret (None, false, None)
            else
              do '(dt, err) <- getDTBoundByDTC dtc;
              match err with
              | Some err =>
                  if IsNotFound err then
                    do '(uerr, env) <-
                      updateStatusConditionOfEnvironment
                        "DeploymentTarget not found for DeploymentTargetClaim"
                        env EnvironmentConditionErrorOccurred ConditionTrue
                        EnvironmentReasonErrorOccurred;
                    match uerr with
                    | Some uerr =>
                        ret (None, true,
                             Some (Errorf
                               "unable to update environment status condition. " uerr))
                    | None => ret (None, true, None)
                    end
                  else
                    do '(uerr, env) <-
                      updateStatusConditionOfEnvironment
                        "Unable to find the DeploymentTarget for DeploymentTargetClaim"
                        env EnvironmentConditionErrorOccurred ConditionTrue
                        EnvironmentReasonErrorOccurred;
                    match uerr with
                    | Some uerr =>
                        ret (None, true,
                             Some (Errorf
                               "unable to update environment status condition. " uerr))
                    | None => ret (None, true, Some err)
                    end
              | None =>
                  match dt with
                  | None =>
                      do '(uerr, env) <-
                        updateStatusConditionOfEnvironment
                          "DeploymentTarget not found for DeploymentTargetClaim"
                          env EnvironmentConditionErrorOccurred ConditionTrue
                          EnvironmentReasonErrorOccurred;
                      match uerr with
                      | Some uerr =>
                          ret (None, true,
                               Some (Errorf
                                 "unable to update environment status condition. " uerr))
                      | None => ret (None, true, None)
                      end
                  | Some dt =>
                      do '(rerr, env) <-
                        updateConditionErrorAsResolved "" env
                          EnvironmentConditionErrorOccurred ConditionFalse
                          EnvironmentReasonErrorOccurred;
                      match rerr with
                      | Some rerr => ret (None, true, Some rerr)
                      | None =>
                          generateDesiredResource_fromCredentials env claimName
                            (credentialsSpec (dtCredentials dt))
                      end
                  end
              end
        end
    end
  else
    match UnstableConfigurationFields (envSpec env) with
    | Some ucf =>
        generateDesiredResource_fromCredentials env claimName
          (credentialsSpec (ucfCredentials ucf))
    | None =>
        (* Don't process the Environment configuration fields if they are empty *)
        ret (None, false, None)
    end.

(** ** Reconciler core *)

Abbreviation Request := NamespacedName (only parsing).

(** [ctrl.Result] *)
Record Result := mkResult {
  Requeue : bool;
  RequeueAfter : nat;
}.

#[global] Instance Result_eq_dec : EqDecision Result.
Proof. solve_decision. Defined.

(** [ctrl.Result{}] *)
Definition noRequeue : Result := {| Requeue := false; RequeueAfter := 0 |}.

(** Modelled from the spec: [isRequestNamespaceBeingDeleted] is defined in
    another file of the package. It tells whether the namespace of the request
    "is itself being torn down"; when the namespace cannot be fetched the
    error is handed to the caller. *)
Definition isRequestNamespaceBeingDeleted (namespaceName : string)
    : M (bool * option error) :=
  do r <- k8sGet (T := NamespaceObject) (mkNamespacedName "" namespaceName);
  match r with
  | inl err => ret (false, Some (Errorf "unable to retrieve Namespace: " err))
  | inr namespace =>
      if decide (DeletionTimestamp (nsMeta namespace) ≠ None) then ret (true, None)
      else ret (false, None)
  end.

Definition Reconcile (req : Request) : M (Result * option error) :=
  (* If the Namespace is in the process of being deleted, don't handle any
     additional requests. *)
  do '(isNamespaceBeingDeleted, err) <- isRequestNamespaceBeingDeleted (nnNamespace req);
  if decide (isNamespaceBeingDeleted = true ∨ err ≠ None) then ret (noRequeue, err)
  else
  let environment :=
    {| envAPIVersion := ""; envKind := "";
       envMeta := namedMeta (nnName req) (nnNamespace req);
       envSpec := mkEnvironmentSpec "" None; envConditions := [] |} in
  do r <- k8sGet (T := Environment) (objectKey environment);
  match r with
  | inl err =>
      if negb (IsNotFound err) then
        (* If a generic error occurred, return it *)
        ret (noRequeue, Some (Errorf "unable to retrieve Environment resource: " err))
      else
        (* If the Environment resource no longer exists... *)
        let gitOpsDeplManagedEnv :=
          generateEmptyManagedEnvironment (Name (envMeta environment))
            (Namespace (envMeta environment)) in
        (* A) the corresponding GitOpsDeploymentManagedEnvironment should be deleted. *)
        do r <- k8sGet (T := GitOpsDeploymentManagedEnvironment)
                  (objectKey gitOpsDeplManagedEnv);
        match r with
        | inl err =>
            if IsNotFound err then
              (* it no longer exists, so no more work to do *)
              ret (noRequeue, None)
            else
              ret (noRequeue,
                   Some (Errorf "unable to retrieve GitOpsDeploymentManagedEnvironment: " err))
        | inr gitOpsDeplManagedEnv =>
            (* The GitOpsDeploymentManagedEnvironment exists, so delete it.... *)
            do derr <- k8sDelete gitOpsDeplManagedEnv;
            match derr with
            | Some derr =>
                if negb (IsNotFound derr) then
                  ret (noRequeue,
                       Some (Errorf
                         "unable to delete GitOpsDeploymentMangedEnvironment resource: " derr))
                else
                  (* Otherwise, our work is done, as it no longer exists. *)
                  ret (noRequeue, None)
            | None => ret (noRequeue, None)
            end
        end
  | inr environment =>
      if decide (GetDeploymentTargetClaimName environment ≠ ""
                 ∧ UnstableConfigurationFields (envSpec environment) ≠ None) then
        (* Update Status.Conditions field of Environment. *)
        do '(uerr, environment) <-
          updateStatusConditionOfEnvironment
            "Environment is invalid since it cannot have both DeploymentTargetClaim and credentials configuration set"
            environment EnvironmentConditionErrorOccurred ConditionTrue
            EnvironmentReasonErrorOccurred;
        match uerr with
        | Some uerr =>
            ret (noRequeue,
                 Some (Errorf "unable to update environment status condition. " uerr))
        | None => ret (noRequeue, None)
        end
      else
        (* the generator works on a copy of the Environment *)
        do '(desiredManagedEnv, semanticErrOccurred_dontContinue, err) <-
          generateDesiredResource environment;
        match err with
        | Some err =>
            (* A serious error occurred *)
            ret (noRequeue,
                 Some (Errorf
                   "unable to generate expected GitOpsDeploymentManagedEnvironment resource: "
                   err))
        | None =>
            if semanticErrOccurred_dontContinue then
              (* reconciling will not fix it: exit without continuing *)
              ret (noRequeue, None)
            else
              match desiredManagedEnv with
              | None =>
                  (* Update Status.Conditions as false if error is resolved *)
                  do '(rerr, environment) <-
                    updateConditionErrorAsResolved "" environment
                      EnvironmentConditionErrorOccurred ConditionFalse
                      EnvironmentReasonErrorOccurred;
                  match rerr with
                  | Some rerr =>
                      ret (noRequeue,
                           Some (Errorf "unable to 'updateConditionErrorAsResolved': " rerr))
                  | None => ret (noRequeue, None)
                  end
              | Some desiredManagedEnv =>
                  let currentManagedEnv :=
                    generateEmptyManagedEnvironment (Name (envMeta environment))
                      (Namespace (envMeta environment)) in
                  do r <- k8sGet (T := GitOpsDeploymentManagedEnvironment)
                            (objectKey currentManagedEnv);
                  match r with
                  | inl gerr =>
                      if IsNotFound gerr then
                        (* B) it doesn't exist, so needs to be created. *)
                        do cerr <- k8sCreate desiredManagedEnv;
                        match cerr with
                        | Some cerr =>
                            ret (noRequeue,
                                 Some (Errorf
                                   "unable to create new GitOpsDeploymentManagedEnvironment: "
                                   cerr))
                        | None => ret (noRequeue, None)
                        end
                      else
                        ret (noRequeue,
                             Some (Errorf
                               ("unable to retrieve existing GitOpsDeploymentManagedEnvironment '"
                                  +:+ Name (meMeta currentManagedEnv) +:+ "': ") gerr))
                  | inr currentManagedEnv =>
                      do '(rerr, environment) <-
                        updateConditionErrorAsResolved "" environment
                          EnvironmentConditionErrorOccurred ConditionFalse
                          EnvironmentReasonErrorOccurred;
                      match rerr with
                      | Some rerr => ret (noRequeue, Some rerr)
                      | None =>
                          (* C) it already exists: compare it with the desired
                             state, and update it if different. *)
                          if decide (meSpec currentManagedEnv = meSpec desiredManagedEnv) then
                            ret (noRequeue, None)
                          else
                            let currentManagedEnv :=
                              mkManagedEnvironment (meMeta currentManagedEnv)
                                (meSpec desiredManagedEnv) in
                            do uerr <- k8sUpdate currentManagedEnv;
                            match uerr with
                            | Some uerr =>
                                ret (noRequeue,
                                     Some (Errorf
                                       ("unable to update existing GitOpsDeploymentManagedEnvironment '"
                                          +:+ Name (meMeta currentManagedEnv) +:+ "': ") uerr))
                            | None => ret (noRequeue, None)
                            end
                      end
                  end
              end
        end
  end.

(** ** Event-to-request mappers *)

(** findObjectsForGitOpsDeploymentManagedEnvironment maps an incoming
    GitOpsDeploymentManagedEnvironment event to the corresponding Environment
    request. *)
Definition findObjectsForGitOpsDeploymentManagedEnvironment
    (managedEnv : GitOpsDeploymentManagedEnvironment) : list Request :=
  fold_left (fun envRequests ownerRef =>
      if decide (orKind ownerRef = "Environment"
                 ∧ orAPIVersion ownerRef
                   = GroupVersion_Group +:+ "/" +:+ GroupVersion_Version) then
        envRequests ++ [ mkNamespacedName (Namespace (meMeta managedEnv)) (orName ownerRef) ]
      else envRequests)
    (OwnerReferences (meMeta managedEnv)) [].

(** findObjectsForDeploymentTargetClaim maps an incoming DTC event to the
    corresponding Environment request. *)
Definition findObjectsForDeploymentTargetClaim (dtc : DeploymentTargetClaim)
    : M (list Request) :=
  do r <- k8sList (T := Environment) (Namespace (dtcMeta dtc));
  match r with
  | inl _ => ret []
  | inr envList =>
      ret (fold_left (fun envRequests env =>
             if decide (GetDeploymentTargetClaimName env = Name (dtcMeta dtc)) then
               envRequests ++ [ objectKey env ]
             else envRequests)
           envList [])
  end.

(** findObjectsForDeploymentTarget maps an incoming DT event to the
    corresponding Environment request. *)
Definition findObjectsForDeploymentTarget (dt : DeploymentTarget) : M (list Request) :=
  (* 1. Find all DeploymentTargetClaims that are associated with this DeploymentTarget. *)
  do r <- k8sList (T := DeploymentTargetClaim) (Namespace (dtMeta dt));
  match r with
  | inl _ => ret []
  | inr dtcList =>
      let dtcs :=
        fold_left (fun dtcs dtc =>
            if decide (dtcTargetName dtc = Name (dtMeta dt)
                       ∨ dtClaimRef dt = Name (dtcMeta dtc)) then dtcs ++ [dtc]
            else dtcs)
          dtcList [] in
      (* 2. Find all Environments that are associated with this DeploymentTargetClaim. *)
      do r <- k8sList (T := Environment) (Namespace (dtMeta dt));
      match r with
      | inl _ => ret []
      | inr envList =>
          ret (fold_left (fun envRequests env =>
                 fold_left (fun envRequests dtc =>
                     if decide (GetDeploymentTargetClaimName env = Name (dtcMeta dtc)) then
                       envRequests ++ [ objectKey env ]
                     else envRequests)
                   dtcs envRequests)
               envList [])
      end
  end.

(** [appstudioshared.DeploymentTarget{}] *)
Definition emptyDeploymentTarget : DeploymentTarget :=
  {| dtMeta := namedMeta "" ""; dtClaimRef := "";
     dtCredentials := mkKubernetesClusterCredentials "" "" false |}.

(** The loop of [findObjectsForSecret] over the listed Environments; a failed
    fetch of a claim leaves the loop and the function with no request. *)
Fixpoint findObjectsForSecret_envs (secret : Secret) (dtList : list DeploymentTarget)
    (envs : list Environment) (envRequests : list Request) : M (list Request) :=
  match envs with
  | [] => ret envRequests
  | env :: rest =>
      (* 1. Find the DTC that is associated with the Environment *)
      let dtcName := GetDeploymentTargetClaimName env in
      if decide (dtcName = "") then findObjectsForSecret_envs secret dtList rest envRequests
      else
        let dtc :=
          {| dtcMeta := namedMeta dtcName (Namespace (envMeta env));
             dtcTargetName := ""; dtcPhase := "" |} in
        do r <- k8sGet (T := DeploymentTargetClaim) (objectKey dtc);
        match r with
        | inl _ => ret []
        | inr dtc =>
            (* 2. Find the corresponding DT for the DTC *)
            let dt := default emptyDeploymentTarget (firstBound dtc dtList) in
            (* 3. only secrets that are part of the DT configured for the Environment *)
            if decide (ClusterCredentialsSecret (dtCredentials dt) = Name (secMeta secret)) then
              findObjectsForSecret_envs secret dtList rest (envRequests ++ [ objectKey env ])
            else findObjectsForSecret_envs secret dtList rest envRequests
        end
  end.

(** findObjectsForSecret finds all the Environment objects that are using this
    incoming secret. *)
Definition findObjectsForSecret (secret : Secret) : M (list Request) :=
  (* Filter secrets to avoid unnecessary API calls on them. *)
  if decide (secType secret ≠ SecretTypeOpaque
             ∧ secType secret ≠ ManagedEnvironmentSecretType) then ret []
  else if decide (secType secret = ManagedEnvironmentSecretType) then
    (* the secret is created by the Environment controller *)
    let envName := default "" (Labels (secMeta secret) !! managedEnvironmentSecretLabel) in
    if decide (envName ≠ "") then
      ret [ mkNamespacedName (Namespace (secMeta secret)) envName ]
    else ret []
  else
    (* created by the SpaceRequest controller: find the corresponding Environment. *)
    do r <- k8sList (T := Environment) (Namespace (secMeta secret));
    match r with
    | inl _ => ret []
    | inr envList =>
        do r <- k8sList (T := DeploymentTarget) (Namespace (secMeta secret));
        match r with
        | inl _ => ret []
        | inr dtList => findObjectsForSecret_envs secret dtList envList []
        end
    end.

(** * Vocabulary of the statements *)

(** The fault, if any, the schedule holds for the [n]-th call from now. *)
Definition scheduled (n : nat) (s : list (option string)) : option string :=
  match s !! n with
  | Some f => f
  | None => None
  end.

(** A client is reliable when nothing is left on its schedule. *)
Definition reliable (c : Client) : Prop := schedule c = [].

Definition logged (v : Verb) (k : ResourceKind) (key : NamespacedName)
    (e : option error) (s : Cluster) (c : Client) : Client :=
  mkClient s (tail (schedule c)) (mkEvent v k key e :: calls c).

Definition raisedCondition (message : string) : Condition :=
  {| condType := EnvironmentConditionErrorOccurred; condMessage := message;
     condStatus := ConditionTrue; condReason := EnvironmentReasonErrorOccurred |}.

Definition resolvedCondition (reason : string) : Condition :=
  {| condType := EnvironmentConditionErrorOccurred; condMessage := "";
     condStatus := ConditionFalse; condReason := reason +:+ "Resolved" |}.


(** Whether [updateConditionErrorAsResolved] has something to write. *)
Definition needsResolve (reason : string) (l : list Condition) : bool :=
  let '(cond, present) := findCondition l EnvironmentConditionErrorOccurred in
  present && bool_decide (condReason cond ≠ reason +:+ "Resolved").

(** A fetch of a DeploymentTargetClaim that failed, for whatever reason. *)
Definition failedClaimFetch (ev : Event) : Prop :=
  evVerb ev = VGet ∧ evKind ev = KDeploymentTargetClaim ∧ evErr ev ≠ None.

(** The key of the ManagedEnvironment derived from the Environment [req]. *)
Definition managedEnvironmentKey (req : Request) : NamespacedName :=
  mkNamespacedName (nnNamespace req) ("managed-environment-" +:+ nnName req).

(** The namespace of the request exists and is not being deleted. *)
Definition namespaceActive (ns : string) (s : Cluster) : Prop :=
  ∃ namespace,
    lookupObj (mkNamespacedName "" ns) (namespaces s) = Some namespace
    ∧ DeletionTimestamp (nsMeta namespace) = None.

(** The cluster after the status of [e] has been written. *)
Definition withEnvironment (e : Environment) (s : Cluster) : Cluster :=
  setItems (replaceObj e (environments s)) s.


Definition invalidEnvironmentCondition : Condition :=
  raisedCondition
    "Environment is invalid since it cannot have both DeploymentTargetClaim and credentials configuration set".

(** The conditions [updateConditionErrorAsResolved] leaves in memory. *)
Definition resolvedConditions (l : list Condition) : list Condition :=
  if needsResolve EnvironmentReasonErrorOccurred l then
    (insertOrUpdateConditionsInSlice
       (resolvedCondition EnvironmentReasonErrorOccurred) l).2
  else l.

(** The conditions a raise with [message] leaves in memory. *)
Definition raisedConditions (message : string) (l : list Condition) : list Condition :=
  (insertOrUpdateConditionsInSlice (raisedCondition message) l).2.

(** The status write, when there is one. *)
Definition statusCalls (written : bool) (key : NamespacedName) : list Event :=
  if written then [ mkEvent VStatusUpdate KEnvironment key None ] else [].

Definition managedSecretKey (env : Environment) : NamespacedName :=
  mkNamespacedName (Namespace (envMeta env))
    (generateManagedEnvSecretName (Name (envMeta env))).

(** The managed secret the generator creates for [env], holding [data]. *)
Definition managedSecretOf (env : Environment) (data : gmap string string) : Secret :=
  {| secMeta :=
       {| Name := generateManagedEnvSecretName (Name (envMeta env));
          Namespace := Namespace (envMeta env);
          UID := "";
          Labels := {[ managedEnvironmentSecretLabel := Name (envMeta env) ]};
          OwnerReferences :=
            [ {| orAPIVersion := envAPIVersion env; orKind := envKind env;
                 orName := Name (envMeta env); orUID := UID (envMeta env);
                 orBlockOwnerDeletion := Some true; orController := Some true |} ];
          DeletionTimestamp := None |};
     secType := ManagedEnvironmentSecretType;
     secData := data |}.

(** The spec the generator derives from resolved credentials: API URL and
    TLS flag of the credentials, the given secret name, and the cluster
    resources flag and a copy of the namespaces of the inline block, if any. *)
Definition desiredSpec (env : Environment) (credentials : KubernetesClusterCredentials)
    (secretName : string) : GitOpsDeploymentManagedEnvironmentSpec :=
  {| meAPIURL := APIURL credentials;
     meClusterCredentialsSecret := secretName;
     meAllowInsecureSkipTLSVerify := AllowInsecureSkipTLSVerify credentials;
     meClusterResources :=
       match UnstableConfigurationFields (envSpec env) with
       | Some ucf => ucfClusterResources ucf
       | None => false
       end;
     meNamespaces :=
       match UnstableConfigurationFields (envSpec env) with
       | Some ucf => ucfNamespaces ucf
       | None => []
       end |}.

Definition desiredManagedEnvironment (env : Environment)
    (spec : GitOpsDeploymentManagedEnvironmentSpec) : GitOpsDeploymentManagedEnvironment :=
  {| meMeta :=
       {| Name := "managed-environment-" +:+ Name (envMeta env);
          Namespace := Namespace (envMeta env);
          UID := ""; Labels := ∅;
          OwnerReferences :=
            [ {| orAPIVersion := GroupVersion_Group +:+ "/" +:+ GroupVersion_Version;
                 orKind := "Environment";
                 orName := Name (envMeta env); orUID := UID (envMeta env);
                 orBlockOwnerDeletion := None; orController := None |} ];
          DeletionTimestamp := None |};
     meSpec := spec |}.

(** Mirroring the data of [secret] into the managed secret of [env]: the
    cluster afterwards and the calls issued, newest first. *)
Definition mirrorSecret (env : Environment) (secret : Secret) (s : Cluster)
    : Cluster * list Event :=
  let key := managedSecretKey env in
  match lookupObj key (secrets s) with
  | None =>
      (setItems (secrets s ++ [managedSecretOf env (secData secret)]) s,
       [ mkEvent VCreate KSecret key None;
         mkEvent VGet KSecret key (Some (notFound key)) ])
  | Some managed =>
      if decide (secData secret ≠ secData managed) then
        (setItems (replaceObj (mkSecret (secMeta managed) (secType managed)
                                 (secData secret)) (secrets s)) s,
         [ mkEvent VUpdate KSecret key None; mkEvent VGet KSecret key None ])
      else (s, [ mkEvent VGet KSecret key None ])
  end.

Definition credentialSecretKey (env : Environment)
    (credentials : KubernetesClusterCredentials) : NamespacedName :=
  mkNamespacedName (Namespace (envMeta env)) (ClusterCredentialsSecret credentials).

Definition missingSecretMessage (secretName : string) : string :=
  "the secret " +:+ secretName +:+ " referenced by the Environment resource was not found".

(** Bringing the stored ManagedEnvironment to the spec of [desired]: the
    cluster afterwards and the calls issued, newest first ([written] tells
    whether resolving the condition from the caller's copy wrote the status). *)
Definition applyManagedEnvironment (written : bool) (req : Request)
    (desired : GitOpsDeploymentManagedEnvironment) (s : Cluster) : Cluster * list Event :=
  let key := managedEnvironmentKey req in
  match lookupObj key (managedEnvironments s) with
  | None =>
      (setItems (managedEnvironments s ++ [desired]) s,
       [ mkEvent VCreate KManagedEnvironment key None;
         mkEvent VGet KManagedEnvironment key (Some (notFound key)) ])
  | Some current =>
      if decide (meSpec current = meSpec desired) then
        (s, statusCalls written req ++ [ mkEvent VGet KManagedEnvironment key None ])
      else
        (setItems (replaceObj (mkManagedEnvironment (meMeta current) (meSpec desired))
                     (managedEnvironments s)) s,
         mkEvent VUpdate KManagedEnvironment key None
           :: statusCalls written req ++ [ mkEvent VGet KManagedEnvironment key None ])
  end.

Definition readEvents (req : Request) : list Event :=
  [ mkEvent VGet KEnvironment req None;
    mkEvent VGet KNamespace (mkNamespacedName "" (nnNamespace req)) None ].

(** The credentials the generator resolves for an Environment: the inline
    ones, or those of the target bound to its (bound) claim. *)
Definition resolvedCredentials (env : Environment) (s : Cluster)
    (credentials : KubernetesClusterCredentials) : Prop :=
  (GetDeploymentTargetClaimName env = ""
   ∧ ∃ ucf, UnstableConfigurationFields (envSpec env) = Some ucf
            ∧ credentials = ucfCredentials ucf)
  ∨ (GetDeploymentTargetClaimName env ≠ ""
     ∧ ∃ dtc dt,
         lookupObj (mkNamespacedName (Namespace (envMeta env))
                      (GetDeploymentTargetClaimName env))
           (deploymentTargetClaims s) = Some dtc
         ∧ dtcPhase dtc = DeploymentTargetClaimPhase_Bound
         ∧ resolveTarget dtc (inNamespace (Namespace (envMeta env)) (deploymentTargets s))
           = Some dt
         ∧ credentials = dtCredentials dt).

Definition readOrStatus (ev : Event) : Prop :=
  evVerb ev = VGet ∨ evVerb ev = VList ∨ evVerb ev = VStatusUpdate.

Definition managedSecretName (env : Environment) : string :=
  generateManagedEnvSecretName (Name (envMeta env)).

(** The calls issued between the client states [c] and [c'], newest first. *)
Definition newCalls (c c' : Client) : list Event :=
  take (length (calls c') - length (calls c)) (calls c').

(** Calls that create, update or delete an object (status writes apart). *)
Definition isWrite (ev : Event) : Prop :=
  evVerb ev = VCreate ∨ evVerb ev = VUpdate ∨ evVerb ev = VDelete.

#[global] Instance isWrite_dec ev : Decision (isWrite ev).
Proof. unfold isWrite. apply _. Defined.

Definition writeCalls (l : list Event) : list Event := filter isWrite l.

(** A call that failed with an error that is not "not found". *)
Definition genericFailure (ev : Event) : Prop :=
  ∃ e, evErr ev = Some e ∧ IsNotFound e = false.

(** A log without such a call. *)
Definition clean (l : list Event) : Prop := Forall (λ ev, ¬ genericFailure ev) l.

(** [m] surfaces failures: when it ends with a result that is [ok], it has
    added no generic failure to a clean log. *)
Definition surfaces {A} (m : M A) (ok : A → Prop) : Prop :=
  ∀ c, clean (calls c) → ok (m c).1 → clean (calls (m c).2).

Definition notGenericResult {A} (r : error + A) : Prop :=
  match r with inl e => IsNotFound e = true | inr _ => True end.

Definition notGenericError (o : option error) : Prop :=
  match o with Some e => IsNotFound e = true | None => True end.

(** The generator ends well when it returns no error. *)
Definition generated_ok (r : desiredResult) : Prop := r.2 = None.

(** The claim C5 makes about one reconciliation: a generic failure of a call
    is returned as an error, and the Environments are stored as before. *)
Definition transientFailureUnrecorded (req : Request) (c : Client) : Prop :=
  clean (calls c) → ¬ clean (calls (Reconcile req c).2) →
  is_Some (Reconcile req c).1.2
  ∧ environments (cluster (Reconcile req c).2) = environments (cluster c).

Definition claimNotFoundMessage : string :=
  "DeploymentTargetClaim not found while generating the desired Environment resource".

Definition targetNotFoundMessage : string :=
  "DeploymentTarget not found for DeploymentTargetClaim".

Definition claimKey (env : Environment) : NamespacedName :=
  mkNamespacedName (Namespace (envMeta env)) (GetDeploymentTargetClaimName env).




(** A call that reads: a Get or a List. *)
Definition isRead (ev : Event) : Prop := evVerb ev = VGet ∨ evVerb ev = VList.




(** The calls of the generator whose generic failure makes it raise the
    condition before it returns: the fetch of a DeploymentTargetClaim, the
    listing of the DeploymentTargets, the fetch of a Secret. *)
Definition raiseSite (ev : Event) : Prop :=
  (evVerb ev = VGet ∧ evKind ev = KDeploymentTargetClaim)
  ∨ (evVerb ev = VList ∧ evKind ev = KDeploymentTarget)
  ∨ (evVerb ev = VGet ∧ evKind ev = KSecret).

(** A log whose first generic failure is its last call, or is followed by
    one status update of an Environment and nothing else, which only happens
    after a call of [raiseSite]. *)
Definition failedLast (l : list Event) : Prop :=
  ∃ after ev older,
    l = after ++ ev :: older
    ∧ genericFailure ev ∧ clean older
    ∧ (after = []
       ∨ (raiseSite ev
          ∧ ∃ key outcome, after = [ mkEvent VStatusUpdate KEnvironment key outcome ])).

(** [m] stops at the first generic failure: started on a clean log, it leaves
    a clean log or one of [failedLast]. *)
Definition failsLast {A} (m : M A) : Prop :=
  ∀ c, clean (calls c) → ¬ clean (calls (m c).2) → failedLast (calls (m c).2).

(** [m] issues no call. *)
Definition silent {A} (m : M A) : Prop := ∀ c, calls (m c).2 = calls c.

(** [m] issues the call [v k key], once. *)
Definition oneCall {A} (v : Verb) (k : ResourceKind) (key : NamespacedName) (m : M A)
    : Prop :=
  ∀ c, ∃ outcome, calls (m c).2 = mkEvent v k key outcome :: calls c.

(** [m] issues no call, or one status update of an Environment. *)
Definition atMostStatus {A} (m : M A) : Prop :=
  ∀ c, calls (m c).2 = calls c
       ∨ ∃ key outcome,
           calls (m c).2 = mkEvent VStatusUpdate KEnvironment key outcome :: calls c.

(** ** Frames and reads *)

(** [m] takes every client to one related to it by [R] and ends with a result
    in [Q]. *)
Definition keeps {A} (R : relation Client) (m : M A) (Q : A → Prop) : Prop :=
  ∀ c, R c (m c).2 ∧ Q (m c).1.

(** The key of the secret the controller manages for the Environment [req]. *)
Definition ownedSecretKey (req : Request) : NamespacedName :=
  mkNamespacedName (nnNamespace req) (generateManagedEnvSecretName (nnName req)).

(** The Environments [l'] are the Environments [l], up to the condition list
    of the one stored under [key]. *)
Definition conditionsOnly (key : NamespacedName) (l l' : list Environment) : Prop :=
  l' = l
  ∨ ∃ stored conds,
      lookupObj key l = Some stored ∧ l' = replaceObj (withConditions stored conds) l.

(** Every object but the one stored under [key] is served as before. *)
Definition othersServed `{Resource T} (key : NamespacedName) (l l' : list T) : Prop :=
  ∀ k, k ≠ key → lookupObj k l' = lookupObj k l.

(** What a run of the generator for the Environment [req] may change. *)
Definition generatorFrame (req : Request) (c c' : Client) : Prop :=
  namespaces (cluster c') = namespaces (cluster c)
  ∧ deploymentTargetClaims (cluster c') = deploymentTargetClaims (cluster c)
  ∧ deploymentTargets (cluster c') = deploymentTargets (cluster c)
  ∧ managedEnvironments (cluster c') = managedEnvironments (cluster c)
  ∧ conditionsOnly req (environments (cluster c)) (environments (cluster c'))
  ∧ othersServed (ownedSecretKey req) (secrets (cluster c)) (secrets (cluster c')).

(** What a reconciliation of [req] may change. *)
Definition reconcileFrame (req : Request) (c c' : Client) : Prop :=
  namespaces (cluster c') = namespaces (cluster c)
  ∧ deploymentTargetClaims (cluster c') = deploymentTargetClaims (cluster c)
  ∧ deploymentTargets (cluster c') = deploymentTargets (cluster c)
  ∧ conditionsOnly req (environments (cluster c)) (environments (cluster c'))
  ∧ othersServed (ownedSecretKey req) (secrets (cluster c)) (secrets (cluster c'))
  ∧ othersServed (managedEnvironmentKey req)
      (managedEnvironments (cluster c)) (managedEnvironments (cluster c')).

(** The result of the generator for the Environment [req] is well formed: a
    desired ManagedEnvironment comes with no error and no flag, under the name
    derived from the Environment, and leads back to the Environment. *)
Definition generatedFor (req : Request) (r : desiredResult) : Prop :=
  ∀ desired, r.1.1 = Some desired →
    r.1.2 = false ∧ r.2 = None
    ∧ objectKey desired = managedEnvironmentKey req
    ∧ findObjectsForGitOpsDeploymentManagedEnvironment desired = [req].

(** [c'] is [c] after some reads: the same cluster, and a log extended by
    Get and List calls only. *)
Definition readOnly (c c' : Client) : Prop :=
  cluster c' = cluster c ∧ ∃ new, calls c' = new ++ calls c ∧ Forall isRead new.


(** Every ManagedEnvironment served by [c] is still served by [c'], under
    the same key. *)
Definition keepsManaged (c c' : Client) : Prop :=
  ∀ k, is_Some (lookupObj k (managedEnvironments (cluster c))) →
       is_Some (lookupObj k (managedEnvironments (cluster c'))).

(** ** A sample cluster *)

Definition sampleNamespace : NamespaceObject :=
  mkNamespaceObject (namedMeta "team-a" "").

Definition sampleCredentials : KubernetesClusterCredentials :=
  mkKubernetesClusterCredentials "https://api.staging.example:6443" "staging-creds" true.

Definition sampleInline : UnstableEnvironmentConfiguration :=
  mkUnstableEnvironmentConfiguration sampleCredentials true ["apps"; "monitoring"].

Definition sampleMeta (name uid : string) : ObjectMeta :=
  mkObjectMeta name "team-a" uid ∅ [] None.

(** An Environment with inline credentials. *)
Definition stagingEnvironment : Environment :=
  mkEnvironment "appstudio.redhat.com/v1alpha1" "Environment"
    (sampleMeta "staging" "uid-staging")
    (mkEnvironmentSpec "" (Some sampleInline)) [].

(** An Environment bound through a claim. *)
Definition prodEnvironment : Environment :=
  mkEnvironment "appstudio.redhat.com/v1alpha1" "Environment"
    (sampleMeta "prod" "uid-prod")
    (mkEnvironmentSpec "prod-claim" None) [].

(** A second Environment referencing the same claim. *)
Definition canaryEnvironment : Environment :=
  mkEnvironment "appstudio.redhat.com/v1alpha1" "Environment"
    (sampleMeta "canary" "uid-canary")
    (mkEnvironmentSpec "prod-claim" None) [].

(** An Environment with both a claim and inline credentials. *)
Definition brokenEnvironment : Environment :=
  mkEnvironment "appstudio.redhat.com/v1alpha1" "Environment"
    (sampleMeta "broken" "uid-broken")
    (mkEnvironmentSpec "prod-claim" (Some sampleInline)) [].

(** An Environment with inline credentials whose secret does not exist. *)
Definition orphanedEnvironment : Environment :=
  mkEnvironment "appstudio.redhat.com/v1alpha1" "Environment"
    (sampleMeta "orphaned" "uid-orphaned")
    (mkEnvironmentSpec ""
       (Some (mkUnstableEnvironmentConfiguration
                (mkKubernetesClusterCredentials "https://api.gone.example" "gone-creds"
                   false) false [])))
    [].

Definition prodClaim : DeploymentTargetClaim :=
  mkDeploymentTargetClaim (sampleMeta "prod-claim" "uid-claim") "prod-target"
    DeploymentTargetClaimPhase_Bound.

Definition prodTarget : DeploymentTarget :=
  mkDeploymentTarget (sampleMeta "prod-target" "uid-target") "prod-claim"
    (mkKubernetesClusterCredentials "https://api.prod.example:6443" "space-creds" false).

Definition stagingSecret : Secret :=
  mkSecret (sampleMeta "staging-creds" "uid-s1") SecretTypeOpaque {[ "a" := "1" ]}.

Definition spaceSecret : Secret :=
  mkSecret (sampleMeta "space-creds" "uid-s2") SecretTypeOpaque {[ "a" := "1" ]}.

(** A ManagedEnvironment whose Environment "retired" is gone. *)
Definition retiredManagedEnvironment : GitOpsDeploymentManagedEnvironment :=
  mkManagedEnvironment (sampleMeta "managed-environment-retired" "uid-m1")
    (mkManagedEnvironmentSpec "https://api.old.example" "old-creds" false false []).

Definition sampleCluster : Cluster :=
  {| namespaces := [sampleNamespace];
     environments :=
       [stagingEnvironment; prodEnvironment; canaryEnvironment; brokenEnvironment;
        orphanedEnvironment];
     managedEnvironments := [retiredManagedEnvironment];
     secrets := [stagingSecret; spaceSecret];
     deploymentTargetClaims := [prodClaim];
     deploymentTargets := [prodTarget] |}.

Definition sampleClient : Client := mkClient sampleCluster [] [].

(** The same cluster behind a client whose third call fails. *)
Definition flakyClient : Client :=
  mkClient sampleCluster [None; None; Some "connection refused"] [].

(** A cluster in which one Environment references a claim that does not exist. *)
Definition danglingEnvironment : Environment :=
  mkEnvironment "appstudio.redhat.com/v1alpha1" "Environment"
    (sampleMeta "dangling" "uid-dangling")
    (mkEnvironmentSpec "no-such-claim" None) [].

Definition danglingClient : Client :=
  mkClient
    {| namespaces := [sampleNamespace];
       environments := [prodEnvironment; danglingEnvironment];
       managedEnvironments := [];
       secrets := [spaceSecret];
       deploymentTargetClaims := [prodClaim];
       deploymentTargets := [prodTarget] |} [] [].

(** The managed secret left behind for "orphaned", in a cluster that has lost
    the source secret. *)
Definition orphanedManagedSecret : Secret :=
  mkSecret (sampleMeta "managed-environment-secret-orphaned" "uid-s3")
    ManagedEnvironmentSecretType {[ "a" := "1" ]}.

Definition orphanedClient : Client :=
  mkClient
    {| namespaces := [sampleNamespace];
       environments := [orphanedEnvironment];
       managedEnvironments := [];
       secrets := [orphanedManagedSecret];
       deploymentTargetClaims := [];
       deploymentTargets := [] |} [] [].

(** An Environment on which the error condition has been raised. *)
Definition raisedEnvironment : Environment :=
  withConditions stagingEnvironment [raisedCondition "the secret was not found"].

Definition stagingRequest : Request := mkNamespacedName "team-a" "staging".

Definition prodRequest : Request := mkNamespacedName "team-a" "prod".


Definition orphanedRequest : Request := mkNamespacedName "team-a" "orphaned".

Definition retiredRequest : Request := mkNamespacedName "team-a" "retired".




(** ** A cluster of Environments that are not ready *)

(** An Environment whose claim is still pending. *)
Definition pendingEnvironment : Environment :=
  mkEnvironment "appstudio.redhat.com/v1alpha1" "Environment"
    (sampleMeta "pending" "uid-pending")
    (mkEnvironmentSpec "pending-claim" None) [].

Definition pendingClaim : DeploymentTargetClaim :=
  mkDeploymentTargetClaim (sampleMeta "pending-claim" "uid-pending-claim") "" "Pending".

(** An Environment whose claim is bound to a target that is not there. *)
Definition lonelyEnvironment : Environment :=
  mkEnvironment "appstudio.redhat.com/v1alpha1" "Environment"
    (sampleMeta "lonely" "uid-lonely")
    (mkEnvironmentSpec "lonely-claim" None) [].

Definition lonelyClaim : DeploymentTargetClaim :=
  mkDeploymentTargetClaim (sampleMeta "lonely-claim" "uid-lonely-claim") "lost-target"
    DeploymentTargetClaimPhase_Bound.

(** An Environment with neither a claim nor inline credentials. *)
Definition bareEnvironment : Environment :=
  mkEnvironment "appstudio.redhat.com/v1alpha1" "Environment"
    (sampleMeta "bare" "uid-bare") (mkEnvironmentSpec "" None) [].

Definition waitingClient : Client :=
  mkClient
    {| namespaces := [sampleNamespace];
       environments := [pendingEnvironment; lonelyEnvironment; bareEnvironment];
       managedEnvironments := [];
       secrets := [];
       deploymentTargetClaims := [pendingClaim; lonelyClaim];
       deploymentTargets := [prodTarget] |} [] [].

Definition lonelyRequest : Request := mkNamespacedName "team-a" "lonely".
Definition danglingRequest : Request := mkNamespacedName "team-a" "dangling".

(** * Properties *)

(** ** The object collections *)

Section CollectionFacts.
Context `{Resource T}.
Implicit Types (l : list T) (o x : T) (k : NamespacedName).

Lemma lookupObj_key k l o : lookupObj k l = Some o → objectKey o = k.
Proof.
  induction l as [|x r IH]; simpl; [done|].
  case_decide; [by intros [= ->]|done].
Qed.

Lemma lookupObj_elem_of k l o : lookupObj k l = Some o → o ∈ l.
Proof.
  induction l as [|x r IH]; simpl; [done|].
  case_decide.
  - intros [= ->]. left.
  - intros ?. right. auto.
Qed.

Lemma lookupObj_replaceObj k o l :
  lookupObj k (replaceObj o l) =
    if decide (objectKey o = k)
    then match lookupObj k l with Some _ => Some o | None => None end
    else lookupObj k l.
Proof.
  induction l as [|x r IH]; simpl.
  - by case_decide.
  - destruct (decide (objectKey x = objectKey o)) as [Hx|Hx]; simpl.
    + repeat case_decide; simplify_eq; try done; congruence.
    + rewrite IH. repeat case_decide; simplify_eq; try done; congruence.
Qed.

Lemma lookupObj_replaceObj_eq o l x :
  lookupObj (objectKey o) l = Some x →
  lookupObj (objectKey o) (replaceObj o l) = Some o.
Proof. intros Hl. rewrite lookupObj_replaceObj, decide_True, Hl; done. Qed.

Lemma lookupObj_replaceObj_ne k o l :
  objectKey o ≠ k → lookupObj k (replaceObj o l) = lookupObj k l.
Proof. intros. by rewrite lookupObj_replaceObj, decide_False. Qed.

Lemma replaceObj_id o l : lookupObj (objectKey o) l = Some o → replaceObj o l = l.
Proof.
  induction l as [|x r IH]; simpl; [done|].
  case_decide; [by intros [= ->]|]. intros ?. f_equal. auto.
Qed.

Lemma replaceObj_replaceObj o1 o2 l :
  objectKey o1 = objectKey o2 → replaceObj o2 (replaceObj o1 l) = replaceObj o2 l.
Proof.
  intros Hk. induction l as [|x r IH]; simpl; [done|].
  rewrite Hk. case_decide; simpl.
  - by rewrite decide_True by done.
  - rewrite decide_False by done. by rewrite IH.
Qed.

Lemma lookupObj_app k l o :
  lookupObj k (l ++ [o]) =
    match lookupObj k l with
    | Some x => Some x
    | None => if decide (objectKey o = k) then Some o else None
    end.
Proof.
  induction l as [|x r IH]; simpl; [done|].
  destruct (decide (objectKey x = k)); [done|apply IH].
Qed.

Lemma lookupObj_removeObj k k' l :
  lookupObj k (removeObj k' l) = if decide (k' = k) then None else lookupObj k l.
Proof.
  induction l as [|x r IH]; simpl.
  - by case_decide.
  - destruct (decide (objectKey x = k')) as [Hx|Hx]; simpl.
    + rewrite IH. repeat case_decide; simplify_eq; done.
    + rewrite IH. repeat case_decide; simplify_eq; done.
Qed.

Lemma removeObj_id k l : lookupObj k l = None → removeObj k l = l.
Proof.
  induction l as [|x r IH]; simpl; [done|].
  case_decide; [done|]. intros ?. f_equal. auto.
Qed.

Lemma elem_of_inNamespace ns l o :
  o ∈ inNamespace ns l ↔ o ∈ l ∧ Namespace (metaOf o) = ns.
Proof.
  induction l as [|x r IH]; simpl.
  - split; [inversion 1|intros [Hin _]; inversion Hin].
  - case_decide as Hns; rewrite ?elem_of_cons, IH.
    + split; [intros [->|[??]]; auto|intros [[->|?] ?]; auto].
    + split; [intros [??]; auto|intros [[->|?] ?]; [done|auto]].
Qed.
End CollectionFacts.

(** ** The fault schedule *)

Lemma nextFault_scheduled s : nextFault s = (scheduled 0 s, tail s).
Proof. by destruct s. Qed.

Lemma scheduled_tail n s : scheduled n (tail s) = scheduled (S n) s.
Proof. by destruct s. Qed.

Lemma scheduled_nil n : scheduled n [] = None.
Proof. by destruct n. Qed.

(** ** Stepping through client calls *)

Lemma apiCall_fault {A} v k key (serve : Cluster → error + (A * Cluster)) c m :
  scheduled 0 (schedule c) = Some m →
  apiCall v k key serve c =
    (inl (plainError m),
     mkClient (cluster c) (tail (schedule c))
       (mkEvent v k key (Some (plainError m)) :: calls c)).
Proof. intros Hs. unfold apiCall. rewrite nextFault_scheduled, Hs. done. Qed.

Lemma apiCall_served {A} v k key (serve : Cluster → error + (A * Cluster)) c :
  scheduled 0 (schedule c) = None →
  apiCall v k key serve c =
    match serve (cluster c) with
    | inl e =>
        (inl e, mkClient (cluster c) (tail (schedule c))
                  (mkEvent v k key (Some e) :: calls c))
    | inr (a, s') =>
        (inr a, mkClient s' (tail (schedule c)) (mkEvent v k key None :: calls c))
    end.
Proof. intros Hs. unfold apiCall. rewrite nextFault_scheduled, Hs. done. Qed.

Lemma bind_eq {A B} (m : M A) (k : A → M B) c :
  bind m k c = k (m c).1 (m c).2.
Proof. unfold bind. by destruct (m c). Qed.

Lemma ret_eq {A} (a : A) c : ret a c = (a, c).
Proof. done. Qed.

Section CallFacts.
Context `{Resource T}.

Lemma k8sGet_eq (key : NamespacedName) c :
  k8sGet (T := T) key c =
    match scheduled 0 (schedule c) with
    | Some m =>
        (inl (plainError m),
         logged VGet kindOf key (Some (plainError m)) (cluster c) c)
    | None =>
        match lookupObj key (items (cluster c)) with
        | Some o => (inr o, logged VGet kindOf key None (cluster c) c)
        | None =>
            (inl (notFound key),
             logged VGet kindOf key (Some (notFound key)) (cluster c) c)
        end
    end.
Proof.
  unfold k8sGet, apiCall, logged. rewrite nextFault_scheduled.
  destruct (scheduled 0 (schedule c)); [done|].
  by destruct (lookupObj key (items (cluster c))).
Qed.

Lemma k8sList_eq (ns : string) c :
  k8sList (T := T) ns c =
    match scheduled 0 (schedule c) with
    | Some m =>
        (inl (plainError m),
         logged VList kindOf (mkNamespacedName ns "") (Some (plainError m)) (cluster c) c)
    | None =>
        (inr (inNamespace ns (items (cluster c))),
         logged VList kindOf (mkNamespacedName ns "") None (cluster c) c)
    end.
Proof.
  unfold k8sList, apiCall, logged. rewrite nextFault_scheduled.
  by destruct (scheduled 0 (schedule c)).
Qed.

Lemma k8sCreate_eq (o : T) c :
  k8sCreate o c =
    match scheduled 0 (schedule c) with
    | Some m =>
        (Some (plainError m),
         logged VCreate kindOf (objectKey o) (Some (plainError m)) (cluster c) c)
    | None =>
        match lookupObj (objectKey o) (items (cluster c)) with
        | Some _ =>
            let e := StatusAlreadyExists (nnName (objectKey o) +:+ " already exists") in
            (Some e, logged VCreate kindOf (objectKey o) (Some e) (cluster c) c)
        | None =>
            (None,
             logged VCreate kindOf (objectKey o) None
               (setItems (items (cluster c) ++ [o]) (cluster c)) c)
        end
    end.
Proof.
  unfold k8sCreate, bind, apiCall, logged. rewrite nextFault_scheduled.
  destruct (scheduled 0 (schedule c)); [done|].
  by destruct (lookupObj (objectKey o) (items (cluster c))).
Qed.

Lemma k8sUpdate_eq (o : T) c :
  k8sUpdate o c =
    match scheduled 0 (schedule c) with
    | Some m =>
        (Some (plainError m),
         logged VUpdate kindOf (objectKey o) (Some (plainError m)) (cluster c) c)
    | None =>
        match lookupObj (objectKey o) (items (cluster c)) with
        | Some _ =>
            (None,
             logged VUpdate kindOf (objectKey o) None
               (setItems (replaceObj o (items (cluster c))) (cluster c)) c)
        | None =>
            (Some (notFound (objectKey o)),
             logged VUpdate kindOf (objectKey o) (Some (notFound (objectKey o)))
               (cluster c) c)
        end
    end.
Proof.
  unfold k8sUpdate, bind, apiCall, logged. rewrite nextFault_scheduled.
  destruct (scheduled 0 (schedule c)); [done|].
  by destruct (lookupObj (objectKey o) (items (cluster c))).
Qed.

Lemma k8sDelete_eq (o : T) c :
  k8sDelete o c =
    match scheduled 0 (schedule c) with
    | Some m =>
        (Some (plainError m),
         logged VDelete kindOf (objectKey o) (Some (plainError m)) (cluster c) c)
    | None =>
        match lookupObj (objectKey o) (items (cluster c)) with
        | Some _ =>
            (None,
             logged VDelete kindOf (objectKey o) None
               (setItems (removeObj (objectKey o) (items (cluster c))) (cluster c)) c)
        | None =>
            (Some (notFound (objectKey o)),
             logged VDelete kindOf (objectKey o) (Some (notFound (objectKey o)))
               (cluster c) c)
        end
    end.
Proof.
  unfold k8sDelete, bind, apiCall, logged. rewrite nextFault_scheduled.
  destruct (scheduled 0 (schedule c)); [done|].
  by destruct (lookupObj (objectKey o) (items (cluster c))).
Qed.
End CallFacts.

Lemma k8sStatusUpdate_eq (e : Environment) c :
  k8sStatusUpdate e c =
    match scheduled 0 (schedule c) with
    | Some m =>
        ((Some (plainError m), e),
         logged VStatusUpdate KEnvironment (objectKey e) (Some (plainError m)) (cluster c) c)
    | None =>
        match lookupObj (objectKey e) (environments (cluster c)) with
        | Some stored =>
            let e' := withConditions stored (envConditions e) in
            ((None, e'),
             logged VStatusUpdate KEnvironment (objectKey e) None
               (setItems (replaceObj e' (environments (cluster c))) (cluster c)) c)
        | None =>
            ((Some (notFound (objectKey e)), e),
             logged VStatusUpdate KEnvironment (objectKey e) (Some (notFound (objectKey e)))
               (cluster c) c)
        end
    end.
Proof.
  unfold k8sStatusUpdate, bind, apiCall, logged. rewrite nextFault_scheduled.
  destruct (scheduled 0 (schedule c)); [done|].
  by destruct (lookupObj (objectKey e) (environments (cluster c))).
Qed.

Lemma schedule_logged v k key e s c : schedule (logged v k key e s c) = tail (schedule c).
Proof. done. Qed.

Lemma cluster_logged v k key e s c : cluster (logged v k key e s c) = s.
Proof. done. Qed.

Lemma calls_logged v k key e s c :
  calls (logged v k key e s c) = mkEvent v k key e :: calls c.
Proof. done. Qed.

(** ** Status condition manager *)

Lemma append_Resolved_ne (s : string) : s ≠ s +:+ "Resolved".
Proof. induction s as [|a s IH]; simpl; [done|]. intros [= Hs]. by apply IH. Qed.

Lemma insertOrUpdate_absent nc l :
  (findCondition l (condType nc)).2 = false →
  insertOrUpdateConditionsInSlice nc l = (true, l ++ [nc]).
Proof.
  induction l as [|c r IH]; simpl; [done|].
  case_decide; [done|]. intros Hf. by rewrite IH.
Qed.


Lemma insertOrUpdate_present_other nc l c :
  findCondition l (condType nc) = (c, true) → c ≠ nc →
  (insertOrUpdateConditionsInSlice nc l).1 = true.
Proof.
  induction l as [|x r IH]; simpl; [done|].
  case_decide.
  - intros [= ->] Hne. by rewrite decide_False.
  - intros Hf Hne. specialize (IH Hf Hne).
    by destruct (insertOrUpdateConditionsInSlice nc r).
Qed.

Lemma findCondition_insertOrUpdate nc l :
  findCondition (insertOrUpdateConditionsInSlice nc l).2 (condType nc) = (nc, true).
Proof.
  induction l as [|c r IH]; simpl.
  - by rewrite decide_True.
  - destruct (decide (condType c = condType nc)) as [Ht|Ht].
    + destruct (decide (c = nc)) as [->|Hc]; simpl; by rewrite decide_True.
    + destruct (insertOrUpdateConditionsInSlice nc r) as [ch r'] eqn:Hr.
      simpl in *. by rewrite decide_False.
Qed.

Lemma insertOrUpdate_unchanged nc l :
  (insertOrUpdateConditionsInSlice nc l).1 = false →
  (insertOrUpdateConditionsInSlice nc l).2 = l.
Proof.
  induction l as [|c r IH]; simpl; [done|].
  destruct (decide (condType c = condType nc)).
  - by destruct (decide (c = nc)).
  - destruct (insertOrUpdateConditionsInSlice nc r) as [ch r'].
    simpl in *. intros ->. by rewrite IH.
Qed.

(** Of two upserts of conditions of one type the later one wins. *)
Lemma insertOrUpdate_twice nc1 nc2 l :
  condType nc1 = condType nc2 →
  (insertOrUpdateConditionsInSlice nc2 (insertOrUpdateConditionsInSlice nc1 l).2).2
  = (insertOrUpdateConditionsInSlice nc2 l).2.
Proof.
  intros Ht. induction l as [|c r IH]; simpl.
  - rewrite (decide_True (P := condType nc1 = condType nc2)) by done.
    by destruct (decide (nc1 = nc2)) as [->|].
  - destruct (decide (condType c = condType nc1)) as [Hc|Hc].
    + rewrite (decide_True (P := condType c = condType nc2)) by congruence.
      destruct (decide (c = nc1)) as [->|H1]; simpl.
      * by rewrite (decide_True (P := condType nc1 = condType nc2)) by done.
      * rewrite (decide_True (P := condType nc1 = condType nc2)) by done.
        destruct (decide (nc1 = nc2)) as [->|H12], (decide (c = nc2)) as [->|H2];
          simpl; done.
    + rewrite (decide_False (P := condType c = condType nc2)) by congruence.
      destruct (insertOrUpdateConditionsInSlice nc1 r) as [ch1 r1].
      simpl in *. rewrite (decide_False (P := condType c = condType nc2)) by congruence.
      destruct (insertOrUpdateConditionsInSlice nc2 r1) as [ch2 r2].
      destruct (insertOrUpdateConditionsInSlice nc2 r) as [ch3 r3].
      simpl in *. by rewrite IH.
Qed.






Lemma updateStatusConditionOfEnvironment_eq message environment conditionType
    status reason c :
  updateStatusConditionOfEnvironment message environment conditionType status reason c =
    let r := insertOrUpdateConditionsInSlice
               (mkCondition conditionType message status reason)
               (envConditions environment) in
    if r.1 then k8sStatusUpdate (withConditions environment r.2) c
    else ((None, environment), c).
Proof.
  unfold updateStatusConditionOfEnvironment.
  destruct (insertOrUpdateConditionsInSlice _ _) as [[] l]; simpl; [|done].
  rewrite bind_eq. destruct (k8sStatusUpdate _ c) as [[[e|] env'] c']; done.
Qed.

Lemma updateConditionErrorAsResolved_eq message environment conditionType
    status reason c :
  updateConditionErrorAsResolved message environment conditionType status reason c =
    if needsResolve reason (envConditions environment) then
      let r := k8sStatusUpdate
                 (withConditions environment
                    (insertOrUpdateConditionsInSlice (resolvedCondition reason)
                       (envConditions environment)).2) c in
      ((from_option (λ e, Some (Errorf "unable to update status of Environment: " e))
          None r.1.1, r.1.2), r.2)
    else ((None, environment), c).
Proof.
  unfold updateConditionErrorAsResolved, needsResolve.
  destruct (findCondition _ _) as [cond []] eqn:Hf; simpl; [|done].
  case_bool_decide as Hr.
  - rewrite decide_True by done. rewrite bind_eq.
    rewrite updateStatusConditionOfEnvironment_eq. simpl.
    rewrite (insertOrUpdate_present_other _ _ cond); [| done |].
    + destruct (k8sStatusUpdate _ c) as [[[e|] env'] c']; done.
    + intros ->. by apply Hr.
  - rewrite decide_False; [done|]. intros Hn. by apply Hn.
Qed.

Lemma needsResolve_absent reason l :
  (findCondition l EnvironmentConditionErrorOccurred).2 = false →
  needsResolve reason l = false.
Proof. unfold needsResolve. destruct (findCondition _ _) as [? []]; naive_solver. Qed.

Lemma needsResolve_resolved reason l cond :
  findCondition l EnvironmentConditionErrorOccurred = (cond, true) →
  condReason cond = reason +:+ "Resolved" →
  needsResolve reason l = false.
Proof.
  unfold needsResolve. intros -> Hr. simpl. rewrite bool_decide_false; [done|].
  intros Hn. by apply Hn.
Qed.

Lemma needsResolve_other reason l cond :
  findCondition l EnvironmentConditionErrorOccurred = (cond, true) →
  condReason cond ≠ reason +:+ "Resolved" →
  needsResolve reason l = true.
Proof. unfold needsResolve. intros -> Hr. simpl. by rewrite bool_decide_true. Qed.

Lemma needsResolve_insertOrUpdate_resolved reason l :
  needsResolve reason
    (insertOrUpdateConditionsInSlice (resolvedCondition reason) l).2 = false.
Proof.
  eapply needsResolve_resolved;
    [apply (findCondition_insertOrUpdate (resolvedCondition reason))|done].
Qed.

Lemma objectKey_withConditions (e : Environment) cs :
  objectKey (withConditions e cs) = objectKey e.
Proof. done. Qed.

(** What [Status().Update] leaves in memory always carries the conditions sent. *)
Lemma k8sStatusUpdate_conditions e c :
  envConditions (k8sStatusUpdate e c).1.2 = envConditions e.
Proof.
  rewrite k8sStatusUpdate_eq.
  destruct (scheduled 0 (schedule c)); [done|].
  by destruct (lookupObj _ _).
Qed.

Lemma k8sStatusUpdate_calls e c :
  ∃ outcome,
    calls (k8sStatusUpdate e c).2
    = mkEvent VStatusUpdate KEnvironment (objectKey e) outcome :: calls c
    ∧ ((k8sStatusUpdate e c).1.1 = None ↔ outcome = None)
    ∧ (outcome = None →
       lookupObj (objectKey e) (environments (cluster (k8sStatusUpdate e c).2))
       = Some (k8sStatusUpdate e c).1.2).
Proof.
  rewrite k8sStatusUpdate_eq.
  destruct (scheduled 0 (schedule c)); [by eexists|].
  destruct (lookupObj _ _) as [stored|] eqn:Hl; [|by eexists].
  eexists. simpl. split; [done|]. split; [done|]. intros _.
  pose proof (lookupObj_key _ _ _ Hl) as Hk.
  assert (objectKey (withConditions stored (envConditions e)) = objectKey e) as Hk'
    by (by rewrite objectKey_withConditions).
  rewrite <- Hk'. eapply lookupObj_replaceObj_eq. rewrite Hk'. done.
Qed.

(** C9. The condition-resolve operation is idempotent: resolving is a no-op
    when no "ErrorOccurred" condition is present, and a no-op when the reason
    of the present one already is the given reason followed by "Resolved";
    otherwise it issues exactly one status write that sets the condition to
    false/resolved, after which resolving again is a no-op. Raising and then
    resolving twice therefore issues exactly one status write for the two
    resolves. *)
Theorem resolve_idempotent (message conditionType : string) (status : ConditionStatus)
    (reason : string) (environment : Environment) (c : Client) :
  let resolve e := updateConditionErrorAsResolved message e conditionType status reason in
  let conds := envConditions environment in
  ((findCondition conds EnvironmentConditionErrorOccurred).2 = false →
     resolve environment c = ((None, environment), c))
  ∧ (∀ cond, findCondition conds EnvironmentConditionErrorOccurred = (cond, true) →
       condReason cond = reason +:+ "Resolved" →
       resolve environment c = ((None, environment), c))
  ∧ (∀ cond, findCondition conds EnvironmentConditionErrorOccurred = (cond, true) →
       condReason cond ≠ reason +:+ "Resolved" →
       ∃ err environment' c' outcome,
         resolve environment c = ((err, environment'), c')
         ∧ calls c' = mkEvent VStatusUpdate KEnvironment (objectKey environment) outcome
                        :: calls c
         ∧ (err = None ↔ outcome = None)
         ∧ findCondition (envConditions environment') EnvironmentConditionErrorOccurred
           = (resolvedCondition reason, true)
         ∧ (outcome = None →
            lookupObj (objectKey environment) (environments (cluster c'))
            = Some environment')
         ∧ resolve environment' c' = ((None, environment'), c'))
  ∧ (∀ raiseMessage,
       let '((_, e1), c1) :=
         updateStatusConditionOfEnvironment raiseMessage environment
           EnvironmentConditionErrorOccurred ConditionTrue reason c in
       let '((_, e2), c2) := resolve e1 c1 in
       let '((_, e3), c3) := resolve e2 c2 in
       (∃ outcome,
          calls c2 = mkEvent VStatusUpdate KEnvironment (objectKey e1) outcome :: calls c1)
       ∧ c3 = c2 ∧ e3 = e2).
Proof.
  intros resolve conds. subst conds.
  assert (Hother : ∀ e c0 cond,
    findCondition (envConditions e) EnvironmentConditionErrorOccurred = (cond, true) →
    condReason cond ≠ reason +:+ "Resolved" →
    ∃ err e' c' outcome,
      resolve e c0 = ((err, e'), c')
      ∧ calls c' = mkEvent VStatusUpdate KEnvironment (objectKey e) outcome :: calls c0
      ∧ (err = None ↔ outcome = None)
      ∧ findCondition (envConditions e') EnvironmentConditionErrorOccurred
        = (resolvedCondition reason, true)
      ∧ (outcome = None →
         lookupObj (objectKey e) (environments (cluster c')) = Some e')
      ∧ resolve e' c' = ((None, e'), c')).
  { intros e c0 cond Hf Hr. unfold resolve.
    rewrite updateConditionErrorAsResolved_eq.
    rewrite (needsResolve_other _ _ _ Hf Hr). cbv zeta.
    set (e1 := withConditions e _).
    destruct (k8sStatusUpdate_calls e1 c0) as (outcome & Hcalls & Herr & Hstored).
    pose proof (k8sStatusUpdate_conditions e1 c0) as Hconds.
    destruct (k8sStatusUpdate e1 c0) as [[err e'] c'] eqn:Hrun. simpl in *.
    eexists _, e', c', outcome. split; [done|]. split; [done|].
    split.
    { destruct err as [e0|]; simpl; [|exact Herr].
      split; intros Hx; [discriminate|apply Herr in Hx; discriminate]. }
    split; [rewrite Hconds; apply (findCondition_insertOrUpdate (resolvedCondition reason))|].
    split; [done|].
    rewrite updateConditionErrorAsResolved_eq, Hconds.
    by rewrite needsResolve_insertOrUpdate_resolved. }
  split; [|split; [|split]].
  - intros Hf. unfold resolve. rewrite updateConditionErrorAsResolved_eq.
    by rewrite needsResolve_absent.
  - intros cond Hf Hr. unfold resolve. rewrite updateConditionErrorAsResolved_eq.
    by rewrite (needsResolve_resolved _ _ _ Hf Hr).
  - intros cond Hf Hr. by apply (Hother environment c cond).
  - intros raiseMessage.
    destruct (updateStatusConditionOfEnvironment _ _ _ _ _ c) as [[err1 e1] c1] eqn:Hraise.
    assert (findCondition (envConditions e1) EnvironmentConditionErrorOccurred
            = (mkCondition EnvironmentConditionErrorOccurred raiseMessage ConditionTrue
                 reason, true)) as Hf.
    { rewrite updateStatusConditionOfEnvironment_eq in Hraise. cbv zeta in Hraise.
      set (nc := mkCondition _ _ _ _) in *.
      pose proof (findCondition_insertOrUpdate nc (envConditions environment)) as Hfind.
      destruct (insertOrUpdateConditionsInSlice nc (envConditions environment)).1 eqn:Hch.
      - pose proof (k8sStatusUpdate_conditions
          (withConditions environment
             (insertOrUpdateConditionsInSlice nc (envConditions environment)).2) c) as Hc.
        rewrite Hraise in Hc. simpl in Hc. by rewrite Hc.
      - injection Hraise as _ <- _.
        by rewrite insertOrUpdate_unchanged in Hfind. }
    destruct (Hother e1 c1 _ Hf (append_Resolved_ne reason))
      as (err2 & e2 & c2 & outcome & -> & Hcalls & _ & _ & _ & ->).
    split; [by exists outcome|done].
Qed.

(** ** Event-to-request mappers *)

Lemma elem_of_fold_append {A B} (P : A → Prop) `{!∀ x, Decision (P x)} (f : A → B)
    (l : list A) (acc : list B) (y : B) :
  y ∈ fold_left (λ acc x, if decide (P x) then acc ++ [f x] else acc) l acc
  ↔ y ∈ acc ∨ ∃ x, x ∈ l ∧ P x ∧ y = f x.
Proof.
  revert acc. induction l as [|a l IH]; intros acc; simpl.
  - split; [auto|]. intros [?|(x & Hx & _)]; [done|]. by apply elem_of_nil in Hx.
  - rewrite IH. destruct (decide (P a)) as [Ha|Ha].
    + rewrite elem_of_app, list_elem_of_singleton. split.
      * intros [[?| ->]|(x & Hx & ? & ?)]; [by left| |].
        -- right. exists a. split; [left|done].
        -- right. exists x. split; [by right|done].
      * intros [?|(x & Hx & ? & ->)]; [by left; left|].
        apply elem_of_cons in Hx as [->|Hx]; [by left; right|].
        right. by exists x.
    + split.
      * intros [?|(x & Hx & ? & ?)]; [by left|].
        right. exists x. split; [by right|done].
      * intros [?|(x & Hx & ? & ->)]; [by left|].
        apply elem_of_cons in Hx as [->|Hx]; [done|].
        right. by exists x.
Qed.

Lemma fold_append_filter {A} (P : A → Prop) `{!∀ x, Decision (P x)}
    (l acc : list A) :
  fold_left (λ acc x, if decide (P x) then acc ++ [x] else acc) l acc
  = acc ++ filter P l.
Proof.
  revert acc. induction l as [|a l IH]; intros acc; simpl.
  - by rewrite app_nil_r.
  - rewrite IH. destruct (decide (P a)).
    + rewrite filter_cons_True by done. by rewrite <- app_assoc.
    + by rewrite filter_cons_False by done.
Qed.

Lemma elem_of_fold_fold_append {A B C} (P : A → B → Prop)
    `{!∀ x y, Decision (P x y)} (f : A → C) (l : list A) (ys : list B)
    (acc : list C) (z : C) :
  z ∈ fold_left (λ acc x,
        fold_left (λ acc y, if decide (P x y) then acc ++ [f x] else acc) ys acc)
      l acc
  ↔ z ∈ acc ∨ ∃ x y, x ∈ l ∧ y ∈ ys ∧ P x y ∧ z = f x.
Proof.
  revert acc. induction l as [|a l IH]; intros acc; simpl.
  - split; [auto|]. intros [?|(x & y & Hx & _)]; [done|]. by apply elem_of_nil in Hx.
  - rewrite IH, (elem_of_fold_append (P a) (λ _, f a)). split.
    + intros [[?|(y & Hy & ? & ->)]|(x & y & Hx & Hy & ? & ->)]; [by left| |].
      * right. exists a, y. split; [left|done].
      * right. exists x, y. split; [by right|done].
    + intros [?|(x & y & Hx & Hy & ? & ->)]; [by left; left|].
      apply elem_of_cons in Hx as [->|Hx].
      * left. right. by exists y.
      * right. by exists x, y.
Qed.

(** C8. When both listings succeed, the DeploymentTarget mapper returns
    exactly the requests for the Environments of the target's namespace whose
    claim reference names a DeploymentTargetClaim of that namespace that
    matches the target (the claim's TargetName is the target's name, or the
    target's ClaimRef is the claim's name). In particular, when the claims
    matching the target are those named [claim], the requests are those of
    the Environments referencing [claim], and of no other Environment. *)
Theorem findObjectsForDeploymentTarget_exact (dt : DeploymentTarget) (c : Client) :
  scheduled 0 (schedule c) = None → scheduled 1 (schedule c) = None →
  let requests := (findObjectsForDeploymentTarget dt c).1 in
  let ns := Namespace (dtMeta dt) in
  (∀ req : Request,
     req ∈ requests ↔
     ∃ env dtc,
       env ∈ environments (cluster c) ∧ Namespace (envMeta env) = ns
       ∧ dtc ∈ deploymentTargetClaims (cluster c) ∧ Namespace (dtcMeta dtc) = ns
       ∧ (dtcTargetName dtc = Name (dtMeta dt) ∨ dtClaimRef dt = Name (dtcMeta dtc))
       ∧ GetDeploymentTargetClaimName env = Name (dtcMeta dtc)
       ∧ req = objectKey env)
  ∧ (∀ claim : DeploymentTargetClaim,
       claim ∈ deploymentTargetClaims (cluster c) → Namespace (dtcMeta claim) = ns →
       (∀ dtc, dtc ∈ deploymentTargetClaims (cluster c) → Namespace (dtcMeta dtc) = ns →
          (dtcTargetName dtc = Name (dtMeta dt) ∨ dtClaimRef dt = Name (dtcMeta dtc))
          ↔ Name (dtcMeta dtc) = Name (dtcMeta claim)) →
       ∀ req : Request,
         req ∈ requests ↔
         ∃ env, env ∈ environments (cluster c) ∧ Namespace (envMeta env) = ns
                ∧ GetDeploymentTargetClaimName env = Name (dtcMeta claim)
                ∧ req = objectKey env).
Proof.
  intros Hs0 Hs1 requests ns.
  assert (Hall : ∀ req : Request,
     req ∈ requests ↔
     ∃ env dtc,
       env ∈ environments (cluster c) ∧ Namespace (envMeta env) = ns
       ∧ dtc ∈ deploymentTargetClaims (cluster c) ∧ Namespace (dtcMeta dtc) = ns
       ∧ (dtcTargetName dtc = Name (dtMeta dt) ∨ dtClaimRef dt = Name (dtcMeta dtc))
       ∧ GetDeploymentTargetClaimName env = Name (dtcMeta dtc)
       ∧ req = objectKey env).
  { intros req. subst requests. unfold findObjectsForDeploymentTarget.
    rewrite bind_eq, k8sList_eq, Hs0. cbn [fst snd].
    rewrite bind_eq, k8sList_eq, schedule_logged, scheduled_tail, Hs1. cbn [fst snd].
    rewrite ret_eq. cbn [fst snd]. rewrite cluster_logged.
    rewrite (fold_append_filter
      (λ dtc, dtcTargetName dtc = Name (dtMeta dt) ∨ dtClaimRef dt = Name (dtcMeta dtc))).
    rewrite app_nil_l.
    rewrite (elem_of_fold_fold_append
      (λ env dtc, GetDeploymentTargetClaimName env = Name (dtcMeta dtc))
      (λ env, objectKey env)).
    split.
    - intros [Hnil|(env & dtc & Henv & Hdtc & Hclaim & ->)];
        [by apply elem_of_nil in Hnil|].
      apply list_elem_of_filter in Hdtc as [Hmatch Hdtc].
      apply elem_of_inNamespace in Henv as [Henv Hens].
      apply elem_of_inNamespace in Hdtc as [Hdtc Hdns].
      by exists env, dtc.
    - intros (env & dtc & Henv & Hens & Hdtc & Hdns & Hmatch & Hclaim & ->).
      right. exists env, dtc. split; [by apply elem_of_inNamespace|].
      split; [|done]. apply list_elem_of_filter. split; [done|].
      by apply elem_of_inNamespace. }
  split; [exact Hall|].
  intros claim Hclaim Hcns Honly req. rewrite Hall. split.
  - intros (env & dtc & Henv & Hens & Hdtc & Hdns & Hmatch & Hreq & ->).
    exists env. split; [done|]. split; [done|]. split; [|done].
    rewrite Hreq. by apply Honly.
  - intros (env & Henv & Hens & Hreq & ->).
    exists env, claim. repeat (split; [done|]). split; [|done].
    by apply Honly.
Qed.

Lemma findObjectsForSecret_envs_cluster secret dtList envs acc c :
  cluster (findObjectsForSecret_envs secret dtList envs acc c).2 = cluster c.
Proof.
  revert acc c. induction envs as [|env rest IH]; intros acc c; simpl; [done|].
  case_decide; [apply IH|].
  rewrite bind_eq, k8sGet_eq.
  destruct (scheduled 0 (schedule c)); [done|].
  destruct (lookupObj _ _); [|done]. cbn [fst snd].
  case_decide; by rewrite IH.
Qed.

Lemma findObjectsForSecret_envs_failed secret dtList envs acc c :
  ∃ new,
    calls (findObjectsForSecret_envs secret dtList envs acc c).2 = new ++ calls c
    ∧ ((∃ ev, ev ∈ new ∧ failedClaimFetch ev) →
       (findObjectsForSecret_envs secret dtList envs acc c).1 = []).
Proof.
  revert acc c. induction envs as [|env rest IH]; intros acc c; simpl.
  - exists []. split; [done|]. intros (ev & Hev & _). by apply elem_of_nil in Hev.
  - case_decide; [apply IH|].
    rewrite bind_eq, k8sGet_eq.
    destruct (scheduled 0 (schedule c)) as [m|].
    { eexists [_]. split; [done|]. done. }
    destruct (lookupObj _ _) as [dtc|]; cbn [fst snd].
    2:{ eexists [_]. split; [done|]. done. }
    set (c1 := logged _ _ _ _ _ _).
    assert (∀ acc', ∃ new,
      calls (findObjectsForSecret_envs secret dtList rest acc' c1).2 = new ++ calls c
      ∧ ((∃ ev, ev ∈ new ∧ failedClaimFetch ev) →
         (findObjectsForSecret_envs secret dtList rest acc' c1).1 = [])) as Hstep.
    { intros acc'. destruct (IH acc' c1) as (new & Hcalls & Hfail).
      exists (new ++ [mkEvent VGet KDeploymentTargetClaim
                (objectKey (mkDeploymentTargetClaim
                   (namedMeta (GetDeploymentTargetClaimName env)
                      (Namespace (envMeta env))) "" "")) None]).
      split; [by rewrite Hcalls, <- app_assoc|].
      intros (ev & Hev & Hf). apply Hfail. exists ev. split; [|done].
      apply elem_of_app in Hev as [Hev|Hev]; [done|].
      apply list_elem_of_singleton in Hev as ->.
      by destruct Hf as (_ & _ & Herr). }
    case_decide; apply Hstep.
Qed.

Lemma findObjectsForSecret_envs_dangling secret dtList envs acc c :
  (∃ env, env ∈ envs ∧ GetDeploymentTargetClaimName env ≠ ""
     ∧ lookupObj (mkNamespacedName (Namespace (envMeta env))
                    (GetDeploymentTargetClaimName env))
         (deploymentTargetClaims (cluster c)) = None) →
  (findObjectsForSecret_envs secret dtList envs acc c).1 = [].
Proof.
  revert acc c. induction envs as [|env rest IH]; intros acc c (e & He & Hclaim & Hl).
  { by apply elem_of_nil in He. }
  simpl. apply elem_of_cons in He as [->|He].
  - rewrite decide_False by done.
    rewrite bind_eq, k8sGet_eq.
    destruct (scheduled 0 (schedule c)); [done|].
    unfold objectKey, ObjectKeyFromMeta. simpl. by rewrite Hl.
  - assert (∀ acc' c', cluster c' = cluster c →
      (findObjectsForSecret_envs secret dtList rest acc' c').1 = []) as Hrest.
    { intros acc' c' Hc. apply IH. exists e. by rewrite Hc. }
    case_decide; [by apply Hrest|].
    rewrite bind_eq, k8sGet_eq.
    destruct (scheduled 0 (schedule c)); [done|].
    destruct (lookupObj (objectKey _) _); [|done]. cbn [fst snd].
    case_decide; by apply Hrest.
Qed.

(** C10. For an event on a secret of the opaque type, a failed fetch of the
    DeploymentTargetClaim referenced by any one of the listed Environments,
    whatever the reason, leaves the mapper with the empty request list; so
    does, in particular, one Environment of the secret's namespace whose
    claim does not exist, whatever the other Environments reference. *)
Theorem findObjectsForSecret_claim_fetch_failure (secret : Secret) (c : Client) :
  secType secret = SecretTypeOpaque →
  (∃ new,
     calls (findObjectsForSecret secret c).2 = new ++ calls c
     ∧ ((∃ ev, ev ∈ new ∧ failedClaimFetch ev) → (findObjectsForSecret secret c).1 = []))
  ∧ ((∃ env, env ∈ environments (cluster c)
        ∧ Namespace (envMeta env) = Namespace (secMeta secret)
        ∧ GetDeploymentTargetClaimName env ≠ ""
        ∧ lookupObj (mkNamespacedName (Namespace (envMeta env))
                       (GetDeploymentTargetClaimName env))
            (deploymentTargetClaims (cluster c)) = None) →
     (findObjectsForSecret secret c).1 = []).
Proof.
  intros Htype. unfold findObjectsForSecret. rewrite Htype.
  rewrite decide_False by (by intros [? _]).
  rewrite decide_False by done.
  rewrite bind_eq, k8sList_eq.
  destruct (scheduled 0 (schedule c)) as [m|].
  { split; [|done]. eexists [_]. split; [done|].
    intros (ev & Hev & Hf). apply list_elem_of_singleton in Hev as ->.
    by destruct Hf as (? & ? & _). }
  cbn [fst snd]. rewrite bind_eq, k8sList_eq, schedule_logged.
  destruct (scheduled 0 (tail (schedule c))) as [m|].
  { split; [|done]. eexists [_; _]. split; [done|].
    intros (ev & Hev & Hf).
    apply elem_of_cons in Hev as [->|Hev]; [by destruct Hf as (? & ? & _)|].
    apply list_elem_of_singleton in Hev as ->. by destruct Hf as (? & ? & _). }
  cbn [fst snd]. rewrite !cluster_logged.
  set (c2 := logged _ _ _ _ _ (logged _ _ _ _ _ _)).
  set (envList := inNamespace (T := Environment) _ _).
  set (dtList := inNamespace (T := DeploymentTarget) _ _).
  split.
  - destruct (findObjectsForSecret_envs_failed secret dtList envList [] c2)
      as (new & Hcalls & Hfail).
    exists (new ++ [mkEvent VList KDeploymentTarget
                      (mkNamespacedName (Namespace (secMeta secret)) "") None;
                    mkEvent VList KEnvironment
                      (mkNamespacedName (Namespace (secMeta secret)) "") None]).
    split; [by rewrite Hcalls, <- app_assoc|].
    intros (ev & Hev & Hf). apply Hfail. exists ev. split; [|done].
    apply elem_of_app in Hev as [Hev|Hev]; [done|].
    apply elem_of_cons in Hev as [->|Hev]; [by destruct Hf as (? & ? & _)|].
    apply list_elem_of_singleton in Hev as ->. by destruct Hf as (? & ? & _).
  - intros (env & Henv & Hns & Hclaim & Hl).
    apply findObjectsForSecret_envs_dangling.
    exists env. split; [by apply elem_of_inNamespace|]. done.
Qed.

(** ** Reconciler core *)

Lemma isRequestNamespaceBeingDeleted_active ns c :
  namespaceActive ns (cluster c) → scheduled 0 (schedule c) = None →
  isRequestNamespaceBeingDeleted ns c =
    ((false, None),
     logged VGet KNamespace (mkNamespacedName "" ns) None (cluster c) c).
Proof.
  intros (namespace & Hl & Hd) Hs. unfold isRequestNamespaceBeingDeleted.
  rewrite bind_eq, k8sGet_eq, Hs. simpl. rewrite Hl. cbn [fst snd].
  rewrite decide_False; [done|]. intros Hn. by apply Hn.
Qed.

(** C2. When the Environment of the request does not exist, Reconcile fetches
    the ManagedEnvironment "managed-environment-<name>" of the request's
    namespace: when that is absent it returns success and changes nothing;
    when it is present it deletes it and returns success; and an error of the
    fetch or of the delete that is not "not found" makes it return an error. *)
Theorem Reconcile_environment_gone (req : Request) (c : Client) :
  namespaceActive (nnNamespace req) (cluster c) →
  scheduled 0 (schedule c) = None → scheduled 1 (schedule c) = None →
  lookupObj req (environments (cluster c)) = None →
  let key := managedEnvironmentKey req in
  let prefix :=
    [ mkEvent VGet KEnvironment req (Some (notFound req));
      mkEvent VGet KNamespace (mkNamespacedName "" (nnNamespace req)) None ] in
  let res := (Reconcile req c).1 in
  let c' := (Reconcile req c).2 in
  match scheduled 2 (schedule c) with
  | Some m =>
      res.1 = noRequeue ∧ is_Some res.2 ∧ cluster c' = cluster c
      ∧ calls c' = mkEvent VGet KManagedEnvironment key (Some (plainError m))
                     :: prefix ++ calls c
  | None =>
      match lookupObj key (managedEnvironments (cluster c)) with
      | None =>
          res = (noRequeue, None) ∧ cluster c' = cluster c
          ∧ calls c' = mkEvent VGet KManagedEnvironment key (Some (notFound key))
                         :: prefix ++ calls c
      | Some managedEnv =>
          match scheduled 3 (schedule c) with
          | Some m =>
              res.1 = noRequeue ∧ is_Some res.2 ∧ cluster c' = cluster c
              ∧ calls c' = mkEvent VDelete KManagedEnvironment key (Some (plainError m))
                             :: mkEvent VGet KManagedEnvironment key None
                             :: prefix ++ calls c
          | None =>
              res = (noRequeue, None)
              ∧ cluster c'
                = setItems (removeObj key (managedEnvironments (cluster c))) (cluster c)
              ∧ lookupObj key (managedEnvironments (cluster c')) = None
              ∧ calls c' = mkEvent VDelete KManagedEnvironment key None
                             :: mkEvent VGet KManagedEnvironment key None
                             :: prefix ++ calls c
          end
      end
  end.
Proof.
  intros Hns Hs0 Hs1 Henv key prefix res c'. subst res c' key prefix.
  destruct req as [ns name]. unfold managedEnvironmentKey. cbn [nnNamespace nnName] in *.
  unfold Reconcile. cbn [nnNamespace nnName]. rewrite bind_eq.
  rewrite (isRequestNamespaceBeingDeleted_active _ _ Hns Hs0). cbn [fst snd].
  rewrite decide_False by (intros [?|Hn]; [done|by apply Hn]).
  rewrite bind_eq, k8sGet_eq, schedule_logged, scheduled_tail, Hs1, cluster_logged.
  change (objectKey (mkEnvironment "" "" (namedMeta name ns) (mkEnvironmentSpec "" None) []))
    with (mkNamespacedName ns name).
  change (items (cluster c)) with (environments (cluster c)). rewrite Henv.
  cbn [fst snd IsNotFound notFound negb].
  rewrite bind_eq, k8sGet_eq, !schedule_logged, !scheduled_tail, !cluster_logged.
  change (objectKey (generateEmptyManagedEnvironment _ _))
    with (mkNamespacedName ns ("managed-environment-" +:+ name)).
  destruct (scheduled 2 (schedule c)) as [m|]; [by eauto|].
  change (items (cluster c)) with (managedEnvironments (cluster c)).
  destruct (lookupObj _ (managedEnvironments (cluster c))) as [managedEnv|] eqn:Hme;
    [|done].
  cbn [fst snd].
  pose proof (lookupObj_key _ _ _ Hme) as Hkey.
  rewrite bind_eq, k8sDelete_eq, !schedule_logged, !scheduled_tail, !cluster_logged, Hkey.
  destruct (scheduled 3 (schedule c)) as [m|]; [by eauto|].
  change (items (cluster c)) with (managedEnvironments (cluster c)). rewrite Hme.
  cbn [fst snd]. split; [done|]. split; [done|]. split; [|done].
  rewrite ret_eq. cbn [snd]. rewrite cluster_logged.
  cbn [setItems Resource_ManagedEnvironment managedEnvironments].
  rewrite lookupObj_removeObj. by rewrite decide_True.
Qed.

(** *** Calls of a reliable client *)

Ltac cluster_simpl :=
  cbn [cluster schedule calls fst snd logged tail
       items setItems kindOf metaOf
       Resource_Namespace Resource_Environment Resource_ManagedEnvironment
       Resource_Secret Resource_DeploymentTargetClaim Resource_DeploymentTarget
       namespaces environments managedEnvironments secrets
       deploymentTargetClaims deploymentTargets] in *.

Ltac key_simpl :=
  unfold objectKey, ObjectKeyFromMeta in *;
  cbn [metaOf
       Resource_Namespace Resource_Environment Resource_ManagedEnvironment
       Resource_Secret Resource_DeploymentTargetClaim Resource_DeploymentTarget
       secMeta meMeta envMeta dtcMeta dtMeta nsMeta Name Namespace namedMeta
       envConditions envSpec envAPIVersion envKind
       withConditions generateEmptyManagedEnvironment nnNamespace nnName] in *.

Section ReliableCalls.
Context `{Resource T}.
Implicit Types (s : Cluster) (cs : list Event).

Lemma k8sGet_reliable key s cs :
  k8sGet (T := T) key (mkClient s [] cs) =
    match lookupObj key (items s) with
    | Some o => (inr o, mkClient s [] (mkEvent VGet kindOf key None :: cs))
    | None =>
        (inl (notFound key),
         mkClient s [] (mkEvent VGet kindOf key (Some (notFound key)) :: cs))
    end.
Proof. by rewrite k8sGet_eq. Qed.

Lemma k8sList_reliable ns s cs :
  k8sList (T := T) ns (mkClient s [] cs) =
    (inr (inNamespace ns (items s)),
     mkClient s [] (mkEvent VList kindOf (mkNamespacedName ns "") None :: cs)).
Proof. by rewrite k8sList_eq. Qed.

Lemma k8sCreate_reliable (o : T) s cs :
  lookupObj (objectKey o) (items s) = None →
  k8sCreate o (mkClient s [] cs) =
    (None, mkClient (setItems (items s ++ [o]) s) []
             (mkEvent VCreate kindOf (objectKey o) None :: cs)).
Proof. intros Hl. rewrite k8sCreate_eq. simpl. by rewrite Hl. Qed.

Lemma k8sUpdate_reliable (o x : T) s cs :
  lookupObj (objectKey o) (items s) = Some x →
  k8sUpdate o (mkClient s [] cs) =
    (None, mkClient (setItems (replaceObj o (items s)) s) []
             (mkEvent VUpdate kindOf (objectKey o) None :: cs)).
Proof. intros Hl. rewrite k8sUpdate_eq. simpl. by rewrite Hl. Qed.

Lemma k8sDelete_reliable (o : T) s cs :
  k8sDelete o (mkClient s [] cs) =
    match lookupObj (objectKey o) (items s) with
    | Some _ =>
        (None, mkClient (setItems (removeObj (objectKey o) (items s)) s) []
                 (mkEvent VDelete kindOf (objectKey o) None :: cs))
    | None =>
        (Some (notFound (objectKey o)),
         mkClient s [] (mkEvent VDelete kindOf (objectKey o)
                          (Some (notFound (objectKey o))) :: cs))
    end.
Proof. rewrite k8sDelete_eq. simpl. by destruct (lookupObj _ _). Qed.
End ReliableCalls.

Lemma k8sStatusUpdate_reliable (e stored : Environment) s cs :
  lookupObj (objectKey e) (environments s) = Some stored →
  k8sStatusUpdate e (mkClient s [] cs) =
    ((None, withConditions stored (envConditions e)),
     mkClient (withEnvironment (withConditions stored (envConditions e)) s) []
       (mkEvent VStatusUpdate KEnvironment (objectKey e) None :: cs)).
Proof. intros Hl. rewrite k8sStatusUpdate_eq. simpl. by rewrite Hl. Qed.

(** Raising on a reliable client, for an Environment that is stored. *)
Lemma raise_reliable message (e stored : Environment) s cs :
  lookupObj (objectKey e) (environments s) = Some stored →
  updateStatusConditionOfEnvironment message e EnvironmentConditionErrorOccurred
    ConditionTrue EnvironmentReasonErrorOccurred (mkClient s [] cs) =
    let r := insertOrUpdateConditionsInSlice (raisedCondition message) (envConditions e) in
    if r.1 then
      ((None, withConditions stored r.2),
       mkClient (withEnvironment (withConditions stored r.2) s) []
         (mkEvent VStatusUpdate KEnvironment (objectKey e) None :: cs))
    else ((None, e), mkClient s [] cs).
Proof.
  intros Hl. rewrite updateStatusConditionOfEnvironment_eq. cbv zeta.
  fold (raisedCondition message).
  destruct (insertOrUpdateConditionsInSlice _ _).1; [|done].
  by rewrite (k8sStatusUpdate_reliable _ stored).
Qed.

(** Resolving on a reliable client, for an Environment that is stored. *)
Lemma resolve_reliable message (e stored : Environment) conditionType status s cs :
  lookupObj (objectKey e) (environments s) = Some stored →
  updateConditionErrorAsResolved message e conditionType status
    EnvironmentReasonErrorOccurred (mkClient s [] cs) =
    if needsResolve EnvironmentReasonErrorOccurred (envConditions e) then
      let l := (insertOrUpdateConditionsInSlice
                  (resolvedCondition EnvironmentReasonErrorOccurred)
                  (envConditions e)).2 in
      ((None, withConditions stored l),
       mkClient (withEnvironment (withConditions stored l) s) []
         (mkEvent VStatusUpdate KEnvironment (objectKey e) None :: cs))
    else ((None, e), mkClient s [] cs).
Proof.
  intros Hl. rewrite updateConditionErrorAsResolved_eq.
  destruct (needsResolve _ _); [|done]. cbv zeta.
  by rewrite (k8sStatusUpdate_reliable _ stored).
Qed.

Lemma isRequestNamespaceBeingDeleted_reliable ns s cs :
  namespaceActive ns s →
  isRequestNamespaceBeingDeleted ns (mkClient s [] cs) =
    ((false, None),
     mkClient s [] (mkEvent VGet KNamespace (mkNamespacedName "" ns) None :: cs)).
Proof. intros Hns. by rewrite isRequestNamespaceBeingDeleted_active. Qed.

Lemma lookupObj_withEnvironment k e s :
  lookupObj k (environments (withEnvironment e s)) =
    if decide (objectKey e = k)
    then match lookupObj k (environments s) with Some _ => Some e | None => None end
    else lookupObj k (environments s).
Proof. unfold withEnvironment. cluster_simpl. apply lookupObj_replaceObj. Qed.

Lemma withEnvironment_id e s :
  lookupObj (objectKey e) (environments s) = Some e → withEnvironment e s = s.
Proof.
  intros Hl. unfold withEnvironment. cluster_simpl.
  rewrite replaceObj_id by done. by destruct s.
Qed.

Lemma withEnvironment_twice e1 e2 s :
  objectKey e1 = objectKey e2 →
  withEnvironment e2 (withEnvironment e1 s) = withEnvironment e2 s.
Proof.
  intros Hk. unfold withEnvironment. cluster_simpl.
  by rewrite replaceObj_replaceObj.
Qed.

Lemma namespaceActive_withEnvironment ns e s :
  namespaceActive ns (withEnvironment e s) ↔ namespaceActive ns s.
Proof. done. Qed.

Lemma Reconcile_invalid_step (req : Request) (environment : Environment) s cs :
  namespaceActive (nnNamespace req) s →
  lookupObj req (environments s) = Some environment →
  GetDeploymentTargetClaimName environment ≠ "" →
  UnstableConfigurationFields (envSpec environment) ≠ None →
  let gets :=
    [ mkEvent VGet KEnvironment req None;
      mkEvent VGet KNamespace (mkNamespacedName "" (nnNamespace req)) None ] in
  let r := insertOrUpdateConditionsInSlice invalidEnvironmentCondition
             (envConditions environment) in
  Reconcile req (mkClient s [] cs) =
    ((noRequeue, None),
     if r.1 then
       mkClient (withEnvironment (withConditions environment r.2) s) []
         (mkEvent VStatusUpdate KEnvironment req None :: gets ++ cs)
     else mkClient s [] (gets ++ cs)).
Proof.
  intros Hns Henv Hclaim Hucf gets r. subst gets r.
  pose proof (lookupObj_key _ _ _ Henv) as Hkey.
  destruct req as [ns name]. cbn [nnNamespace nnName] in *.
  unfold Reconcile. cbn [nnNamespace nnName]. rewrite bind_eq.
  rewrite (isRequestNamespaceBeingDeleted_reliable _ _ _ Hns). cbn [fst snd].
  rewrite decide_False by (intros [?|Hn]; [done|by apply Hn]).
  rewrite bind_eq, k8sGet_reliable.
  change (objectKey (mkEnvironment "" "" (namedMeta name ns) (mkEnvironmentSpec "" None) []))
    with (mkNamespacedName ns name).
  cluster_simpl. rewrite Henv. cbn [fst snd].
  rewrite decide_True by done.
  rewrite bind_eq, (raise_reliable _ _ environment) by (by rewrite Hkey).
  cbv zeta. fold invalidEnvironmentCondition. rewrite Hkey.
  by destruct (insertOrUpdateConditionsInSlice _ _).1.
Qed.


(** *** Status writes of a reliable client, uniformly *)

Lemma withConditions_id e : withConditions e (envConditions e) = e.
Proof. by destruct e. Qed.

Lemma withConditions_twice e l1 l2 :
  withConditions (withConditions e l1) l2 = withConditions e l2.
Proof. done. Qed.

Lemma needsResolve_resolvedConditions l :
  needsResolve EnvironmentReasonErrorOccurred (resolvedConditions l) = false.
Proof.
  unfold resolvedConditions.
  destruct (needsResolve _ l) eqn:Hn; [|done].
  apply needsResolve_insertOrUpdate_resolved.
Qed.

Lemma resolvedConditions_idem l :
  resolvedConditions (resolvedConditions l) = resolvedConditions l.
Proof.
  unfold resolvedConditions at 1. by rewrite needsResolve_resolvedConditions.
Qed.



Lemma raisedConditions_resolvedConditions message l :
  raisedConditions message (resolvedConditions l) = raisedConditions message l.
Proof.
  unfold resolvedConditions, raisedConditions.
  destruct (needsResolve _ l); [|done].
  by apply insertOrUpdate_twice.
Qed.

(** Raising, for an Environment in memory that is the stored one. *)
Lemma raise_sync message (e : Environment) s cs :
  lookupObj (objectKey e) (environments s) = Some e →
  let e' := withConditions e (raisedConditions message (envConditions e)) in
  updateStatusConditionOfEnvironment message e EnvironmentConditionErrorOccurred
    ConditionTrue EnvironmentReasonErrorOccurred (mkClient s [] cs) =
    ((None, e'),
     mkClient (withEnvironment e' s) []
       (statusCalls (insertOrUpdateConditionsInSlice (raisedCondition message)
                       (envConditions e)).1 (objectKey e) ++ cs)).
Proof.
  intros Hl e'. rewrite (raise_reliable _ _ e) by done. cbv zeta.
  subst e'. unfold raisedConditions.
  destruct (insertOrUpdateConditionsInSlice _ _).1 eqn:Hch; [done|].
  rewrite insertOrUpdate_unchanged by done.
  by rewrite withConditions_id, withEnvironment_id.
Qed.

(** Resolving, for an Environment in memory that is the stored one. *)
Lemma resolve_sync message (e : Environment) conditionType status s cs :
  lookupObj (objectKey e) (environments s) = Some e →
  let e' := withConditions e (resolvedConditions (envConditions e)) in
  updateConditionErrorAsResolved message e conditionType status
    EnvironmentReasonErrorOccurred (mkClient s [] cs) =
    ((None, e'),
     mkClient (withEnvironment e' s) []
       (statusCalls (needsResolve EnvironmentReasonErrorOccurred (envConditions e))
          (objectKey e) ++ cs)).
Proof.
  intros Hl e'. rewrite (resolve_reliable _ _ e) by done.
  subst e'. unfold resolvedConditions.
  destruct (needsResolve _ _) eqn:Hn; [done|].
  by rewrite withConditions_id, withEnvironment_id.
Qed.

(** Resolving from the caller's copy [e], after the callee has already
    resolved the stored Environment: the write, if any, changes nothing. *)
Lemma resolve_stale message (e : Environment) conditionType status s cs :
  lookupObj (objectKey e) (environments s)
  = Some (withConditions e (resolvedConditions (envConditions e))) →
  ∃ e',
    updateConditionErrorAsResolved message e conditionType status
      EnvironmentReasonErrorOccurred (mkClient s [] cs) =
      ((None, e'),
       mkClient s []
         (statusCalls (needsResolve EnvironmentReasonErrorOccurred (envConditions e))
            (objectKey e) ++ cs)).
Proof.
  intros Hl. rewrite (resolve_reliable _ _ _ _ _ _ _ Hl).
  destruct (needsResolve _ _) eqn:Hn; [|by eexists].
  eexists. cbv zeta. rewrite withConditions_twice.
  f_equal. f_equal.
  unfold resolvedConditions in Hl |- *. rewrite Hn in Hl.
  by apply withEnvironment_id.
Qed.

Lemma lookupObj_withEnvironment_eq e s x :
  lookupObj (objectKey e) (environments s) = Some x →
  lookupObj (objectKey e) (environments (withEnvironment e s)) = Some e.
Proof. intros Hl. by rewrite lookupObj_withEnvironment, decide_True, Hl. Qed.

(** *** The generator on a reliable client *)

Lemma environments_mirrorSecret env secret s :
  environments (mirrorSecret env secret s).1 = environments s.
Proof.
  unfold mirrorSecret. destruct (lookupObj _ _); [|done]. by case_decide.
Qed.

Lemma managedEnvironments_mirrorSecret env secret s :
  managedEnvironments (mirrorSecret env secret s).1 = managedEnvironments s.
Proof.
  unfold mirrorSecret. destruct (lookupObj _ _); [|done]. by case_decide.
Qed.


Lemma fromCredentials_found env claimName credentials secret s cs :
  lookupObj (objectKey env) (environments s) = Some env →
  lookupObj (credentialSecretKey env credentials) (secrets s) = Some secret →
  let mirror := bool_decide (claimName ≠ "" ∧ secType secret ≠ ManagedEnvironmentSecretType) in
  let s1 := if mirror then (mirrorSecret env secret s).1 else s in
  let evs := if mirror then (mirrorSecret env secret s).2 else [] in
  let name := if mirror then generateManagedEnvSecretName (Name (envMeta env))
              else ClusterCredentialsSecret credentials in
  let env' := withConditions env (resolvedConditions (envConditions env)) in
  generateDesiredResource_fromCredentials env claimName (credentialsSpec credentials)
    (mkClient s [] cs) =
    ((Some (desiredManagedEnvironment env (desiredSpec env credentials name)), false, None),
     mkClient (withEnvironment env' s1) []
       (statusCalls (needsResolve EnvironmentReasonErrorOccurred (envConditions env))
          (objectKey env)
        ++ evs
        ++ mkEvent VGet KSecret (credentialSecretKey env credentials) None :: cs)).
Proof.
  intros Hsync Hsecret mirror s1 evs name env'. subst mirror s1 evs name env'.
  unfold generateDesiredResource_fromCredentials.
  set (details := match UnstableConfigurationFields (envSpec env) with
                  | Some ucf => _ | None => _ end).
  assert (Hdetails : details
          = desiredSpec env credentials (ClusterCredentialsSecret credentials)).
  { subst details. unfold desiredSpec, credentialsSpec.
    by destruct (UnstableConfigurationFields (envSpec env)). }
  clearbody details. subst details.
  unfold mirrorSecret, credentialSecretKey, managedSecretKey in *.
  key_simpl. cbn [desiredSpec meClusterCredentialsSecret].
  rewrite bind_eq, k8sGet_reliable.
  cluster_simpl. key_simpl. rewrite Hsecret. cbn [fst snd].
  case_bool_decide as Hmirror.
  - rewrite decide_True by done.
    rewrite bind_eq, k8sGet_reliable. cluster_simpl. key_simpl.
    destruct (lookupObj (mkNamespacedName _ (generateManagedEnvSecretName _)) (secrets s))
      as [managed|] eqn:Hmanaged; cbn [fst snd IsNotFound notFound negb].
    + pose proof (lookupObj_key _ _ _ Hmanaged) as Hkey. key_simpl.
      injection Hkey as Hmns Hmname.
      destruct (decide (secData secret ≠ secData managed)) as [Hdata|Hdata].
      * rewrite bind_eq.
        rewrite (k8sUpdate_reliable _ managed)
          by (cluster_simpl; key_simpl; by rewrite Hmns, Hmname).
        cbn [fst snd]. rewrite bind_eq.
        rewrite resolve_sync by done. cbn [fst snd]. rewrite ret_eq.
        cluster_simpl. key_simpl. by rewrite Hmname, Hmns.
      * rewrite bind_eq, resolve_sync by done. cbn [fst snd]. rewrite ret_eq.
        key_simpl. by rewrite Hmname.
    + rewrite bind_eq.
      rewrite k8sCreate_reliable by done. cbn [fst snd].
      rewrite bind_eq, resolve_sync by done. cbn [fst snd]. by rewrite ret_eq.
  - rewrite decide_False by done.
    rewrite bind_eq, resolve_sync by done. cbn [fst snd]. by rewrite ret_eq.
Qed.

Lemma secrets_withEnvironment e s : secrets (withEnvironment e s) = secrets s.
Proof. done. Qed.

Lemma managedEnvironments_withEnvironment e s :
  managedEnvironments (withEnvironment e s) = managedEnvironments s.
Proof. done. Qed.

Lemma deploymentTargetClaims_withEnvironment e s :
  deploymentTargetClaims (withEnvironment e s) = deploymentTargetClaims s.
Proof. done. Qed.

Lemma deploymentTargets_withEnvironment e s :
  deploymentTargets (withEnvironment e s) = deploymentTargets s.
Proof. done. Qed.

Lemma namespaces_withEnvironment e s : namespaces (withEnvironment e s) = namespaces s.
Proof. done. Qed.

Ltac frame_simpl :=
  rewrite ?secrets_withEnvironment, ?managedEnvironments_withEnvironment,
    ?deploymentTargetClaims_withEnvironment, ?deploymentTargets_withEnvironment,
    ?namespaces_withEnvironment in *.

Lemma fromCredentials_missing env claimName credentials s cs :
  lookupObj (objectKey env) (environments s) = Some env →
  lookupObj (credentialSecretKey env credentials) (secrets s) = None →
  let message := missingSecretMessage (ClusterCredentialsSecret credentials) in
  let env' := withConditions env (raisedConditions message (envConditions env)) in
  let s1 := withEnvironment env' s in
  ∃ err outcome,
    generateDesiredResource_fromCredentials env claimName (credentialsSpec credentials)
      (mkClient s [] cs) =
      ((None, true, Some err),
       mkClient (setItems (removeObj (managedSecretKey env) (secrets s1)) s1) []
         (mkEvent VDelete KSecret (managedSecretKey env) outcome
          :: statusCalls (insertOrUpdateConditionsInSlice (raisedCondition message)
                            (envConditions env)).1 (objectKey env)
          ++ mkEvent VGet KSecret (credentialSecretKey env credentials)
               (Some (notFound (credentialSecretKey env credentials))) :: cs))
    ∧ outcome = match lookupObj (managedSecretKey env) (secrets s) with
                | Some _ => None
                | None => Some (notFound (managedSecretKey env))
                end.
Proof.
  intros Hsync Hsecret message env' s1. subst message env' s1.
  unfold generateDesiredResource_fromCredentials.
  set (details := match UnstableConfigurationFields (envSpec env) with
                  | Some ucf => _ | None => _ end).
  assert (Hdetails : details
          = desiredSpec env credentials (ClusterCredentialsSecret credentials)).
  { subst details. unfold desiredSpec, credentialsSpec.
    by destruct (UnstableConfigurationFields (envSpec env)). }
  clearbody details. subst details.
  unfold missingSecretMessage, credentialSecretKey, managedSecretKey in *.
  key_simpl. cbn [desiredSpec meClusterCredentialsSecret].
  rewrite bind_eq, k8sGet_reliable.
  cluster_simpl. key_simpl. rewrite Hsecret. cbn [fst snd IsNotFound notFound].
  rewrite bind_eq, raise_sync by done. cbn [fst snd].
  rewrite bind_eq, k8sDelete_reliable. cluster_simpl. key_simpl. frame_simpl.
  destruct (lookupObj (mkNamespacedName _ (generateManagedEnvSecretName _)) (secrets s))
    as [managed|] eqn:Hmanaged; cbn [fst snd IsNotFound notFound negb].
  - rewrite ret_eq. eexists _, None. split; done.
  - rewrite ret_eq. eexists _, (Some _). split; [|done].
    rewrite removeObj_id by done. unfold withEnvironment. cluster_simpl. done.
Qed.

(** The claim-driven start of the generator, up to the resolved target. *)
Lemma generateDesiredResource_claim env dtc dt s cs :
  lookupObj (objectKey env) (environments s) = Some env →
  GetDeploymentTargetClaimName env ≠ "" →
  lookupObj (mkNamespacedName (Namespace (envMeta env)) (GetDeploymentTargetClaimName env))
    (deploymentTargetClaims s) = Some dtc →
  dtcPhase dtc = DeploymentTargetClaimPhase_Bound →
  resolveTarget dtc (inNamespace (Namespace (envMeta env)) (deploymentTargets s)) = Some dt →
  let env' := withConditions env (resolvedConditions (envConditions env)) in
  generateDesiredResource env (mkClient s [] cs) =
    generateDesiredResource_fromCredentials env' (GetDeploymentTargetClaimName env)
      (credentialsSpec (dtCredentials dt))
      (mkClient (withEnvironment env' s) []
         (mkEvent VList KDeploymentTarget
            (mkNamespacedName (Namespace (envMeta env)) "") None
          :: statusCalls (needsResolve EnvironmentReasonErrorOccurred (envConditions env))
               (objectKey env)
          ++ mkEvent VGet KDeploymentTargetClaim
               (mkNamespacedName (Namespace (envMeta env))
                  (GetDeploymentTargetClaimName env)) None :: cs)).
Proof.
  intros Hsync Hclaim Hdtc Hphase Hdt env'. subst env'.
  pose proof (lookupObj_key _ _ _ Hdtc) as Hkey. key_simpl.
  injection Hkey as Hdns Hdname.
  unfold generateDesiredResource. rewrite decide_True by done.
  rewrite bind_eq, k8sGet_reliable. cluster_simpl. key_simpl.
  rewrite Hdtc. cbn [fst snd].
  rewrite bind_eq, resolve_sync by done. cbn [fst snd].
  rewrite decide_False by (intros Hn; by apply Hn).
  rewrite bind_eq. unfold getDTBoundByDTC. rewrite bind_eq, k8sList_reliable.
  cbn [fst snd]. rewrite ret_eq. cbn [fst snd].
  cluster_simpl. frame_simpl. rewrite Hdns, Hdt.
  rewrite bind_eq.
  rewrite resolve_sync by (by eapply lookupObj_withEnvironment_eq).
  cbn [fst snd]. key_simpl.
  rewrite needsResolve_resolvedConditions, resolvedConditions_idem.
  cbn [statusCalls app].
  by rewrite withEnvironment_twice.
Qed.

(** *** Reconcile on a reliable client *)

(** Reconcile up to the call of the generator, when the two reads that come
    first are served. *)
Lemma Reconcile_generate_served (req : Request) (environment : Environment) c :
  namespaceActive (nnNamespace req) (cluster c) →
  scheduled 0 (schedule c) = None → scheduled 1 (schedule c) = None →
  lookupObj req (environments (cluster c)) = Some environment →
  ¬ (GetDeploymentTargetClaimName environment ≠ ""
     ∧ UnstableConfigurationFields (envSpec environment) ≠ None) →
  Reconcile req c =
    let g := generateDesiredResource environment (mkClient (cluster c) (tail (tail (schedule c)))
                 (readEvents req ++ calls c)) in
    match g.1 with
    | (_, _, Some err) =>
        ((noRequeue,
          Some (Errorf
            "unable to generate expected GitOpsDeploymentManagedEnvironment resource: "
            err)), g.2)
    | (_, true, None) => ((noRequeue, None), g.2)
    | (None, false, None) =>
        let r := updateConditionErrorAsResolved "" environment
                   EnvironmentConditionErrorOccurred ConditionFalse
                   EnvironmentReasonErrorOccurred g.2 in
        ((noRequeue,
          from_option (λ e, Some (Errorf "unable to 'updateConditionErrorAsResolved': " e))
            None r.1.1), r.2)
    | (Some desiredManagedEnv, false, None) =>
        let r := k8sGet (T := GitOpsDeploymentManagedEnvironment)
                   (managedEnvironmentKey req) g.2 in
        match r.1 with
        | inl gerr =>
            if IsNotFound gerr then
              let r2 := k8sCreate desiredManagedEnv r.2 in
              ((noRequeue,
                from_option (λ e, Some (Errorf
                  "unable to create new GitOpsDeploymentManagedEnvironment: " e))
                  None r2.1), r2.2)
            else
              ((noRequeue,
                Some (Errorf
                  ("unable to retrieve existing GitOpsDeploymentManagedEnvironment '"
                     +:+ "managed-environment-" +:+ nnName req +:+ "': ") gerr)), r.2)
        | inr currentManagedEnv =>
            let r2 := updateConditionErrorAsResolved "" environment
                        EnvironmentConditionErrorOccurred ConditionFalse
                        EnvironmentReasonErrorOccurred r.2 in
            match r2.1.1 with
            | Some rerr => ((noRequeue, Some rerr), r2.2)
            | None =>
                if decide (meSpec currentManagedEnv = meSpec desiredManagedEnv) then
                  ((noRequeue, None), r2.2)
                else
                  let r3 := k8sUpdate
                              (mkManagedEnvironment (meMeta currentManagedEnv)
                                 (meSpec desiredManagedEnv)) r2.2 in
                  ((noRequeue,
                    from_option (λ e, Some (Errorf
                      ("unable to update existing GitOpsDeploymentManagedEnvironment '"
                         +:+ Name (meMeta currentManagedEnv) +:+ "': ") e))
                      None r3.1), r3.2)
            end
        end
    end.
Proof.
  intros Hns Hs0 Hs1 Henv Hboth.
  pose proof (lookupObj_key _ _ _ Henv) as Hkey. key_simpl.
  destruct req as [ns name]. key_simpl. injection Hkey as Hens Hename.
  unfold Reconcile, readEvents, managedEnvironmentKey. key_simpl. rewrite bind_eq.
  rewrite (isRequestNamespaceBeingDeleted_active _ _ Hns Hs0). cbn [fst snd].
  rewrite decide_False by (intros [?|Hn]; [done|by apply Hn]).
  rewrite bind_eq, k8sGet_eq, schedule_logged, scheduled_tail, Hs1.
  cluster_simpl. key_simpl.
  rewrite Henv. cbn [fst snd]. rewrite decide_False by done.
  rewrite bind_eq. cbv zeta. cbn [app].
  destruct (generateDesiredResource environment _)
    as [[[[desired|] [|]] [err|]] cg]; cbn [fst snd]; try done.
  - rewrite bind_eq, Hens, Hename.
    destruct (k8sGet _ cg) as [[gerr|current] c1]; cbn [fst snd].
    + destruct (IsNotFound gerr); [|done].
      rewrite bind_eq. by destruct (k8sCreate desired c1) as [[cerr|] c2].
    + rewrite bind_eq.
      destruct (updateConditionErrorAsResolved _ _ _ _ _ c1) as [[[rerr|] e2] c2];
        cbn [fst snd]; [done|].
      case_decide; [done|].
      rewrite bind_eq. by destruct (k8sUpdate _ c2) as [[uerr|] c3].
  - rewrite bind_eq.
    by destruct (updateConditionErrorAsResolved _ _ _ _ _ cg) as [[[rerr|] e2] c2].
Qed.

(** Reconcile up to the call of the generator. *)
Lemma Reconcile_generate (req : Request) (environment : Environment) s cs :
  namespaceActive (nnNamespace req) s →
  lookupObj req (environments s) = Some environment →
  ¬ (GetDeploymentTargetClaimName environment ≠ ""
     ∧ UnstableConfigurationFields (envSpec environment) ≠ None) →
  Reconcile req (mkClient s [] cs) =
    let g := generateDesiredResource environment (mkClient s [] (readEvents req ++ cs)) in
    match g.1 with
    | (_, _, Some err) =>
        ((noRequeue,
          Some (Errorf
            "unable to generate expected GitOpsDeploymentManagedEnvironment resource: "
            err)), g.2)
    | (_, true, None) => ((noRequeue, None), g.2)
    | (None, false, None) =>
        let r := updateConditionErrorAsResolved "" environment
                   EnvironmentConditionErrorOccurred ConditionFalse
                   EnvironmentReasonErrorOccurred g.2 in
        ((noRequeue,
          from_option (λ e, Some (Errorf "unable to 'updateConditionErrorAsResolved': " e))
            None r.1.1), r.2)
    | (Some desiredManagedEnv, false, None) =>
        let r := k8sGet (T := GitOpsDeploymentManagedEnvironment)
                   (managedEnvironmentKey req) g.2 in
        match r.1 with
        | inl gerr =>
            if IsNotFound gerr then
              let r2 := k8sCreate desiredManagedEnv r.2 in
              ((noRequeue,
                from_option (λ e, Some (Errorf
                  "unable to create new GitOpsDeploymentManagedEnvironment: " e))
                  None r2.1), r2.2)
            else
              ((noRequeue,
                Some (Errorf
                  ("unable to retrieve existing GitOpsDeploymentManagedEnvironment '"
                     +:+ "managed-environment-" +:+ nnName req +:+ "': ") gerr)), r.2)
        | inr currentManagedEnv =>
            let r2 := updateConditionErrorAsResolved "" environment
                        EnvironmentConditionErrorOccurred ConditionFalse
                        EnvironmentReasonErrorOccurred r.2 in
            match r2.1.1 with
            | Some rerr => ((noRequeue, Some rerr), r2.2)
            | None =>
                if decide (meSpec currentManagedEnv = meSpec desiredManagedEnv) then
                  ((noRequeue, None), r2.2)
                else
                  let r3 := k8sUpdate
                              (mkManagedEnvironment (meMeta currentManagedEnv)
                                 (meSpec desiredManagedEnv)) r2.2 in
                  ((noRequeue,
                    from_option (λ e, Some (Errorf
                      ("unable to update existing GitOpsDeploymentManagedEnvironment '"
                         +:+ Name (meMeta currentManagedEnv) +:+ "': ") e))
                      None r3.1), r3.2)
            end
        end
    end.
Proof.
  intros Hns Henv Hboth.
  by rewrite (Reconcile_generate_served req environment (mkClient s [] cs)).
Qed.

Lemma Reconcile_desired (req : Request) (environment : Environment) desired s cs sg csg :
  namespaceActive (nnNamespace req) s →
  lookupObj req (environments s) = Some environment →
  ¬ (GetDeploymentTargetClaimName environment ≠ ""
     ∧ UnstableConfigurationFields (envSpec environment) ≠ None) →
  generateDesiredResource environment (mkClient s [] (readEvents req ++ cs))
  = ((Some desired, false, None), mkClient sg [] csg) →
  lookupObj req (environments sg)
  = Some (withConditions environment (resolvedConditions (envConditions environment))) →
  objectKey desired = managedEnvironmentKey req →
  let applied :=
    applyManagedEnvironment
      (needsResolve EnvironmentReasonErrorOccurred (envConditions environment))
      req desired sg in
  Reconcile req (mkClient s [] cs) =
    ((noRequeue, None), mkClient applied.1 [] (applied.2 ++ csg)).
Proof.
  intros Hns Henv Hboth Hgen Hsync Hdesired applied. subst applied.
  pose proof (lookupObj_key _ _ _ Henv) as Hkey.
  rewrite (Reconcile_generate _ _ _ _ Hns Henv Hboth). cbv zeta. rewrite Hgen.
  cbn [fst snd]. rewrite k8sGet_reliable. cluster_simpl.
  unfold applyManagedEnvironment.
  destruct (lookupObj (managedEnvironmentKey req) (managedEnvironments sg))
    as [current|] eqn:Hcurrent; cbn [fst snd IsNotFound notFound].
  - pose proof (lookupObj_key _ _ _ Hcurrent) as Hckey.
    destruct (resolve_stale "" environment EnvironmentConditionErrorOccurred
                ConditionFalse sg
                (mkEvent VGet KManagedEnvironment (managedEnvironmentKey req) None :: csg))
      as [e' He']; [by rewrite Hkey|].
    rewrite He', Hkey. cbn [fst snd].
    case_decide; cbn [fst snd]; [by rewrite <- app_assoc|].
    rewrite (k8sUpdate_reliable _ current) by (by cluster_simpl; rewrite <- Hckey in Hcurrent).
    cbn [fst snd from_option]. cluster_simpl.
    change (objectKey (mkManagedEnvironment (meMeta current) (meSpec desired)))
      with (objectKey current).
    rewrite Hckey. cbn [app]. by rewrite <- app_assoc.
  - rewrite k8sCreate_reliable by (cluster_simpl; by rewrite Hdesired).
    cbn [fst snd from_option]. cluster_simpl. by rewrite Hdesired.
Qed.

(** C1. An Environment with inline credentials and no claim reference whose
    credential secret exists: one Reconcile on a reliable client succeeds and
    leaves, under the name "managed-environment-<EnvironmentName>" in the
    Environment's namespace, a ManagedEnvironment whose spec is the
    transformation of the inline credentials (API URL, secret name and TLS
    flag of the credentials, the cluster-resources flag and the namespaces). *)
Theorem Reconcile_inline_credentials (req : Request) (c : Client)
    (environment : Environment) (ucf : UnstableEnvironmentConfiguration)
    (secret : Secret) :
  reliable c → namespaceActive (nnNamespace req) (cluster c) →
  lookupObj req (environments (cluster c)) = Some environment →
  GetDeploymentTargetClaimName environment = "" →
  UnstableConfigurationFields (envSpec environment) = Some ucf →
  lookupObj (mkNamespacedName (nnNamespace req)
               (ClusterCredentialsSecret (ucfCredentials ucf)))
    (secrets (cluster c)) = Some secret →
  (Reconcile req c).1 = (noRequeue, None)
  ∧ ∃ managedEnv,
      lookupObj (managedEnvironmentKey req)
        (managedEnvironments (cluster (Reconcile req c).2)) = Some managedEnv
      ∧ Name (meMeta managedEnv) = "managed-environment-" +:+ Name (envMeta environment)
      ∧ Namespace (meMeta managedEnv) = Namespace (envMeta environment)
      ∧ meSpec managedEnv =
          {| meAPIURL := APIURL (ucfCredentials ucf);
             meClusterCredentialsSecret := ClusterCredentialsSecret (ucfCredentials ucf);
             meAllowInsecureSkipTLSVerify :=
               AllowInsecureSkipTLSVerify (ucfCredentials ucf);
             meClusterResources := ucfClusterResources ucf;
             meNamespaces := ucfNamespaces ucf |}.
Proof.
  intros Hrel Hns Henv Hclaim Hucf Hsecret.
  destruct c as [s sched cs]. unfold reliable in Hrel. cbn [schedule cluster] in *.
  subst sched.
  pose proof (lookupObj_key _ _ _ Henv) as Hkey.
  assert (Hens : Namespace (envMeta environment) = nnNamespace req)
    by (by rewrite <- Hkey).
  assert (Hename : Name (envMeta environment) = nnName req) by (by rewrite <- Hkey).
  set (spec := desiredSpec environment (ucfCredentials ucf)
                 (ClusterCredentialsSecret (ucfCredentials ucf))).
  set (env' := withConditions environment (resolvedConditions (envConditions environment))).
  assert (Hgen :
    generateDesiredResource environment (mkClient s [] (readEvents req ++ cs))
    = ((Some (desiredManagedEnvironment environment spec), false, None),
       mkClient (withEnvironment env' s) []
         (statusCalls (needsResolve EnvironmentReasonErrorOccurred
                         (envConditions environment)) (objectKey environment)
          ++ [] ++ mkEvent VGet KSecret
                     (credentialSecretKey environment (ucfCredentials ucf)) None
                :: readEvents req ++ cs))).
  { unfold generateDesiredResource. rewrite Hclaim, decide_False by (intros Hn; by apply Hn).
    rewrite Hucf.
    rewrite (fromCredentials_found _ _ _ secret);
      [|by rewrite Hkey|by unfold credentialSecretKey; rewrite Hens].
    cbv zeta. rewrite bool_decide_false by (intros [Hn _]; by apply Hn). done. }
  rewrite (Reconcile_desired req environment _ s cs _ _ Hns Henv
             ltac:(rewrite Hclaim; intros [Hn _]; by apply Hn) Hgen); cycle 1.
  { rewrite <- Hkey. apply (lookupObj_withEnvironment_eq env' s environment).
    change (objectKey env') with (objectKey environment). by rewrite Hkey. }
  { unfold managedEnvironmentKey. by rewrite <- Hens, <- Hename. }
  cbv zeta. cbn [fst snd]. split; [done|].
  unfold applyManagedEnvironment. frame_simpl.
  assert (Hspec : spec =
    {| meAPIURL := APIURL (ucfCredentials ucf);
       meClusterCredentialsSecret := ClusterCredentialsSecret (ucfCredentials ucf);
       meAllowInsecureSkipTLSVerify := AllowInsecureSkipTLSVerify (ucfCredentials ucf);
       meClusterResources := ucfClusterResources ucf;
       meNamespaces := ucfNamespaces ucf |})
    by (subst spec; unfold desiredSpec; by rewrite Hucf).
  destruct (lookupObj (managedEnvironmentKey req) (managedEnvironments s))
    as [current|] eqn:Hcurrent.
  - pose proof (lookupObj_key _ _ _ Hcurrent) as Hckey.
    assert (Name (meMeta current) = "managed-environment-" +:+ Name (envMeta environment)
            ∧ Namespace (meMeta current) = Namespace (envMeta environment)) as [Hcn Hcns].
    { rewrite Hens, Hename. unfold managedEnvironmentKey in Hckey. key_simpl.
      by injection Hckey. }
    case_decide as Hsame; cbn [fst snd cluster].
    + exists current. frame_simpl. rewrite Hcurrent.
      split; [done|]. split; [done|]. split; [done|]. by rewrite Hsame.
    + exists (mkManagedEnvironment (meMeta current) spec). cluster_simpl.
      split; [|done]. rewrite <- Hckey.
      change (objectKey current)
        with (objectKey (mkManagedEnvironment (meMeta current) spec)).
      eapply lookupObj_replaceObj_eq.
      change (objectKey (mkManagedEnvironment (meMeta current) spec))
        with (objectKey current). by rewrite Hckey.
  - exists (desiredManagedEnvironment environment spec). cbn [fst snd cluster].
    cluster_simpl. frame_simpl. split; [|done].
    rewrite lookupObj_app, Hcurrent, decide_True; [done|].
    unfold managedEnvironmentKey. by rewrite <- Hens, <- Hename.
Qed.

Lemma Forall_statusCalls b key : Forall readOrStatus (statusCalls b key).
Proof.
  destruct b; simpl; [|done]. constructor; [|done]. right. by right.
Qed.

Ltac solve_readOrStatus :=
  repeat match goal with
    | |- Forall _ [] => apply Forall_nil
    | |- Forall _ (statusCalls _ _) => apply Forall_statusCalls
    | |- Forall _ (_ :: _) => constructor; [unfold readOrStatus; cbn; by auto|]
    | |- Forall _ (_ ++ _) => apply Forall_app; split
    end.

Lemma calls_reassoc (X Y : list Event) (G L D : Event) (cs : list Event) :
  X ++ G :: L :: Y ++ D :: cs = (X ++ G :: L :: Y ++ [D]) ++ cs.
Proof. rewrite <- !app_assoc. cbn [app]. by rewrite <- !app_assoc. Qed.

Lemma generateDesiredResource_missing env credentials s cs :
  lookupObj (objectKey env) (environments s) = Some env →
  resolvedCredentials env s credentials →
  lookupObj (credentialSecretKey env credentials) (secrets s) = None →
  let message := missingSecretMessage (ClusterCredentialsSecret credentials) in
  let env' := withConditions env (raisedConditions message (envConditions env)) in
  ∃ err new outcome,
    generateDesiredResource env (mkClient s [] cs) =
      ((None, true, Some err),
       mkClient (setItems (removeObj (managedSecretKey env) (secrets s))
                   (withEnvironment env' s)) []
         (mkEvent VDelete KSecret (managedSecretKey env) outcome :: new ++ cs))
    ∧ outcome = match lookupObj (managedSecretKey env) (secrets s) with
                | Some _ => None
                | None => Some (notFound (managedSecretKey env))
                end
    ∧ Forall readOrStatus new.
Proof.
  intros Hsync Hcred Hsecret message env'. subst message env'.
  destruct Hcred as [(Hclaim & ucf & Hucf & ->)|(Hclaim & dtc & dt & Hdtc & Hphase & Hdt & ->)].
  - unfold generateDesiredResource.
    rewrite Hclaim, decide_False by (intros Hn; by apply Hn). rewrite Hucf.
    destruct (fromCredentials_missing env "" (ucfCredentials ucf) s cs Hsync Hsecret)
      as (err & outcome & Hrun & Hout).
    cbv zeta in Hrun. rewrite Hrun. frame_simpl.
    eexists err, (_ ++ [_]), outcome. split; [by rewrite <- app_assoc|].
    split; [done|]. solve_readOrStatus.
  - rewrite (generateDesiredResource_claim env dtc dt) by done. cbv zeta.
    set (envR := withConditions env (resolvedConditions (envConditions env))).
    destruct (fromCredentials_missing envR (GetDeploymentTargetClaimName env)
                (dtCredentials dt) (withEnvironment envR s)
                (mkEvent VList KDeploymentTarget
                   (mkNamespacedName (Namespace (envMeta env)) "") None
                 :: statusCalls (needsResolve EnvironmentReasonErrorOccurred
                                   (envConditions env)) (objectKey env)
                 ++ mkEvent VGet KDeploymentTargetClaim
                      (mkNamespacedName (Namespace (envMeta env))
                         (GetDeploymentTargetClaimName env)) None :: cs))
      as (err & outcome & Hrun & Hout).
    { by eapply lookupObj_withEnvironment_eq. }
    { by frame_simpl. }
    cbv zeta in Hrun. rewrite Hrun. frame_simpl.
    subst envR. key_simpl.
    rewrite raisedConditions_resolvedConditions, withEnvironment_twice by done.
    rewrite calls_reassoc.
    eexists err, _, outcome. split; [done|].
    split; [done|]. solve_readOrStatus.
Qed.

(** The missing credential secret, in the vocabulary of the statements. *)
Lemma Reconcile_secret_absent (req : Request) (c : Client)
    (environment : Environment) (credentials : KubernetesClusterCredentials) :
  reliable c → namespaceActive (nnNamespace req) (cluster c) →
  lookupObj req (environments (cluster c)) = Some environment →
  ¬ (GetDeploymentTargetClaimName environment ≠ ""
     ∧ UnstableConfigurationFields (envSpec environment) ≠ None) →
  resolvedCredentials environment (cluster c) credentials →
  lookupObj (credentialSecretKey environment credentials) (secrets (cluster c)) = None →
  let message := missingSecretMessage (ClusterCredentialsSecret credentials) in
  let generated :=
    generateDesiredResource environment
      (mkClient (cluster c) [] (readEvents req ++ calls c)) in
  let c' := (Reconcile req c).2 in
  (∃ err, generated.1 = (None, true, Some err))
  ∧ (Reconcile req c).1.1 = noRequeue ∧ is_Some (Reconcile req c).1.2
  ∧ c' = generated.2
  ∧ lookupObj req (environments (cluster c'))
    = Some (withConditions environment
              (raisedConditions message (envConditions environment)))
  ∧ findCondition (raisedConditions message (envConditions environment))
      EnvironmentConditionErrorOccurred = (raisedCondition message, true)
  ∧ secrets (cluster c')
    = removeObj (managedSecretKey environment) (secrets (cluster c))
  ∧ lookupObj (managedSecretKey environment) (secrets (cluster c')) = None
  ∧ managedEnvironments (cluster c') = managedEnvironments (cluster c)
  ∧ ∃ outcome new,
      calls c' = mkEvent VDelete KSecret (managedSecretKey environment) outcome
                   :: new ++ readEvents req ++ calls c
      ∧ outcome = match lookupObj (managedSecretKey environment) (secrets (cluster c)) with
                  | Some _ => None
                  | None => Some (notFound (managedSecretKey environment))
                  end
      ∧ Forall readOrStatus new.
Proof.
  intros Hrel Hns Henv Hboth Hcred Hsecret message generated c'.
  destruct c as [s sched cs]. unfold reliable in Hrel. cbn [schedule cluster calls] in *.
  subst sched c' generated.
  pose proof (lookupObj_key _ _ _ Henv) as Hkey.
  rewrite (Reconcile_generate _ _ _ _ Hns Henv Hboth). cbv zeta.
  destruct (generateDesiredResource_missing environment credentials s
              (readEvents req ++ cs)) as (err & new & outcome & Hgen & Hout & Hnew);
    [by rewrite Hkey|done..|].
  cbv zeta in Hgen. rewrite Hgen. cbn [fst snd]. cluster_simpl. frame_simpl.
  split; [by eauto|]. split; [done|]. split; [by eauto|]. split; [done|].
  split.
  { rewrite <- Hkey.
    apply (lookupObj_withEnvironment_eq (withConditions environment _) s environment).
    change (objectKey (withConditions environment _)) with (objectKey environment).
    by rewrite Hkey. }
  split; [apply (findCondition_insertOrUpdate (raisedCondition message))|].
  split; [done|].
  split; [by rewrite lookupObj_removeObj, decide_True|].
  split; [done|]. by exists outcome, new.
Qed.

(** *** Mirroring the source secret *)

Lemma mirrorSecret_withEnvironment env secret e s :
  mirrorSecret env secret (withEnvironment e s)
  = (withEnvironment e (mirrorSecret env secret s).1, (mirrorSecret env secret s).2).
Proof.
  unfold mirrorSecret. frame_simpl.
  destruct (lookupObj _ (secrets s)); [|done]. by case_decide.
Qed.

(** The managed secret after mirroring: it holds the data of the source; it is
    the freshly built one when there was none, and the stored one with only
    its data replaced otherwise. *)
Lemma mirrorSecret_managed env secret s :
  ∃ managed,
    lookupObj (managedSecretKey env) (secrets (mirrorSecret env secret s).1) = Some managed
    ∧ secData managed = secData secret
    ∧ match lookupObj (managedSecretKey env) (secrets s) with
      | None => managed = managedSecretOf env (secData secret)
      | Some old => managed = mkSecret (secMeta old) (secType old) (secData secret)
      end.
Proof.
  unfold mirrorSecret.
  destruct (lookupObj (managedSecretKey env) (secrets s)) as [old|] eqn:Hold.
  - pose proof (lookupObj_key _ _ _ Hold) as Hkey.
    case_decide as Hdata; cbn [fst]; cluster_simpl.
    + exists (mkSecret (secMeta old) (secType old) (secData secret)).
      split; [|done]. rewrite <- Hkey.
      assert (lookupObj
                (objectKey (mkSecret (secMeta old) (secType old) (secData secret)))
                (secrets s) = Some old) as Hx.
      { change (objectKey (mkSecret (secMeta old) (secType old) (secData secret)))
          with (objectKey old). by rewrite Hkey. }
      exact (lookupObj_replaceObj_eq _ _ _ Hx).
    + exists old. rewrite Hold. split; [done|].
      split; [done|]. destruct old; simpl in *. by rewrite Hdata.
  - cbn [fst]. cluster_simpl. exists (managedSecretOf env (secData secret)).
    split; [|done]. rewrite lookupObj_app, Hold. by rewrite decide_True.
Qed.


(** Mirroring a second time only reads. *)
Lemma mirrorSecret_idem env secret s :
  mirrorSecret env secret (mirrorSecret env secret s).1
  = ((mirrorSecret env secret s).1,
     [ mkEvent VGet KSecret (managedSecretKey env) None ]).
Proof.
  destruct (mirrorSecret_managed env secret s) as (managed & Hl & Hdata & _).
  unfold mirrorSecret at 1. rewrite Hl.
  rewrite decide_False; [done|]. intros Hn. by apply Hn.
Qed.

(** The claim-driven generator, when the secret of the bound target exists. *)
Lemma generateDesiredResource_claim_found env dtc dt secret s cs :
  lookupObj (objectKey env) (environments s) = Some env →
  GetDeploymentTargetClaimName env ≠ "" →
  lookupObj (mkNamespacedName (Namespace (envMeta env)) (GetDeploymentTargetClaimName env))
    (deploymentTargetClaims s) = Some dtc →
  dtcPhase dtc = DeploymentTargetClaimPhase_Bound →
  resolveTarget dtc (inNamespace (Namespace (envMeta env)) (deploymentTargets s)) = Some dt →
  lookupObj (credentialSecretKey env (dtCredentials dt)) (secrets s) = Some secret →
  let mirror := bool_decide (secType secret ≠ ManagedEnvironmentSecretType) in
  let s1 := if mirror then (mirrorSecret env secret s).1 else s in
  let evs := if mirror then (mirrorSecret env secret s).2 else [] in
  let name := if mirror then managedSecretName env
              else ClusterCredentialsSecret (dtCredentials dt) in
  let env' := withConditions env (resolvedConditions (envConditions env)) in
  generateDesiredResource env (mkClient s [] cs) =
    ((Some (desiredManagedEnvironment env (desiredSpec env (dtCredentials dt) name)),
      false, None),
     mkClient (withEnvironment env' s1) []
       (evs
        ++ mkEvent VGet KSecret (credentialSecretKey env (dtCredentials dt)) None
        :: mkEvent VList KDeploymentTarget
             (mkNamespacedName (Namespace (envMeta env)) "") None
        :: statusCalls (needsResolve EnvironmentReasonErrorOccurred (envConditions env))
             (objectKey env)
        ++ mkEvent VGet KDeploymentTargetClaim
             (mkNamespacedName (Namespace (envMeta env))
                (GetDeploymentTargetClaimName env)) None :: cs)).
Proof.
  intros Hsync Hclaim Hdtc Hphase Hdt Hsecret mirror s1 evs name env'.
  subst mirror s1 evs name env'.
  rewrite (generateDesiredResource_claim env dtc dt) by done. cbv zeta.
  set (envR := withConditions env (resolvedConditions (envConditions env))).
  rewrite (fromCredentials_found envR _ _ secret); cycle 1.
  { by eapply lookupObj_withEnvironment_eq. }
  { by frame_simpl. }
  cbv zeta. subst envR. key_simpl.
  rewrite needsResolve_resolvedConditions, resolvedConditions_idem.
  cbn [statusCalls app].
  assert (bool_decide (GetDeploymentTargetClaimName env ≠ ""
                       ∧ secType secret ≠ ManagedEnvironmentSecretType)
          = bool_decide (secType secret ≠ ManagedEnvironmentSecretType)) as ->.
  { apply bool_decide_ext. split; [by intros [_ ?]|by intros ?]. }
  unfold managedSecretName.
  destruct (bool_decide (secType secret ≠ ManagedEnvironmentSecretType)).
  - change (mirrorSecret (mkEnvironment (envAPIVersion env) (envKind env) (envMeta env)
                            (envSpec env) (resolvedConditions (envConditions env))))
      with (mirrorSecret env).
    rewrite mirrorSecret_withEnvironment. cbn [fst snd].
    by rewrite withEnvironment_twice.
  - by rewrite withEnvironment_twice.
Qed.

Lemma newCalls_app c c' new : calls c' = new ++ calls c → newCalls c c' = new.
Proof.
  intros Hc. unfold newCalls. rewrite Hc, length_app.
  replace (length new + length (calls c) - length (calls c)) with (length new) by lia.
  apply take_app_length.
Qed.

Lemma writeCalls_app l1 l2 : writeCalls (l1 ++ l2) = writeCalls l1 ++ writeCalls l2.
Proof. apply list.filter_app. Qed.

Lemma writeCalls_readOrStatus l : Forall readOrStatus l → writeCalls l = [].
Proof.
  induction 1 as [|ev l Hev _ IH]; [done|].
  unfold writeCalls in *. rewrite filter_cons_False; [done|].
  unfold isWrite, readOrStatus in *. intros Hw.
  destruct Hev as [He|[He|He]]; rewrite He in Hw; by destruct Hw as [?|[?|?]].
Qed.

(** Mirroring, in the vocabulary of the statements: what the generator does
    to the managed secret of a claim-driven Environment whose source secret
    exists and is not of the managed-environment type. *)
Lemma generateDesiredResource_mirrors (env : Environment) (c : Client)
    (dtc : DeploymentTargetClaim) (dt : DeploymentTarget) (secret : Secret) :
  reliable c →
  lookupObj (objectKey env) (environments (cluster c)) = Some env →
  GetDeploymentTargetClaimName env ≠ "" →
  lookupObj (mkNamespacedName (Namespace (envMeta env)) (GetDeploymentTargetClaimName env))
    (deploymentTargetClaims (cluster c)) = Some dtc →
  dtcPhase dtc = DeploymentTargetClaimPhase_Bound →
  resolveTarget dtc (inNamespace (Namespace (envMeta env)) (deploymentTargets (cluster c)))
  = Some dt →
  lookupObj (credentialSecretKey env (dtCredentials dt)) (secrets (cluster c))
  = Some secret →
  secType secret ≠ ManagedEnvironmentSecretType →
  let key := managedSecretKey env in
  let generated := generateDesiredResource env c in
  let secrets' := secrets (cluster generated.2) in
  let writes := writeCalls (newCalls c generated.2) in
  (∃ desired,
     generated.1 = (Some desired, false, None)
     ∧ meSpec desired = desiredSpec env (dtCredentials dt) (managedSecretName env)
     ∧ meClusterCredentialsSecret (meSpec desired) = managedSecretName env)
  ∧ managedEnvironments (cluster generated.2) = managedEnvironments (cluster c)
  ∧ match lookupObj key (secrets (cluster c)) with
    | None =>
        secrets' = secrets (cluster c) ++ [managedSecretOf env (secData secret)]
        ∧ lookupObj key secrets' = Some (managedSecretOf env (secData secret))
        ∧ Labels (secMeta (managedSecretOf env (secData secret)))
            !! managedEnvironmentSecretLabel = Some (Name (envMeta env))
        ∧ writes = [ mkEvent VCreate KSecret key None ]
    | Some managed =>
        if decide (secData secret = secData managed) then
          secrets' = secrets (cluster c) ∧ writes = []
        else
          let managed' := mkSecret (secMeta managed) (secType managed) (secData secret) in
          secrets' = replaceObj managed' (secrets (cluster c))
          ∧ lookupObj key secrets' = Some managed'
          ∧ writes = [ mkEvent VUpdate KSecret key None ]
    end.
Proof.
  intros Hrel Hsync Hclaim Hdtc Hphase Hdt Hsecret Htype key generated secrets' writes.
  destruct c as [s sched cs]. unfold reliable in Hrel. cbn [schedule cluster calls] in *.
  subst sched secrets' writes generated key.
  rewrite (generateDesiredResource_claim_found env dtc dt secret) by done. cbv zeta.
  rewrite bool_decide_true by done. cbn [fst snd cluster]. frame_simpl.
  split; [by eauto|].
  assert (Hwrites : ∀ s1 evs,
    writeCalls (newCalls (mkClient s [] cs)
                  (mkClient s1 []
                     (evs
                      ++ mkEvent VGet KSecret
                           (credentialSecretKey env (dtCredentials dt)) None
                      :: mkEvent VList KDeploymentTarget
                           (mkNamespacedName (Namespace (envMeta env)) "") None
                      :: statusCalls (needsResolve EnvironmentReasonErrorOccurred
                                        (envConditions env)) (objectKey env)
                      ++ mkEvent VGet KDeploymentTargetClaim
                           (mkNamespacedName (Namespace (envMeta env))
                              (GetDeploymentTargetClaimName env)) None :: cs)))
    = writeCalls evs).
  { intros s1 evs.
    rewrite (newCalls_app _ _
      (evs ++ mkEvent VGet KSecret (credentialSecretKey env (dtCredentials dt)) None
           :: mkEvent VList KDeploymentTarget
                (mkNamespacedName (Namespace (envMeta env)) "") None
           :: statusCalls (needsResolve EnvironmentReasonErrorOccurred
                             (envConditions env)) (objectKey env)
           ++ [mkEvent VGet KDeploymentTargetClaim
                 (mkNamespacedName (Namespace (envMeta env))
                    (GetDeploymentTargetClaimName env)) None])).
    - rewrite writeCalls_app, (writeCalls_readOrStatus (_ :: _)), app_nil_r; [done|].
      solve_readOrStatus.
    - cbn [calls]. rewrite <- !app_assoc. cbn [app]. by rewrite <- !app_assoc. }
  rewrite Hwrites. clear Hwrites.
  split; [apply managedEnvironments_mirrorSecret|].
  destruct (mirrorSecret_managed env secret s) as (managed' & Hl & Hdata & Hold).
  unfold mirrorSecret in *.
  destruct (lookupObj (managedSecretKey env) (secrets s)) as [managed|] eqn:Hmanaged.
  - destruct (decide (secData secret ≠ secData managed)) as [Hne|Heq].
    + rewrite decide_False by done. cbn [fst snd] in *. cluster_simpl.
      subst managed'. done.
    + apply dec_stable in Heq. rewrite decide_True by done. done.
  - cbn [fst snd] in *. cluster_simpl. subst managed'.
    split; [done|]. split; [done|]. split; [|done].
    cbn [managedSecretOf secMeta Labels]. apply lookup_singleton_eq.
Qed.

(** C7. A claim-driven Environment whose resolved source secret exists and is
    not of the managed-environment type: the generator mirrors the data of the
    source secret into the secret "managed-environment-secret-<name>" of the
    Environment's namespace. When that secret is absent it is created with
    the label "appstudio.openshift.io/environment-secret" set to the
    Environment's name, owned by the Environment, holding the source data;
    when it is present with other data, its data is updated and its metadata
    (name, labels, owner references) and type stay as they are; when it holds
    the same data, no write is issued. The desired spec refers to
    "managed-environment-secret-<name>" instead of the source secret. *)
Theorem generateDesiredResource_mirrors_secret (env : Environment) (c : Client)
    (dtc : DeploymentTargetClaim) (dt : DeploymentTarget) (secret : Secret) :
  reliable c →
  lookupObj (objectKey env) (environments (cluster c)) = Some env →
  GetDeploymentTargetClaimName env ≠ "" →
  lookupObj (mkNamespacedName (Namespace (envMeta env)) (GetDeploymentTargetClaimName env))
    (deploymentTargetClaims (cluster c)) = Some dtc →
  dtcPhase dtc = DeploymentTargetClaimPhase_Bound →
  resolveTarget dtc (inNamespace (Namespace (envMeta env)) (deploymentTargets (cluster c)))
  = Some dt →
  lookupObj (mkNamespacedName (Namespace (envMeta env))
               (ClusterCredentialsSecret (dtCredentials dt)))
    (secrets (cluster c)) = Some secret →
  secType secret ≠ ManagedEnvironmentSecretType →
  let name := "managed-environment-secret-" +:+ Name (envMeta env) in
  let key := mkNamespacedName (Namespace (envMeta env)) name in
  let created :=
    {| secMeta :=
         {| Name := name;
            Namespace := Namespace (envMeta env);
            UID := "";
            Labels := {[ "appstudio.openshift.io/environment-secret" := Name (envMeta env) ]};
            OwnerReferences :=
              [ {| orAPIVersion := envAPIVersion env; orKind := envKind env;
                   orName := Name (envMeta env); orUID := UID (envMeta env);
                   orBlockOwnerDeletion := Some true; orController := Some true |} ];
            DeletionTimestamp := None |};
       secType := ManagedEnvironmentSecretType;
       secData := secData secret |} in
  let generated := generateDesiredResource env c in
  let secrets' := secrets (cluster generated.2) in
  let writes := writeCalls (newCalls c generated.2) in
  (∃ desired,
     generated.1 = (Some desired, false, None)
     ∧ meSpec desired =
         {| meAPIURL := APIURL (dtCredentials dt);
            meClusterCredentialsSecret := name;
            meAllowInsecureSkipTLSVerify := AllowInsecureSkipTLSVerify (dtCredentials dt);
            meClusterResources :=
              match UnstableConfigurationFields (envSpec env) with
              | Some ucf => ucfClusterResources ucf
              | None => false
              end;
            meNamespaces :=
              match UnstableConfigurationFields (envSpec env) with
              | Some ucf => ucfNamespaces ucf
              | None => []
              end |})
  ∧ managedEnvironments (cluster generated.2) = managedEnvironments (cluster c)
  ∧ match lookupObj key (secrets (cluster c)) with
    | None =>
        secrets' = secrets (cluster c) ++ [created]
        ∧ lookupObj key secrets' = Some created
        ∧ writes = [ mkEvent VCreate KSecret key None ]
    | Some managed =>
        if decide (secData secret = secData managed) then
          secrets' = secrets (cluster c) ∧ writes = []
        else
          let managed' := mkSecret (secMeta managed) (secType managed) (secData secret) in
          secrets' = replaceObj managed' (secrets (cluster c))
          ∧ lookupObj key secrets' = Some managed'
          ∧ writes = [ mkEvent VUpdate KSecret key None ]
    end.
Proof.
  intros Hrel Hsync Hclaim Hdtc Hphase Hdt Hsecret Htype name key created generated
    secrets' writes.
  destruct (generateDesiredResource_mirrors env c dtc dt secret
              Hrel Hsync Hclaim Hdtc Hphase Hdt Hsecret Htype)
    as ((desired & Hgen & Hspec & _) & Hmanaged & Hmirror).
  split; [by exists desired|]. split; [exact Hmanaged|].
  change (managedSecretKey env) with key in Hmirror.
  change (managedSecretOf env (secData secret)) with created in Hmirror.
  subst secrets' writes generated.
  destruct (lookupObj key (secrets (cluster c))) as [managed|]; [exact Hmirror|].
  by destruct Hmirror as (? & ? & _ & ?).
Qed.

(** ** Transient failures *)

Lemma surfaces_ret {A} (a : A) ok : surfaces (ret a) ok.
Proof. by intros c Hc _. Qed.

Lemma surfaces_bind {A B} (m : M A) (k : A → M B) okm okk :
  surfaces m okm →
  (∀ a c, okk (k a c).1 → okm a) →
  (∀ a, okm a → surfaces (k a) okk) →
  surfaces (bind m k) okk.
Proof.
  intros Hm Hback Hk c Hc. rewrite bind_eq. intros Hok.
  pose proof (Hback _ _ Hok) as Ha.
  apply (Hk _ Ha); [|done]. by apply Hm.
Qed.

Lemma surfaces_never {A} (m : M A) (ok : A → Prop) :
  (∀ c, ¬ ok (m c).1) → surfaces m ok.
Proof. intros Hnever c _ Hok. by destruct (Hnever c). Qed.

Lemma surfaces_weaken {A} (m : M A) (ok ok' : A → Prop) :
  surfaces m ok → (∀ a, ok' a → ok a) → surfaces m ok'.
Proof. intros Hm Himp c Hc Hok. apply Hm; auto. Qed.

Lemma clean_cons ev l : ¬ genericFailure ev → clean l → clean (ev :: l).
Proof. intros. by constructor. Qed.

Lemma not_generic_None v k key : ¬ genericFailure (mkEvent v k key None).
Proof. by intros (e & He & _). Qed.

Lemma not_generic_notFound v k key key' :
  ¬ genericFailure (mkEvent v k key (Some (notFound key'))).
Proof. by intros (e & [= <-] & He). Qed.

Ltac solve_clean :=
  repeat first
    [ assumption
    | apply clean_cons; [first [apply not_generic_None | apply not_generic_notFound]|] ].

Section SurfacesCalls.
Context `{Resource T}.

Lemma surfaces_k8sGet key : surfaces (k8sGet (T := T) key) notGenericResult.
Proof.
  intros c Hc. rewrite k8sGet_eq.
  destruct (scheduled 0 (schedule c)); [done|].
  destruct (lookupObj _ _); cbn [fst snd logged calls]; intros _; solve_clean.
Qed.

Lemma surfaces_k8sList ns : surfaces (k8sList (T := T) ns) notGenericResult.
Proof.
  intros c Hc. rewrite k8sList_eq.
  destruct (scheduled 0 (schedule c)); [done|].
  cbn [fst snd logged calls]; intros _; solve_clean.
Qed.

Lemma surfaces_k8sCreate (o : T) : surfaces (k8sCreate o) notGenericError.
Proof.
  intros c Hc. rewrite k8sCreate_eq.
  destruct (scheduled 0 (schedule c)); [done|].
  destruct (lookupObj _ _); [done|].
  cbn [fst snd logged calls]; intros _; solve_clean.
Qed.

Lemma surfaces_k8sUpdate (o : T) : surfaces (k8sUpdate o) notGenericError.
Proof.
  intros c Hc. rewrite k8sUpdate_eq.
  destruct (scheduled 0 (schedule c)); [done|].
  destruct (lookupObj _ _); cbn [fst snd logged calls]; intros _; solve_clean.
Qed.

Lemma surfaces_k8sDelete (o : T) : surfaces (k8sDelete o) notGenericError.
Proof.
  intros c Hc. rewrite k8sDelete_eq.
  destruct (scheduled 0 (schedule c)); [done|].
  destruct (lookupObj _ _); cbn [fst snd logged calls]; intros _; solve_clean.
Qed.
End SurfacesCalls.

Lemma surfaces_k8sStatusUpdate e :
  surfaces (k8sStatusUpdate e) (λ r, notGenericError r.1).
Proof.
  intros c Hc. rewrite k8sStatusUpdate_eq.
  destruct (scheduled 0 (schedule c)); [done|].
  destruct (lookupObj _ _); cbn [fst snd logged calls]; intros _; solve_clean.
Qed.

Lemma surfaces_updateStatusConditionOfEnvironment message e conditionType status reason :
  surfaces (updateStatusConditionOfEnvironment message e conditionType status reason)
    (λ r, notGenericError r.1).
Proof.
  intros c Hc. rewrite updateStatusConditionOfEnvironment_eq. cbv zeta.
  destruct (insertOrUpdateConditionsInSlice _ _).1; [|done].
  by apply surfaces_k8sStatusUpdate.
Qed.

Lemma surfaces_updateConditionErrorAsResolved message e conditionType status reason :
  surfaces (updateConditionErrorAsResolved message e conditionType status reason)
    (λ r, r.1 = None).
Proof.
  intros c Hc. rewrite updateConditionErrorAsResolved_eq.
  destruct (needsResolve _ _); [|done]. cbv zeta. cbn [fst snd].
  intros Hok. apply surfaces_k8sStatusUpdate; [done|].
  by destruct (k8sStatusUpdate _ c) as [[[err|] e'] c'].
Qed.

Lemma surfaces_getDTBoundByDTC dtc :
  surfaces (getDTBoundByDTC dtc) (λ r, notGenericError r.2).
Proof.
  unfold getDTBoundByDTC.
  apply (surfaces_bind _ _ notGenericResult); [apply surfaces_k8sList| |].
  - by intros [err|l] c.
  - intros [err|l] _; apply surfaces_ret.
Qed.

Ltac surfaces_finish :=
  apply (surfaces_bind _ _ (λ r, r.1 = None));
  [ apply surfaces_updateConditionErrorAsResolved
  | intros [[?|] ?] ? Hok; [by cbn in Hok|done]
  | intros [[?|] ?] ?; apply surfaces_ret ].

(** After a raise, both arms return an error. *)
Ltac raise_fails :=
  apply surfaces_never; intros c; rewrite bind_eq;
  destruct (updateStatusConditionOfEnvironment _ _ _ _ _ c) as [[[?|] ?] ?]; by cbn.

Lemma surfaces_fromCredentials env claimName details :
  surfaces (generateDesiredResource_fromCredentials env claimName details) generated_ok.
Proof.
  unfold generateDesiredResource_fromCredentials. cbv zeta.
  apply (surfaces_bind _ _ notGenericResult); [apply surfaces_k8sGet| |].
  - intros [err|secret] c Hok; [|done]. cbn.
    destruct (IsNotFound err) eqn:Hnf; [done|]. exfalso. revert Hok.
    rewrite bind_eq.
    destruct (updateStatusConditionOfEnvironment _ _ _ _ _ c) as [[[?|] ?] ?]; by cbn.
  - intros [err|secret] Hr.
    + cbn in Hr. rewrite Hr. apply surfaces_never. intros c. rewrite bind_eq.
      destruct (updateStatusConditionOfEnvironment _ _ _ _ _ c) as [[[?|] ?] c1];
        cbn [fst snd]; [by cbn|].
      rewrite bind_eq. destruct (k8sDelete _ c1) as [[derr|] c2]; cbn [fst snd];
        [destruct (IsNotFound derr)|]; by cbn.
    + case_decide; [|surfaces_finish].
      apply (surfaces_bind _ _ notGenericResult); [apply surfaces_k8sGet| |].
      * intros [gerr|managed] c Hok; [|done]. cbn.
        destruct (IsNotFound gerr); [done|]. by cbn in Hok.
      * intros [gerr|managed] Hg.
        -- cbn in Hg. rewrite Hg. cbn [negb].
           apply (surfaces_bind _ _ notGenericError); [apply surfaces_k8sCreate| |].
           ++ intros [cerr|] c Hok; [by cbn in Hok|done].
           ++ intros [cerr|] Hc; [by apply surfaces_never|surfaces_finish].
        -- case_decide; [|surfaces_finish].
           apply (surfaces_bind _ _ notGenericError); [apply surfaces_k8sUpdate| |].
           ++ intros [uerr|] c Hok; [by cbn in Hok|done].
           ++ intros [uerr|] Hc; [by apply surfaces_never|surfaces_finish].
Qed.

Lemma surfaces_generateDesiredResource env :
  surfaces (generateDesiredResource env) generated_ok.
Proof.
  unfold generateDesiredResource. cbv zeta.
  case_decide.
  2:{ destruct (UnstableConfigurationFields (envSpec env));
        [apply surfaces_fromCredentials|apply surfaces_ret]. }
  apply (surfaces_bind _ _ notGenericResult); [apply surfaces_k8sGet| |].
  - intros [err|dtc] c Hok; [|done]. cbn.
    destruct (IsNotFound err) eqn:Hnf; [done|]. exfalso. revert Hok.
    rewrite bind_eq.
    destruct (updateStatusConditionOfEnvironment _ _ _ _ _ c) as [[[?|] ?] ?]; by cbn.
  - intros [err|dtc] Hr.
    + cbn in Hr. rewrite Hr.
      apply (surfaces_bind _ _ (λ r, notGenericError r.1));
        [apply surfaces_updateStatusConditionOfEnvironment| |].
      * intros [[uerr|] ?] c Hok; [by cbn in Hok|done].
      * intros [[uerr|] ?] Hu; apply surfaces_ret.
    + apply (surfaces_bind _ _ (λ r, r.1 = None));
        [apply surfaces_updateConditionErrorAsResolved| |].
      * intros [[rerr|] ?] c Hok; [by cbn in Hok|done].
      * intros [[rerr|] e1] Hres; [apply surfaces_ret|].
        case_decide; [apply surfaces_ret|].
        apply (surfaces_bind _ _ (λ r, notGenericError r.2));
          [apply surfaces_getDTBoundByDTC| |].
        -- intros [dt [err|]] c Hok; [|done]. cbn.
           destruct (IsNotFound err) eqn:Hnf; [done|]. exfalso. revert Hok.
           rewrite bind_eq.
           destruct (updateStatusConditionOfEnvironment _ _ _ _ _ c) as [[[?|] ?] ?];
             by cbn.
        -- intros [dt [err|]] Hd.
           ++ cbn in Hd. rewrite Hd.
              apply (surfaces_bind _ _ (λ r, notGenericError r.1));
                [apply surfaces_updateStatusConditionOfEnvironment| |].
              ** intros [[uerr|] ?] c Hok; [by cbn in Hok|done].
              ** intros [[uerr|] ?] Hu; apply surfaces_ret.
           ++ destruct dt as [dt|].
              ** apply (surfaces_bind _ _ (λ r, r.1 = None));
                   [apply surfaces_updateConditionErrorAsResolved| |].
                 --- intros [[rerr|] ?] c Hok; [by cbn in Hok|done].
                 --- intros [[rerr|] e2] Hres2;
                       [apply surfaces_ret|apply surfaces_fromCredentials].
              ** apply (surfaces_bind _ _ (λ r, notGenericError r.1));
                   [apply surfaces_updateStatusConditionOfEnvironment| |].
                 --- intros [[uerr|] ?] c Hok; [by cbn in Hok|done].
                 --- intros [[uerr|] ?] Hu; apply surfaces_ret.
Qed.

Lemma surfaces_isRequestNamespaceBeingDeleted ns :
  surfaces (isRequestNamespaceBeingDeleted ns) (λ r, r.2 = None).
Proof.
  unfold isRequestNamespaceBeingDeleted.
  apply (surfaces_bind _ _ notGenericResult); [apply surfaces_k8sGet| |].
  - by intros [err|namespace] c.
  - intros [err|namespace] _; [apply surfaces_ret|]. case_decide; apply surfaces_ret.
Qed.

(** Whatever the fault schedule: a reconciliation that returns no error has
    added no generic failure to a clean log. *)
Lemma surfaces_Reconcile req : surfaces (Reconcile req) (λ r, r.2 = None).
Proof.
  unfold Reconcile. cbv zeta.
  apply (surfaces_bind _ _ (λ r, r.2 = None));
    [apply surfaces_isRequestNamespaceBeingDeleted| |].
  - intros [deleting [err|]] c Hok; [|done]. cbn in Hok.
    by rewrite decide_True in Hok by (by right).
  - intros [deleting err] Hns. cbn in Hns. subst err.
    case_decide; [apply surfaces_ret|].
    apply (surfaces_bind _ _ notGenericResult); [apply surfaces_k8sGet| |].
    + intros [err|environment] c Hok; [|done]. cbn.
      destruct (IsNotFound err); [done|]. by cbn in Hok.
    + intros [err|environment] Hr.
      * cbn in Hr. rewrite Hr. cbn [negb].
        apply (surfaces_bind _ _ notGenericResult); [apply surfaces_k8sGet| |].
        -- intros [gerr|managedEnv] c Hok; [|done]. cbn.
           destruct (IsNotFound gerr); [done|]. by cbn in Hok.
        -- intros [gerr|managedEnv] Hg.
           ++ cbn in Hg. rewrite Hg. apply surfaces_ret.
           ++ apply (surfaces_bind _ _ notGenericError); [apply surfaces_k8sDelete| |].
              ** intros [derr|] c Hok; [|done]. cbn.
                 destruct (IsNotFound derr); [done|]. by cbn in Hok.
              ** intros [derr|] Hd; [|apply surfaces_ret].
                 cbn in Hd. rewrite Hd. apply surfaces_ret.
      * case_decide.
        -- apply (surfaces_bind _ _ (λ r, notGenericError r.1));
             [apply surfaces_updateStatusConditionOfEnvironment| |].
           ++ intros [[uerr|] ?] c Hok; [by cbn in Hok|done].
           ++ intros [[uerr|] ?] Hu; apply surfaces_ret.
        -- apply (surfaces_bind _ _ generated_ok);
             [apply surfaces_generateDesiredResource| |].
           ++ intros [[desired semantic] [gerr|]] c Hok; [by cbn in Hok|done].
           ++ intros [[desired semantic] gerr] Hgen.
              unfold generated_ok in Hgen. cbn in Hgen. subst gerr.
              destruct semantic; [apply surfaces_ret|].
              destruct desired as [desired|].
              ** apply (surfaces_bind _ _ notGenericResult); [apply surfaces_k8sGet| |].
                 --- intros [gerr|current] c Hok; [|done]. cbn.
                     destruct (IsNotFound gerr); [done|]. by cbn in Hok.
                 --- intros [gerr|current] Hg.
                     +++ cbn in Hg. rewrite Hg.
                         apply (surfaces_bind _ _ notGenericError);
                           [apply surfaces_k8sCreate| |].
                         *** intros [cerr|] c Hok; [by cbn in Hok|done].
                         *** intros [cerr|] Hc; apply surfaces_ret.
                     +++ apply (surfaces_bind _ _ (λ r, r.1 = None));
                           [apply surfaces_updateConditionErrorAsResolved| |].
                         *** intros [[rerr|] ?] c Hok; [by cbn in Hok|done].
                         *** intros [[rerr|] e2] Hres; [apply surfaces_ret|].
                             case_decide; [apply surfaces_ret|].
                             apply (surfaces_bind _ _ notGenericError);
                               [apply surfaces_k8sUpdate| |].
                             ---- intros [uerr|] c Hok; [by cbn in Hok|done].
                             ---- intros [uerr|] Hu; apply surfaces_ret.
              ** apply (surfaces_bind _ _ (λ r, r.1 = None));
                   [apply surfaces_updateConditionErrorAsResolved| |].
                 --- intros [[rerr|] ?] c Hok; [by cbn in Hok|done].
                 --- intros [[rerr|] e2] Hres; apply surfaces_ret.
Qed.

(** *** Stopping at the first failure *)

Lemma genericFailure_dec ev : genericFailure ev ∨ ¬ genericFailure ev.
Proof.
  unfold genericFailure. destruct (evErr ev) as [e|]; [|right; by intros (? & ? & ?)].
  destruct (IsNotFound e) eqn:He; [right|left; by exists e].
  intros (e' & [= <-] & He'). congruence.
Qed.

Lemma failedLast_here ev l : genericFailure ev → clean l → failedLast (ev :: l).
Proof. intros Hev Hl. exists [], ev, l. split; [done|]. split; [done|]. by split; [|left]. Qed.

Lemma silent_ret {A} (a : A) : silent (ret a).
Proof. by intros c. Qed.

Lemma failsLast_silent {A} (m : M A) : silent m → failsLast m.
Proof. intros Hm c Hc Hdirty. rewrite Hm in Hdirty. by destruct Hdirty. Qed.

Lemma failsLast_ret {A} (a : A) : failsLast (ret a).
Proof. apply failsLast_silent, silent_ret. Qed.

Lemma failsLast_oneCall {A} v k key (m : M A) : oneCall v k key m → failsLast m.
Proof.
  intros Hm c Hc Hdirty. destruct (Hm c) as [outcome Hcalls].
  rewrite Hcalls in Hdirty |- *.
  destruct (genericFailure_dec (mkEvent v k key outcome)) as [Hev|Hev].
  - by apply failedLast_here.
  - destruct Hdirty. by apply clean_cons.
Qed.

Lemma failsLast_atMostStatus {A} (m : M A) : atMostStatus m → failsLast m.
Proof.
  intros Hm c Hc Hdirty. destruct (Hm c) as [Hcalls|(key & outcome & Hcalls)];
    rewrite Hcalls in Hdirty |- *; [by destruct Hdirty|].
  destruct (genericFailure_dec (mkEvent VStatusUpdate KEnvironment key outcome))
    as [Hev|Hev].
  - by apply failedLast_here.
  - destruct Hdirty. by apply clean_cons.
Qed.

(** A continuation that issues no call adds nothing to what came before. *)
Lemma failsLast_bind_silent {A B} (m : M A) (k : A → M B) :
  failsLast m → (∀ a, silent (k a)) → failsLast (bind m k).
Proof.
  intros Hm Hk c Hc. rewrite bind_eq, Hk. by apply Hm.
Qed.

(** After a result that is [okm], the log is clean and the continuation goes
    on; after any other result the continuation issues no call. *)
Lemma failsLast_bind {A B} (m : M A) (k : A → M B) (okm : A → Prop) :
  surfaces m okm → failsLast m →
  (∀ a, (okm a ∧ failsLast (k a)) ∨ silent (k a)) →
  failsLast (bind m k).
Proof.
  intros Hs Hm Hk c Hc. rewrite bind_eq.
  destruct (Hk (m c).1) as [[Hok Hka]|Hsilent].
  - apply Hka. by apply Hs.
  - rewrite Hsilent. by apply Hm.
Qed.

(** The same at a call of [raiseSite]: after a result that is not [okm], the
    continuation may write the status, once. *)
Lemma failsLast_bind_raise {A B} v kind key (m : M A) (k : A → M B) (okm : A → Prop) :
  surfaces m okm → oneCall v kind key m →
  (∀ outcome, raiseSite (mkEvent v kind key outcome)) →
  (∀ a, (okm a ∧ failsLast (k a)) ∨ atMostStatus (k a)) →
  failsLast (bind m k).
Proof.
  intros Hs Hm Hsite Hk c Hc. rewrite bind_eq.
  destruct (Hk (m c).1) as [[Hok Hka]|Hstatus].
  - apply Hka. by apply Hs.
  - destruct (Hm c) as [outcome Hcalls]. intros Hdirty.
    destruct (genericFailure_dec (mkEvent v kind key outcome)) as [Hev|Hev].
    + destruct (Hstatus (m c).2) as [Hk1|(skey & soutcome & Hk1)];
        rewrite Hk1, Hcalls; [by apply failedLast_here|].
      exists [ mkEvent VStatusUpdate KEnvironment skey soutcome ],
        (mkEvent v kind key outcome), (calls c).
      split; [done|]. split; [done|]. split; [done|]. right. split; [done|]. by eauto.
    + assert (Hc1 : clean (calls (m c).2)) by (rewrite Hcalls; by apply clean_cons).
      by apply (failsLast_atMostStatus (k (m c).1) Hstatus).
Qed.

Section CallsOnce.
Context `{Resource T}.

Lemma oneCall_k8sGet key : oneCall VGet kindOf key (k8sGet (T := T) key).
Proof.
  intros c. rewrite k8sGet_eq. destruct (scheduled 0 (schedule c)); [by eexists|].
  destruct (lookupObj _ _); by eexists.
Qed.

Lemma oneCall_k8sList ns :
  oneCall VList kindOf (mkNamespacedName ns "") (k8sList (T := T) ns).
Proof.
  intros c. rewrite k8sList_eq. destruct (scheduled 0 (schedule c)); by eexists.
Qed.

Lemma oneCall_k8sCreate (o : T) : oneCall VCreate kindOf (objectKey o) (k8sCreate o).
Proof.
  intros c. rewrite k8sCreate_eq. destruct (scheduled 0 (schedule c)); [by eexists|].
  destruct (lookupObj _ _); by eexists.
Qed.

Lemma oneCall_k8sUpdate (o : T) : oneCall VUpdate kindOf (objectKey o) (k8sUpdate o).
Proof.
  intros c. rewrite k8sUpdate_eq. destruct (scheduled 0 (schedule c)); [by eexists|].
  destruct (lookupObj _ _); by eexists.
Qed.

Lemma oneCall_k8sDelete (o : T) : oneCall VDelete kindOf (objectKey o) (k8sDelete o).
Proof.
  intros c. rewrite k8sDelete_eq. destruct (scheduled 0 (schedule c)); [by eexists|].
  destruct (lookupObj _ _); by eexists.
Qed.
End CallsOnce.

Lemma oneCall_k8sStatusUpdate e :
  oneCall VStatusUpdate KEnvironment (objectKey e) (k8sStatusUpdate e).
Proof.
  intros c. rewrite k8sStatusUpdate_eq. destruct (scheduled 0 (schedule c)); [by eexists|].
  destruct (lookupObj _ _); by eexists.
Qed.

Lemma oneCall_getDTBoundByDTC dtc :
  oneCall VList KDeploymentTarget (mkNamespacedName (Namespace (dtcMeta dtc)) "")
    (getDTBoundByDTC dtc).
Proof.
  intros c. unfold getDTBoundByDTC. rewrite bind_eq.
  destruct (oneCall_k8sList (T := DeploymentTarget) (Namespace (dtcMeta dtc)) c)
    as [outcome Hcalls].
  exists outcome. by destruct (k8sList _ c).1.
Qed.

Lemma atMostStatus_updateStatusConditionOfEnvironment message e conditionType status
    reason :
  atMostStatus (updateStatusConditionOfEnvironment message e conditionType status reason).
Proof.
  intros c. rewrite updateStatusConditionOfEnvironment_eq. cbv zeta.
  destruct (insertOrUpdateConditionsInSlice _ _).1; [|by left].
  right. exists (objectKey e). exact (oneCall_k8sStatusUpdate (withConditions e _) c).
Qed.

Lemma atMostStatus_updateConditionErrorAsResolved message e conditionType status reason :
  atMostStatus (updateConditionErrorAsResolved message e conditionType status reason).
Proof.
  intros c. rewrite updateConditionErrorAsResolved_eq.
  destruct (needsResolve _ _); [|by left]. cbv zeta. cbn [snd].
  right. exists (objectKey e). exact (oneCall_k8sStatusUpdate (withConditions e _) c).
Qed.

Lemma atMostStatus_bind_silent {A B} (m : M A) (k : A → M B) :
  atMostStatus m → (∀ a, silent (k a)) → atMostStatus (bind m k).
Proof.
  intros Hm Hk c. rewrite bind_eq.
  destruct (Hm c) as [Hcalls|(key & outcome & Hcalls)];
    [left|right; exists key, outcome]; by rewrite Hk.
Qed.

Ltac solve_silent :=
  intros; unfold silent; intros;
  repeat match goal with H : IsNotFound _ = _ |- _ => rewrite H; clear H end;
  cbn [negb];
  repeat match goal with
         | |- context [match ?x with _ => _ end] => destruct x
         end;
  reflexivity.

(** A raise, a resolve or a write whose outcome only selects what is returned. *)
Ltac last_call :=
  apply failsLast_bind_silent;
  [ first [ apply failsLast_atMostStatus;
            first [ apply atMostStatus_updateStatusConditionOfEnvironment
                  | apply atMostStatus_updateConditionErrorAsResolved ]
          | eapply failsLast_oneCall;
            first [ apply oneCall_k8sCreate | apply oneCall_k8sUpdate
                  | apply oneCall_k8sDelete | apply oneCall_k8sGet ] ]
  | solve_silent ].

Ltac raise_then_return :=
  apply atMostStatus_bind_silent;
  [ apply atMostStatus_updateStatusConditionOfEnvironment | solve_silent ].

Lemma failsLast_fromCredentials env claimName details :
  failsLast (generateDesiredResource_fromCredentials env claimName details).
Proof.
  unfold generateDesiredResource_fromCredentials. cbv zeta.
  eapply (failsLast_bind_raise _ _ _ _ _ notGenericResult);
    [apply surfaces_k8sGet|apply oneCall_k8sGet| |].
  { intros outcome. right. right. done. }
  intros [err|secret].
  - destruct (IsNotFound err) eqn:Hnf; [left; split; [done|]|right; raise_then_return].
    apply (failsLast_bind _ _ (λ r, r.1 = None));
      [ |apply failsLast_atMostStatus,
           atMostStatus_updateStatusConditionOfEnvironment|].
    + intros c Hc Hok. apply surfaces_updateStatusConditionOfEnvironment; [done|].
      by rewrite Hok.
    + intros [[uerr|] e1]; [right; solve_silent|left; split; [done|]]. last_call.
  - left. split; [done|].
    case_decide; [|last_call].
    apply (failsLast_bind _ _ notGenericResult);
      [apply surfaces_k8sGet|eapply failsLast_oneCall, oneCall_k8sGet|].
    intros [gerr|managed].
    + destruct (IsNotFound gerr) eqn:Hnf; [left; split; [done|]|right; solve_silent].
      cbn [negb].
      apply (failsLast_bind _ _ (λ r, r = None));
        [ |eapply failsLast_oneCall, oneCall_k8sCreate|].
      * intros c Hc Hok. apply surfaces_k8sCreate; [done|]. by rewrite Hok.
      * intros [cerr|]; [right; solve_silent|left; split; [done|]]. last_call.
    + left. split; [done|]. case_decide; [|last_call].
      apply (failsLast_bind _ _ (λ r, r = None));
        [ |eapply failsLast_oneCall, oneCall_k8sUpdate|].
      * intros c Hc Hok. apply surfaces_k8sUpdate; [done|]. by rewrite Hok.
      * intros [uerr|]; [right; solve_silent|left; split; [done|]]. last_call.
Qed.

Lemma failsLast_generateDesiredResource env : failsLast (generateDesiredResource env).
Proof.
  unfold generateDesiredResource. cbv zeta.
  case_decide.
  2:{ destruct (UnstableConfigurationFields (envSpec env));
        [apply failsLast_fromCredentials|apply failsLast_ret]. }
  eapply (failsLast_bind_raise _ _ _ _ _ notGenericResult);
    [apply surfaces_k8sGet|apply oneCall_k8sGet| |].
  { intros outcome. left. done. }
  intros [err|dtc].
  - destruct (IsNotFound err) eqn:Hnf; [left; split; [done|]; last_call|].
    right. raise_then_return.
  - left. split; [done|].
    apply (failsLast_bind _ _ (λ r, r.1 = None));
      [apply surfaces_updateConditionErrorAsResolved
      |apply failsLast_atMostStatus, atMostStatus_updateConditionErrorAsResolved|].
    intros [[rerr|] e1]; [right; solve_silent|left; split; [done|]].
    case_decide; [apply failsLast_ret|].
    eapply (failsLast_bind_raise _ _ _ _ _ (λ r, notGenericError r.2));
      [apply surfaces_getDTBoundByDTC|apply oneCall_getDTBoundByDTC| |].
    { intros outcome. right. left. done. }
    intros [dt [err|]].
    + destruct (IsNotFound err) eqn:Hnf; [left; split; [done|]; last_call|].
      right. raise_then_return.
    + left. split; [done|]. destruct dt as [dt|]; [|last_call].
      apply (failsLast_bind _ _ (λ r, r.1 = None));
        [apply surfaces_updateConditionErrorAsResolved
        |apply failsLast_atMostStatus, atMostStatus_updateConditionErrorAsResolved|].
      intros [[rerr|] e2]; [right; solve_silent|left; split; [done|]].
      apply failsLast_fromCredentials.
Qed.

Lemma failsLast_isRequestNamespaceBeingDeleted ns :
  failsLast (isRequestNamespaceBeingDeleted ns).
Proof.
  unfold isRequestNamespaceBeingDeleted.
  apply failsLast_bind_silent; [eapply failsLast_oneCall, oneCall_k8sGet|solve_silent].
Qed.

(** Whatever the fault schedule, Reconcile stops at the first generic failure. *)
Lemma failsLast_Reconcile req : failsLast (Reconcile req).
Proof.
  unfold Reconcile. cbv zeta.
  apply (failsLast_bind _ _ (λ r, r.2 = None));
    [apply surfaces_isRequestNamespaceBeingDeleted
    |apply failsLast_isRequestNamespaceBeingDeleted|].
  intros [deleting [err|]].
  { right. intros c. by rewrite decide_True by (by right). }
  left. split; [done|].
  case_decide; [apply failsLast_ret|].
  apply (failsLast_bind _ _ notGenericResult);
    [apply surfaces_k8sGet|eapply failsLast_oneCall, oneCall_k8sGet|].
  intros [err|environment].
  - destruct (IsNotFound err) eqn:Hnf; [left; split; [done|]|right; solve_silent].
    cbn [negb].
    apply (failsLast_bind _ _ notGenericResult);
      [apply surfaces_k8sGet|eapply failsLast_oneCall, oneCall_k8sGet|].
    intros [gerr|managedEnv]; [right; solve_silent|left; split; [done|]; last_call].
  - left. split; [done|]. case_decide; [last_call|].
    apply (failsLast_bind _ _ generated_ok);
      [apply surfaces_generateDesiredResource|apply failsLast_generateDesiredResource|].
    intros [[desired semantic] [gerr|]]; [right; solve_silent|left; split; [done|]].
    destruct semantic; [apply failsLast_ret|].
    destruct desired as [desired|]; [|last_call].
    apply (failsLast_bind _ _ notGenericResult);
      [apply surfaces_k8sGet|eapply failsLast_oneCall, oneCall_k8sGet|].
    intros [gerr|current].
    + destruct (IsNotFound gerr) eqn:Hnf; [left; split; [done|]; last_call|].
      right. solve_silent.
    + left. split; [done|].
      apply (failsLast_bind _ _ (λ r, r.1 = None));
        [apply surfaces_updateConditionErrorAsResolved
        |apply failsLast_atMostStatus, atMostStatus_updateConditionErrorAsResolved|].
      intros [[rerr|] e2]; [right; solve_silent|left; split; [done|]].
      case_decide; [apply failsLast_ret|last_call].
Qed.

(** *** The raise sites, one by one *)

(** Raising when the next call is served, for a stored Environment. *)
Lemma raise_served message (e : Environment) c :
  scheduled 0 (schedule c) = None →
  lookupObj (objectKey e) (environments (cluster c)) = Some e →
  let e' := withConditions e (raisedConditions message (envConditions e)) in
  ∃ c',
    updateStatusConditionOfEnvironment message e EnvironmentConditionErrorOccurred
      ConditionTrue EnvironmentReasonErrorOccurred c = ((None, e'), c')
    ∧ cluster c' = withEnvironment e' (cluster c).
Proof.
  intros Hs Hl e'. rewrite updateStatusConditionOfEnvironment_eq. cbv zeta.
  fold (raisedCondition message). subst e'. unfold raisedConditions.
  destruct (insertOrUpdateConditionsInSlice _ _).1 eqn:Hch.
  - rewrite k8sStatusUpdate_eq, Hs. key_simpl. rewrite Hl. by eexists.
  - exists c. rewrite insertOrUpdate_unchanged by done.
    by rewrite withConditions_id, withEnvironment_id.
Qed.

(** Resolving, for an Environment in memory that is the stored one, when the
    status update, if there is one, is served. *)
Lemma resolve_served (e : Environment) c :
  lookupObj (objectKey e) (environments (cluster c)) = Some e →
  (needsResolve EnvironmentReasonErrorOccurred (envConditions e) = true →
   scheduled 0 (schedule c) = None) →
  let b := needsResolve EnvironmentReasonErrorOccurred (envConditions e) in
  let e' := withConditions e (resolvedConditions (envConditions e)) in
  updateConditionErrorAsResolved "" e EnvironmentConditionErrorOccurred ConditionFalse
    EnvironmentReasonErrorOccurred c
  = ((None, e'),
     mkClient (withEnvironment e' (cluster c))
       (if b then tail (schedule c) else schedule c)
       (statusCalls b (objectKey e) ++ calls c)).
Proof.
  intros Hl Hs b e'. subst b e'. rewrite updateConditionErrorAsResolved_eq.
  unfold resolvedConditions.
  destruct (needsResolve _ _) eqn:Hn.
  - cbv zeta. rewrite k8sStatusUpdate_eq, Hs by done. key_simpl. rewrite Hl. done.
  - rewrite withConditions_id, withEnvironment_id by done. by destruct c.
Qed.

Lemma generateDesiredResource_list_fails (env : Environment)
    (dtc : DeploymentTargetClaim) s rest cs m :
  lookupObj (objectKey env) (environments s) = Some env →
  GetDeploymentTargetClaimName env ≠ "" →
  lookupObj (claimKey env) (deploymentTargetClaims s) = Some dtc →
  dtcPhase dtc = DeploymentTargetClaimPhase_Bound →
  scheduled 0 rest = None →
  let b := needsResolve EnvironmentReasonErrorOccurred (envConditions env) in
  ∃ c',
    generateDesiredResource env
      (mkClient s (None :: (if b then [None] else []) ++ Some m :: rest) cs)
    = ((None, true, Some (plainError m)), c')
    ∧ cluster c'
      = withEnvironment
          (withConditions env
             (raisedConditions
                "Unable to find the DeploymentTarget for DeploymentTargetClaim"
                (envConditions env))) s.
Proof.
  intros Hsync Hclaim Hdtc Hphase Hrest b.
  unfold claimKey in *.
  unfold generateDesiredResource.
  rewrite decide_True by done. rewrite bind_eq, k8sGet_eq.
  cbn [schedule scheduled lookup list_lookup]. cluster_simpl. key_simpl.
  rewrite Hdtc. cbn [fst snd].
  rewrite bind_eq, resolve_served; cycle 1.
  { done. }
  { intros Hb. cbn [schedule logged tail]. fold b in Hb. by rewrite Hb. }
  cbn [fst snd]. rewrite decide_False by (intros Hn; by apply Hn).
  rewrite bind_eq. unfold getDTBoundByDTC. rewrite bind_eq, k8sList_eq.
  cbn [schedule logged tail]. fold b.
  assert (Hsched : scheduled 0 (if b then tail ((if b then [None] else []) ++ Some m :: rest)
                                else (if b then [None] else []) ++ Some m :: rest)
                   = Some m) by (by destruct b).
  rewrite Hsched. cbn [fst snd]. rewrite ret_eq. cbn [fst snd IsNotFound].
  rewrite bind_eq.
  match goal with
  | |- context [updateStatusConditionOfEnvironment ?msg ?e _ _ _ ?c1] =>
      destruct (raise_served msg e c1) as (c' & Hrun & Hcluster)
  end.
  { cbn [schedule logged]. destruct b; exact Hrest. }
  { cbn [cluster logged].
    by apply (lookupObj_withEnvironment_eq (withConditions env _) s env). }
  cbv zeta in Hrun. rewrite Hrun. cbn [fst snd]. rewrite ret_eq.
  exists c'. split; [done|]. rewrite Hcluster. cbn [cluster logged envConditions withConditions].
  change (mkEnvironment (envAPIVersion env) (envKind env) (envMeta env) (envSpec env) ?l)
    with (withConditions env l).
  rewrite raisedConditions_resolvedConditions.
  by rewrite withEnvironment_twice.
Qed.

Lemma fromCredentials_fetch_fails env claimName details c m :
  scheduled 0 (schedule c) = Some m → scheduled 1 (schedule c) = None →
  lookupObj (objectKey env) (environments (cluster c)) = Some env →
  ∃ c',
    generateDesiredResource_fromCredentials env claimName details c
    = ((None, true, Some (plainError m)), c')
    ∧ cluster c'
      = withEnvironment
          (withConditions env
             (raisedConditions "Secret referenced by the Environment resource was not found"
                (envConditions env))) (cluster c).
Proof.
  intros Hs0 Hs1 Hsync.
  unfold generateDesiredResource_fromCredentials. cbv zeta.
  rewrite bind_eq, k8sGet_eq, Hs0. cbn [fst snd IsNotFound]. rewrite bind_eq.
  match goal with
  | |- context [updateStatusConditionOfEnvironment ?msg ?e _ _ _ ?c1] =>
      destruct (raise_served msg e c1) as (c' & Hrun & Hcluster)
  end.
  { by rewrite schedule_logged, scheduled_tail. }
  { done. }
  cbv zeta in Hrun. rewrite Hrun. cbn [fst snd]. rewrite ret_eq.
  exists c'. split; [done|]. by rewrite Hcluster.
Qed.

Lemma generateDesiredResource_secret_fails (env : Environment)
    (dtc : DeploymentTargetClaim) (dt : DeploymentTarget) s rest cs m :
  lookupObj (objectKey env) (environments s) = Some env →
  GetDeploymentTargetClaimName env ≠ "" →
  lookupObj (claimKey env) (deploymentTargetClaims s) = Some dtc →
  dtcPhase dtc = DeploymentTargetClaimPhase_Bound →
  resolveTarget dtc (inNamespace (Namespace (envMeta env)) (deploymentTargets s))
  = Some dt →
  scheduled 0 rest = None →
  let b := needsResolve EnvironmentReasonErrorOccurred (envConditions env) in
  ∃ c',
    generateDesiredResource env
      (mkClient s (None :: (if b then [None] else []) ++ None :: Some m :: rest) cs)
    = ((None, true, Some (plainError m)), c')
    ∧ cluster c'
      = withEnvironment
          (withConditions env
             (raisedConditions
                "Secret referenced by the Environment resource was not found"
                (envConditions env))) s.
Proof.
  intros Hsync Hclaim Hdtc Hphase Hdt Hrest b.
  pose proof (lookupObj_key _ _ _ Hdtc) as Hdkey.
  unfold claimKey in *. key_simpl. injection Hdkey as Hdns Hdname.
  unfold generateDesiredResource.
  rewrite decide_True by done. rewrite bind_eq, k8sGet_eq.
  cbn [schedule scheduled lookup list_lookup]. cluster_simpl. key_simpl.
  rewrite Hdtc. cbn [fst snd].
  rewrite bind_eq, resolve_served; cycle 1.
  { done. }
  { intros Hb. cbn [schedule logged tail]. fold b in Hb. by rewrite Hb. }
  cbn [fst snd]. rewrite decide_False by (intros Hn; by apply Hn).
  rewrite bind_eq. unfold getDTBoundByDTC. rewrite bind_eq, k8sList_eq.
  cbn [schedule logged tail]. fold b.
  assert (Hsched :
    (if b then tail ((if b then [None] else []) ++ None :: Some m :: rest)
     else (if b then [None] else []) ++ None :: Some m :: rest)
    = None :: Some m :: rest) by (by destruct b).
  rewrite Hsched. cbn [scheduled lookup list_lookup fst snd]. rewrite ret_eq.
  cluster_simpl. frame_simpl. rewrite Hdns, Hdt. cbn [fst snd].
  rewrite bind_eq, resolve_served; cycle 1.
  { cbn [cluster]. by apply (lookupObj_withEnvironment_eq (withConditions env _) s env). }
  { cbn [envConditions withConditions]. by rewrite needsResolve_resolvedConditions. }
  cbn [fst snd envConditions withConditions].
  rewrite needsResolve_resolvedConditions, resolvedConditions_idem.
  cbn [statusCalls app cluster].
  change (mkEnvironment (envAPIVersion env) (envKind env) (envMeta env) (envSpec env)
            (resolvedConditions (envConditions env)))
    with (withConditions env (resolvedConditions (envConditions env))).
  cluster_simpl. rewrite withConditions_twice, withEnvironment_twice by done.
  match goal with
  | |- context [generateDesiredResource_fromCredentials ?e ?n ?d ?c1] =>
      destruct (fromCredentials_fetch_fails e n d c1 m) as (c' & Hrun & Hcluster)
  end.
  { done. }
  { exact Hrest. }
  { cbn [cluster]. by apply (lookupObj_withEnvironment_eq (withConditions env _) s env). }
  exists c'. split; [done|]. rewrite Hcluster. cbn [cluster envConditions withConditions].
  change (mkEnvironment (envAPIVersion env) (envKind env) (envMeta env) (envSpec env) ?l)
    with (withConditions env l).
  rewrite raisedConditions_resolvedConditions.
  by rewrite withEnvironment_twice.
Qed.

Lemma generateDesiredResource_claim_fetch_fails (env : Environment) s rest cs m :
  lookupObj (objectKey env) (environments s) = Some env →
  GetDeploymentTargetClaimName env ≠ "" →
  scheduled 0 rest = None →
  ∃ c',
    generateDesiredResource env (mkClient s (Some m :: rest) cs)
    = ((None, true, Some (plainError m)), c')
    ∧ cluster c'
      = withEnvironment
          (withConditions env
             (raisedConditions "Unable to find DeploymentTarget for DeploymentTargetClaim"
                (envConditions env))) s.
Proof.
  intros Hsync Hclaim Hrest.
  unfold generateDesiredResource.
  rewrite decide_True by done. rewrite bind_eq, k8sGet_eq.
  cbn [schedule scheduled lookup list_lookup fst snd IsNotFound]. rewrite bind_eq.
  match goal with
  | |- context [updateStatusConditionOfEnvironment ?msg ?e _ _ _ ?c1] =>
      destruct (raise_served msg e c1) as (c' & Hrun & Hcluster)
  end.
  { exact Hrest. }
  { done. }
  cbv zeta in Hrun. rewrite Hrun. cbn [fst snd]. rewrite ret_eq.
  exists c'. split; [done|]. by rewrite Hcluster.
Qed.

Lemma generateDesiredResource_inline_fetch_fails (env : Environment) ucf s rest cs m :
  lookupObj (objectKey env) (environments s) = Some env →
  GetDeploymentTargetClaimName env = "" →
  UnstableConfigurationFields (envSpec env) = Some ucf →
  scheduled 0 rest = None →
  ∃ c',
    generateDesiredResource env (mkClient s (Some m :: rest) cs)
    = ((None, true, Some (plainError m)), c')
    ∧ cluster c'
      = withEnvironment
          (withConditions env
             (raisedConditions "Secret referenced by the Environment resource was not found"
                (envConditions env))) s.
Proof.
  intros Hsync Hclaim Hucf Hrest.
  unfold generateDesiredResource.
  rewrite Hclaim, decide_False by (intros Hn; by apply Hn). rewrite Hucf.
  by apply fromCredentials_fetch_fails.
Qed.

(** What Reconcile makes of a failure of the generator that follows a raise. *)
Lemma Reconcile_generator_fails (req : Request) (environment : Environment) c err c'
    message :
  namespaceActive (nnNamespace req) (cluster c) →
  scheduled 0 (schedule c) = None → scheduled 1 (schedule c) = None →
  lookupObj req (environments (cluster c)) = Some environment →
  ¬ (GetDeploymentTargetClaimName environment ≠ ""
     ∧ UnstableConfigurationFields (envSpec environment) ≠ None) →
  generateDesiredResource environment
    (mkClient (cluster c) (tail (tail (schedule c))) (readEvents req ++ calls c))
  = ((None, true, Some err), c') →
  cluster c'
  = withEnvironment
      (withConditions environment (raisedConditions message (envConditions environment)))
      (cluster c) →
  is_Some (Reconcile req c).1.2
  ∧ lookupObj req (environments (cluster (Reconcile req c).2))
    = Some (mkEnvironment (envAPIVersion environment) (envKind environment)
              (envMeta environment) (envSpec environment)
              (raisedConditions message (envConditions environment))).
Proof.
  intros Hns Hs0 Hs1 Henv Hboth Hgen Hcluster.
  pose proof (lookupObj_key _ _ _ Henv) as Hkey.
  rewrite (Reconcile_generate_served req environment) by done.
  cbv zeta. rewrite Hgen. cbn [fst snd]. split; [by eauto|].
  rewrite Hcluster, lookupObj_withEnvironment, decide_True by done. by rewrite Henv.
Qed.

Lemma needsResolve_eq l :
  needsResolve EnvironmentReasonErrorOccurred l
  = (findCondition l "ErrorOccurred").2
    && bool_decide (condReason (findCondition l "ErrorOccurred").1
                    ≠ "ErrorOccurredResolved").
Proof.
  unfold needsResolve.
  change EnvironmentConditionErrorOccurred with "ErrorOccurred".
  by destruct (findCondition l "ErrorOccurred").
Qed.

Lemma resolvedConditions_settled l :
  (findCondition (resolvedConditions l) "ErrorOccurred").2 = false
  ∨ condReason (findCondition (resolvedConditions l) "ErrorOccurred").1
    = "ErrorOccurredResolved".
Proof.
  pose proof (needsResolve_resolvedConditions l) as Hn. rewrite needsResolve_eq in Hn.
  destruct (findCondition (resolvedConditions l) "ErrorOccurred") as [cond []];
    cbn [fst snd andb] in *; [|by left].
  right. apply bool_decide_eq_false in Hn. by apply dec_stable in Hn.
Qed.

Lemma fromCredentials_managed_fetch_fails env claimName details secret c m :
  scheduled 0 (schedule c) = None → scheduled 1 (schedule c) = Some m →
  UnstableConfigurationFields (envSpec env) = None →
  lookupObj (mkNamespacedName (Namespace (envMeta env)) (meClusterCredentialsSecret details))
    (secrets (cluster c)) = Some secret →
  claimName ≠ "" → secType secret ≠ ManagedEnvironmentSecretType →
  ∃ err,
    generateDesiredResource_fromCredentials env claimName details c
    = ((None, false, Some err),
       mkClient (cluster c) (tail (tail (schedule c)))
         (mkEvent VGet KSecret (managedSecretKey env) (Some (plainError m))
          :: mkEvent VGet KSecret
               (mkNamespacedName (Namespace (envMeta env))
                  (meClusterCredentialsSecret details)) None
          :: calls c)).
Proof.
  intros Hs0 Hs1 Hucf Hsecret Hclaim Htype.
  unfold generateDesiredResource_fromCredentials. cbv zeta. rewrite Hucf.
  rewrite bind_eq, k8sGet_eq, Hs0. cluster_simpl. key_simpl. rewrite Hsecret.
  cbn [fst snd]. rewrite decide_True by done.
  rewrite bind_eq, k8sGet_eq. cbn [schedule logged]. rewrite scheduled_tail, Hs1.
  cbn [fst snd IsNotFound negb]. rewrite ret_eq. by eexists.
Qed.

Lemma generateDesiredResource_managed_fetch_fails (env : Environment)
    (dtc : DeploymentTargetClaim) (dt : DeploymentTarget) (secret : Secret) s rest cs m :
  lookupObj (objectKey env) (environments s) = Some env →
  GetDeploymentTargetClaimName env ≠ "" →
  UnstableConfigurationFields (envSpec env) = None →
  lookupObj (claimKey env) (deploymentTargetClaims s) = Some dtc →
  dtcPhase dtc = DeploymentTargetClaimPhase_Bound →
  resolveTarget dtc (inNamespace (Namespace (envMeta env)) (deploymentTargets s))
  = Some dt →
  lookupObj (credentialSecretKey env (dtCredentials dt)) (secrets s) = Some secret →
  secType secret ≠ ManagedEnvironmentSecretType →
  let b := needsResolve EnvironmentReasonErrorOccurred (envConditions env) in
  ∃ err older,
    generateDesiredResource env
      (mkClient s (None :: (if b then [None] else []) ++ None :: None :: Some m :: rest) cs)
    = ((None, false, Some err),
       mkClient (withEnvironment (withConditions env (resolvedConditions (envConditions env)))
                   s) rest
         (mkEvent VGet KSecret (managedSecretKey env) (Some (plainError m)) :: older)).
Proof.
  intros Hsync Hclaim Hucf Hdtc Hphase Hdt Hsecret Htype b.
  pose proof (lookupObj_key _ _ _ Hdtc) as Hdkey.
  unfold claimKey, credentialSecretKey in *. key_simpl. injection Hdkey as Hdns Hdname.
  unfold generateDesiredResource.
  rewrite decide_True by done. rewrite bind_eq, k8sGet_eq.
  cbn [schedule scheduled lookup list_lookup]. cluster_simpl. key_simpl.
  rewrite Hdtc. cbn [fst snd].
  rewrite bind_eq, resolve_served; cycle 1.
  { done. }
  { intros Hb. cbn [schedule logged tail]. fold b in Hb. by rewrite Hb. }
  cbn [fst snd]. rewrite decide_False by (intros Hn; by apply Hn).
  rewrite bind_eq. unfold getDTBoundByDTC. rewrite bind_eq, k8sList_eq.
  cbn [schedule logged tail]. fold b.
  assert (Hsched :
    (if b then tail ((if b then [None] else []) ++ None :: None :: Some m :: rest)
     else (if b then [None] else []) ++ None :: None :: Some m :: rest)
    = None :: None :: Some m :: rest) by (by destruct b).
  rewrite Hsched. cbn [scheduled lookup list_lookup fst snd]. rewrite ret_eq.
  cluster_simpl. frame_simpl. rewrite Hdns, Hdt. cbn [fst snd].
  rewrite bind_eq, resolve_served; cycle 1.
  { cbn [cluster]. by apply (lookupObj_withEnvironment_eq (withConditions env _) s env). }
  { cbn [envConditions withConditions]. by rewrite needsResolve_resolvedConditions. }
  cbn [fst snd envConditions withConditions].
  rewrite needsResolve_resolvedConditions, resolvedConditions_idem.
  cbn [statusCalls app cluster].
  change (mkEnvironment (envAPIVersion env) (envKind env) (envMeta env) (envSpec env)
            (resolvedConditions (envConditions env)))
    with (withConditions env (resolvedConditions (envConditions env))).
  cluster_simpl. rewrite withConditions_twice, withEnvironment_twice by done.
  match goal with
  | |- context [generateDesiredResource_fromCredentials ?e ?n ?d ?c1] =>
      destruct (fromCredentials_managed_fetch_fails e n d secret c1 m) as (err & Hrun)
  end; try done.
  rewrite Hrun. by eexists _, _.
Qed.

Lemma Reconcile_namespace_fetch_fails (req : Request) s rest cs m :
  Reconcile req (mkClient s (Some m :: rest) cs)
  = ((noRequeue, Some (Errorf "unable to retrieve Namespace: " (plainError m))),
     mkClient s rest
       (mkEvent VGet KNamespace (mkNamespacedName "" (nnNamespace req))
          (Some (plainError m)) :: cs)).
Proof.
  unfold Reconcile, isRequestNamespaceBeingDeleted.
  rewrite !bind_eq, k8sGet_eq. cbn [schedule scheduled lookup list_lookup fst snd].
  rewrite ret_eq. cbn [fst snd]. by rewrite decide_True by (by right).
Qed.

Lemma Reconcile_environment_fetch_fails (req : Request) s rest cs m :
  namespaceActive (nnNamespace req) s →
  Reconcile req (mkClient s (None :: Some m :: rest) cs)
  = ((noRequeue, Some (Errorf "unable to retrieve Environment resource: " (plainError m))),
     mkClient s rest
       (mkEvent VGet KEnvironment req (Some (plainError m))
        :: mkEvent VGet KNamespace (mkNamespacedName "" (nnNamespace req)) None :: cs)).
Proof.
  intros Hns. destruct req as [ns name]. unfold Reconcile. key_simpl. rewrite bind_eq.
  rewrite isRequestNamespaceBeingDeleted_active by done. cbn [fst snd].
  rewrite decide_False by (intros [?|Hn]; [done|by apply Hn]).
  rewrite bind_eq, k8sGet_eq. cbn [schedule logged tail scheduled lookup list_lookup].
  cbn [fst snd IsNotFound negb]. by rewrite ret_eq.
Qed.

(** C5, as amended. A store operation of a reconciliation that fails with an
    error that is not "not found" makes Reconcile return an error, whatever
    the fault schedule, and the call that failed is the last call of the
    reconciliation, so that nothing is written after it, with one exception:
    after a failed fetch of a DeploymentTargetClaim, listing of the
    DeploymentTargets or fetch of a Secret, one status update may follow.
    In detail, for a served status update: a failure of the fetch of the
    Namespace or of the Environment leaves the cluster as it was; a failure of
    the fetch of the claim, of the listing of the targets or of the fetch of
    the credential secret (of an Environment with inline credentials or with a
    claim) makes the generator raise the "ErrorOccurred" condition, with a
    message of its own for each, on the Environment before the error is
    returned; a failure of the fetch of the managed secret raises nothing. *)
Theorem Reconcile_transient_failure (req : Request) :
  (∀ c, clean (calls c) → ¬ clean (calls (Reconcile req c).2) →
        is_Some (Reconcile req c).1.2
        ∧ ∃ after ev older,
            calls (Reconcile req c).2 = after ++ ev :: older
            ∧ genericFailure ev ∧ clean older
            ∧ (after = []
               ∨ (raiseSite ev
                  ∧ ∃ key outcome,
                      after = [ mkEvent VStatusUpdate KEnvironment key outcome ])))
  ∧ (∀ s rest cs m,
       let r := Reconcile req (mkClient s (Some m :: rest) cs) in
       is_Some r.1.2 ∧ cluster r.2 = s
       ∧ calls r.2
         = mkEvent VGet KNamespace (mkNamespacedName "" (nnNamespace req))
             (Some (plainError m)) :: cs)
  ∧ (∀ s rest cs m,
       namespaceActive (nnNamespace req) s →
       let r := Reconcile req (mkClient s (None :: Some m :: rest) cs) in
       is_Some r.1.2 ∧ cluster r.2 = s
       ∧ calls r.2
         = mkEvent VGet KEnvironment req (Some (plainError m))
           :: mkEvent VGet KNamespace (mkNamespacedName "" (nnNamespace req)) None :: cs)
  ∧ (∀ s rest cs environment m,
       namespaceActive (nnNamespace req) s →
       lookupObj req (environments s) = Some environment →
       GetDeploymentTargetClaimName environment ≠ "" →
       UnstableConfigurationFields (envSpec environment) = None →
       scheduled 0 rest = None →
       let raised :=
         {| condType := "ErrorOccurred";
            condMessage := "Unable to find DeploymentTarget for DeploymentTargetClaim";
            condStatus := ConditionTrue; condReason := "ErrorOccurred" |} in
       let conds :=
         (insertOrUpdateConditionsInSlice raised (envConditions environment)).2 in
       let r := Reconcile req (mkClient s (None :: None :: Some m :: rest) cs) in
       is_Some r.1.2
       ∧ lookupObj req (environments (cluster r.2))
         = Some (mkEnvironment (envAPIVersion environment) (envKind environment)
                   (envMeta environment) (envSpec environment) conds)
       ∧ findCondition conds "ErrorOccurred" = (raised, true))
  ∧ (∀ s rest cs environment dtc m,
       namespaceActive (nnNamespace req) s →
       lookupObj req (environments s) = Some environment →
       GetDeploymentTargetClaimName environment ≠ "" →
       UnstableConfigurationFields (envSpec environment) = None →
       lookupObj (mkNamespacedName (Namespace (envMeta environment))
                    (GetDeploymentTargetClaimName environment))
         (deploymentTargetClaims s) = Some dtc →
       dtcPhase dtc = DeploymentTargetClaimPhase_Bound →
       scheduled 0 rest = None →
       let found := findCondition (envConditions environment) "ErrorOccurred" in
       let resolves :=
         found.2 && bool_decide (condReason found.1 ≠ "ErrorOccurredResolved") in
       let raised :=
         {| condType := "ErrorOccurred";
            condMessage := "Unable to find the DeploymentTarget for DeploymentTargetClaim";
            condStatus := ConditionTrue; condReason := "ErrorOccurred" |} in
       let conds :=
         (insertOrUpdateConditionsInSlice raised (envConditions environment)).2 in
       let r := Reconcile req
                  (mkClient s
                     (None :: None :: None :: (if resolves then [None] else [])
                        ++ Some m :: rest) cs) in
       is_Some r.1.2
       ∧ lookupObj req (environments (cluster r.2))
         = Some (mkEnvironment (envAPIVersion environment) (envKind environment)
                   (envMeta environment) (envSpec environment) conds)
       ∧ findCondition conds "ErrorOccurred" = (raised, true))
  ∧ (∀ s rest cs environment ucf m,
       namespaceActive (nnNamespace req) s →
       lookupObj req (environments s) = Some environment →
       GetDeploymentTargetClaimName environment = "" →
       UnstableConfigurationFields (envSpec environment) = Some ucf →
       scheduled 0 rest = None →
       let raised :=
         {| condType := "ErrorOccurred";
            condMessage := "Secret referenced by the Environment resource was not found";
            condStatus := ConditionTrue; condReason := "ErrorOccurred" |} in
       let conds :=
         (insertOrUpdateConditionsInSlice raised (envConditions environment)).2 in
       let r := Reconcile req (mkClient s (None :: None :: Some m :: rest) cs) in
       is_Some r.1.2
       ∧ lookupObj req (environments (cluster r.2))
         = Some (mkEnvironment (envAPIVersion environment) (envKind environment)
                   (envMeta environment) (envSpec environment) conds)
       ∧ findCondition conds "ErrorOccurred" = (raised, true))
  ∧ (∀ s rest cs environment dtc dt m,
       namespaceActive (nnNamespace req) s →
       lookupObj req (environments s) = Some environment →
       GetDeploymentTargetClaimName environment ≠ "" →
       UnstableConfigurationFields (envSpec environment) = None →
       lookupObj (mkNamespacedName (Namespace (envMeta environment))
                    (GetDeploymentTargetClaimName environment))
         (deploymentTargetClaims s) = Some dtc →
       dtcPhase dtc = DeploymentTargetClaimPhase_Bound →
       resolveTarget dtc
         (inNamespace (Namespace (envMeta environment)) (deploymentTargets s))
       = Some dt →
       scheduled 0 rest = None →
       let found := findCondition (envConditions environment) "ErrorOccurred" in
       let resolves :=
         found.2 && bool_decide (condReason found.1 ≠ "ErrorOccurredResolved") in
       let raised :=
         {| condType := "ErrorOccurred";
            condMessage := "Secret referenced by the Environment resource was not found";
            condStatus := ConditionTrue; condReason := "ErrorOccurred" |} in
       let conds :=
         (insertOrUpdateConditionsInSlice raised (envConditions environment)).2 in
       let r := Reconcile req
                  (mkClient s
                     (None :: None :: None :: (if resolves then [None] else [])
                        ++ None :: Some m :: rest) cs) in
       is_Some r.1.2
       ∧ lookupObj req (environments (cluster r.2))
         = Some (mkEnvironment (envAPIVersion environment) (envKind environment)
                   (envMeta environment) (envSpec environment) conds)
       ∧ findCondition conds "ErrorOccurred" = (raised, true))
  ∧ (∀ s rest cs environment dtc dt secret m,
       namespaceActive (nnNamespace req) s →
       lookupObj req (environments s) = Some environment →
       GetDeploymentTargetClaimName environment ≠ "" →
       UnstableConfigurationFields (envSpec environment) = None →
       lookupObj (mkNamespacedName (Namespace (envMeta environment))
                    (GetDeploymentTargetClaimName environment))
         (deploymentTargetClaims s) = Some dtc →
       dtcPhase dtc = DeploymentTargetClaimPhase_Bound →
       resolveTarget dtc
         (inNamespace (Namespace (envMeta environment)) (deploymentTargets s))
       = Some dt →
       lookupObj (mkNamespacedName (Namespace (envMeta environment))
                    (ClusterCredentialsSecret (dtCredentials dt))) (secrets s)
       = Some secret →
       secType secret ≠ ManagedEnvironmentSecretType →
       let found := findCondition (envConditions environment) "ErrorOccurred" in
       let resolves :=
         found.2 && bool_decide (condReason found.1 ≠ "ErrorOccurredResolved") in
       let r := Reconcile req
                  (mkClient s
                     (None :: None :: None :: (if resolves then [None] else [])
                        ++ None :: None :: Some m :: rest) cs) in
       is_Some r.1.2
       ∧ head (calls r.2)
         = Some (mkEvent VGet KSecret
                   (mkNamespacedName (Namespace (envMeta environment))
                      ("managed-environment-secret-" +:+ Name (envMeta environment)))
                   (Some (plainError m)))
       ∧ ∃ conds,
           lookupObj req (environments (cluster r.2))
           = Some (mkEnvironment (envAPIVersion environment) (envKind environment)
                     (envMeta environment) (envSpec environment) conds)
           ∧ ((findCondition conds "ErrorOccurred").2 = false
              ∨ condReason (findCondition conds "ErrorOccurred").1
                = "ErrorOccurredResolved")).
Proof.
  split; [|split; [|split; [|split; [|split; [|split; [|split]]]]]].
  - intros c Hc Hdirty. split.
    + destruct (Reconcile req c).1.2 as [err|] eqn:Herr; [by eauto|].
      destruct Hdirty. by apply surfaces_Reconcile.
    + by apply failsLast_Reconcile.
  - intros s rest cs m r. subst r. rewrite Reconcile_namespace_fetch_fails.
    cbn [fst snd cluster calls]. by eauto.
  - intros s rest cs m Hns r. subst r. rewrite Reconcile_environment_fetch_fails by done.
    cbn [fst snd cluster calls]. by eauto.
  - intros s rest cs environment m Hns Henv Hclaim Hucf Hrest raised conds r.
    pose proof (lookupObj_key _ _ _ Henv) as Hkey.
    destruct (generateDesiredResource_claim_fetch_fails environment s rest
                (readEvents req ++ cs) m) as (c' & Hgen & Hcluster);
      [by rewrite Hkey|done..|].
    destruct (Reconcile_generator_fails req environment
                (mkClient s (None :: None :: Some m :: rest) cs) (plainError m) c' (condMessage raised)
                Hns eq_refl eq_refl Henv) as (Herr & Hstored);
      [rewrite Hucf; by intros [_ ?]|exact Hgen|exact Hcluster|].
    split; [done|]. split; [done|]. apply (findCondition_insertOrUpdate raised).
  - intros s rest cs environment dtc m Hns Henv Hclaim Hucf Hdtc Hphase Hrest
      found resolves raised conds r.
    pose proof (lookupObj_key _ _ _ Henv) as Hkey.
    destruct (generateDesiredResource_list_fails environment dtc s rest
                (readEvents req ++ cs) m) as (c' & Hgen & Hcluster);
      [by rewrite Hkey|done..|].
    cbv zeta in Hgen. rewrite needsResolve_eq in Hgen. fold found resolves in Hgen.
    destruct (Reconcile_generator_fails req environment
                (mkClient s (None :: None :: None :: (if resolves then [None] else [])
                               ++ Some m :: rest) cs) (plainError m) c' (condMessage raised)
                Hns eq_refl eq_refl Henv) as (Herr & Hstored);
      [rewrite Hucf; by intros [_ ?]|exact Hgen|exact Hcluster|].
    split; [done|]. split; [done|]. apply (findCondition_insertOrUpdate raised).
  - intros s rest cs environment ucf m Hns Henv Hclaim Hucf Hrest raised conds r.
    pose proof (lookupObj_key _ _ _ Henv) as Hkey.
    destruct (generateDesiredResource_inline_fetch_fails environment ucf s rest
                (readEvents req ++ cs) m) as (c' & Hgen & Hcluster);
      [by rewrite Hkey|done..|].
    destruct (Reconcile_generator_fails req environment
                (mkClient s (None :: None :: Some m :: rest) cs) (plainError m) c' (condMessage raised)
                Hns eq_refl eq_refl Henv) as (Herr & Hstored);
      [rewrite Hclaim; intros [Hn _]; by apply Hn|exact Hgen|exact Hcluster|].
    split; [done|]. split; [done|]. apply (findCondition_insertOrUpdate raised).
  - intros s rest cs environment dtc dt m Hns Henv Hclaim Hucf Hdtc Hphase Hdt Hrest
      found resolves raised conds r.
    pose proof (lookupObj_key _ _ _ Henv) as Hkey.
    destruct (generateDesiredResource_secret_fails environment dtc dt s rest
                (readEvents req ++ cs) m) as (c' & Hgen & Hcluster);
      [by rewrite Hkey|done..|].
    cbv zeta in Hgen. rewrite needsResolve_eq in Hgen. fold found resolves in Hgen.
    destruct (Reconcile_generator_fails req environment
                (mkClient s (None :: None :: None :: (if resolves then [None] else [])
                               ++ None :: Some m :: rest) cs) (plainError m) c' (condMessage raised)
                Hns eq_refl eq_refl Henv) as (Herr & Hstored);
      [rewrite Hucf; by intros [_ ?]|exact Hgen|exact Hcluster|].
    split; [done|]. split; [done|]. apply (findCondition_insertOrUpdate raised).
  - intros s rest cs environment dtc dt secret m Hns Henv Hclaim Hucf Hdtc Hphase Hdt
      Hsecret Htype found resolves r.
    pose proof (lookupObj_key _ _ _ Henv) as Hkey.
    destruct (generateDesiredResource_managed_fetch_fails environment dtc dt secret s rest
                (readEvents req ++ cs) m) as (err & older & Hgen);
      [by rewrite Hkey|done..|].
    cbv zeta in Hgen. rewrite needsResolve_eq in Hgen. fold found resolves in Hgen.
    subst r.
    rewrite (Reconcile_generate_served req environment) by
      (done || (rewrite Hucf; by intros [_ ?])).
    cbv zeta. cbn [cluster schedule calls tail]. rewrite Hgen. cbn [fst snd cluster calls].
    split; [by eauto|]. split; [done|].
    exists (resolvedConditions (envConditions environment)).
    split; [|apply resolvedConditions_settled].
    rewrite lookupObj_withEnvironment, decide_True by done. by rewrite Henv.
Qed.

(** ** Reconcile on a reliable client, path by path *)

Section ReliablePaths.
Context (req : Request) (environment : Environment) (s : Cluster) (cs : list Event).
Hypothesis Hns : namespaceActive (nnNamespace req) s.
Hypothesis Henv : lookupObj req (environments s) = Some environment.

Let conds := envConditions environment.

Lemma environment_key : objectKey environment = req.
Proof using Henv. by apply lookupObj_key in Henv. Qed.

Lemma environment_sync :
  lookupObj (objectKey environment) (environments s) = Some environment.
Proof using Henv. by rewrite environment_key. Qed.

(** The claim of the Environment does not exist. *)
Lemma Reconcile_claim_missing :
  GetDeploymentTargetClaimName environment ≠ "" →
  UnstableConfigurationFields (envSpec environment) = None →
  lookupObj (claimKey environment) (deploymentTargetClaims s) = None →
  Reconcile req (mkClient s [] cs) =
    ((noRequeue, None),
     mkClient (withEnvironment
                 (withConditions environment
                    (raisedConditions claimNotFoundMessage conds)) s) []
       (statusCalls (insertOrUpdateConditionsInSlice
                       (raisedCondition claimNotFoundMessage) conds).1 req
        ++ mkEvent VGet KDeploymentTargetClaim (claimKey environment)
             (Some (notFound (claimKey environment)))
        :: readEvents req ++ cs)).
Proof using Hns Henv.
  intros Hclaim Hucf Hdtc.
  rewrite (Reconcile_generate _ _ _ _ Hns Henv) by (rewrite Hucf; by intros [_ ?]).
  cbv zeta. unfold generateDesiredResource, claimKey in *.
  rewrite decide_True by done.
  rewrite bind_eq, k8sGet_reliable. cluster_simpl. key_simpl. rewrite Hdtc.
  cbn [fst snd IsNotFound notFound].
  rewrite bind_eq, raise_sync by apply environment_sync.
  cbn [fst snd]. rewrite ret_eq. cbn [fst snd].
  pose proof environment_key as Hkey. key_simpl. by rewrite Hkey.
Qed.


(** The claim is bound and no target matches it. *)
Lemma Reconcile_target_missing dtc :
  GetDeploymentTargetClaimName environment ≠ "" →
  UnstableConfigurationFields (envSpec environment) = None →
  lookupObj (claimKey environment) (deploymentTargetClaims s) = Some dtc →
  dtcPhase dtc = DeploymentTargetClaimPhase_Bound →
  resolveTarget dtc (inNamespace (Namespace (envMeta environment)) (deploymentTargets s))
  = None →
  Reconcile req (mkClient s [] cs) =
    ((noRequeue, None),
     mkClient (withEnvironment
                 (withConditions environment
                    (raisedConditions targetNotFoundMessage conds)) s) []
       (statusCalls (insertOrUpdateConditionsInSlice
                       (raisedCondition targetNotFoundMessage)
                       (resolvedConditions conds)).1 req
        ++ mkEvent VList KDeploymentTarget
             (mkNamespacedName (Namespace (envMeta environment)) "") None
        :: statusCalls (needsResolve EnvironmentReasonErrorOccurred conds) req
        ++ mkEvent VGet KDeploymentTargetClaim (claimKey environment) None
        :: readEvents req ++ cs)).
Proof using Hns Henv.
  intros Hclaim Hucf Hdtc Hphase Hdt.
  pose proof (lookupObj_key _ _ _ Hdtc) as Hdkey. unfold claimKey in *. key_simpl.
  injection Hdkey as Hdns Hdname.
  rewrite (Reconcile_generate _ _ _ _ Hns Henv) by (rewrite Hucf; by intros [_ ?]).
  cbv zeta. unfold generateDesiredResource.
  rewrite decide_True by done.
  rewrite bind_eq, k8sGet_reliable. cluster_simpl. key_simpl. rewrite Hdtc.
  cbn [fst snd].
  rewrite bind_eq, resolve_sync by apply environment_sync.
  cbn [fst snd]. rewrite decide_False by (intros Hn; by apply Hn).
  rewrite bind_eq. unfold getDTBoundByDTC. rewrite bind_eq, k8sList_reliable.
  cbn [fst snd]. rewrite ret_eq. cbn [fst snd].
  cluster_simpl. frame_simpl. rewrite Hdns, Hdt.
  rewrite bind_eq, raise_sync; cycle 1.
  { apply (lookupObj_withEnvironment_eq (withConditions environment _) s environment).
    apply environment_sync. }
  cbn [fst snd]. rewrite ret_eq. cbn [fst snd]. key_simpl.
  rewrite raisedConditions_resolvedConditions, withEnvironment_twice by done.
  pose proof environment_key as Hkey. key_simpl. by rewrite Hkey.
Qed.


End ReliablePaths.

(** C6. An Environment whose resolved credential secret is absent from its
    namespace: the generator raises the error condition with the message that
    names the secret, deletes the secret "managed-environment-secret-<name>"
    of the Environment's namespace when it exists (the "not found" of that
    delete, when it does not, is ignored) and returns an error with the
    do-not-continue flag; Reconcile hands that failure to its caller as an
    error. The other semantic errors (both a claim and inline credentials, a
    claim that does not exist, a bound claim without a target) end the
    reconciliation with success. *)
Theorem Reconcile_missing_secret (req : Request) (c : Client)
    (environment : Environment) :
  reliable c → namespaceActive (nnNamespace req) (cluster c) →
  lookupObj req (environments (cluster c)) = Some environment →
  let claimName := GetDeploymentTargetClaimName environment in
  let claimKey := mkNamespacedName (Namespace (envMeta environment)) claimName in
  let managedKey :=
    mkNamespacedName (Namespace (envMeta environment))
      ("managed-environment-secret-" +:+ Name (envMeta environment)) in
  let c' := (Reconcile req c).2 in
  (∀ credentials : KubernetesClusterCredentials,
     ¬ (claimName ≠ "" ∧ UnstableConfigurationFields (envSpec environment) ≠ None) →
     resolvedCredentials environment (cluster c) credentials →
     lookupObj (mkNamespacedName (Namespace (envMeta environment))
                  (ClusterCredentialsSecret credentials))
       (secrets (cluster c)) = None →
     let raised :=
       {| condType := "ErrorOccurred";
          condMessage := "the secret " +:+ ClusterCredentialsSecret credentials
                           +:+ " referenced by the Environment resource was not found";
          condStatus := ConditionTrue;
          condReason := "ErrorOccurred" |} in
     let generated :=
       generateDesiredResource environment
         (mkClient (cluster c) [] (readEvents req ++ calls c)) in
     (∃ err, generated.1 = (None, true, Some err))
     ∧ (Reconcile req c).1.1 = noRequeue ∧ is_Some (Reconcile req c).1.2
     ∧ c' = generated.2
     ∧ (∃ stored,
          lookupObj req (environments (cluster c')) = Some stored
          ∧ envConditions stored
            = (insertOrUpdateConditionsInSlice raised (envConditions environment)).2
          ∧ findCondition (envConditions stored) "ErrorOccurred" = (raised, true))
     ∧ secrets (cluster c') = removeObj managedKey (secrets (cluster c))
     ∧ lookupObj managedKey (secrets (cluster c')) = None
     ∧ managedEnvironments (cluster c') = managedEnvironments (cluster c)
     ∧ ∃ new,
         calls c'
         = mkEvent VDelete KSecret managedKey
             (match lookupObj managedKey (secrets (cluster c)) with
              | Some _ => None
              | None => Some (notFound managedKey)
              end)
             :: new ++ readEvents req ++ calls c
         ∧ Forall readOrStatus new)
  ∧ (claimName ≠ "" ∧ UnstableConfigurationFields (envSpec environment) ≠ None →
     (Reconcile req c).1 = (noRequeue, None))
  ∧ (claimName ≠ "" → UnstableConfigurationFields (envSpec environment) = None →
     lookupObj claimKey (deploymentTargetClaims (cluster c)) = None →
     (Reconcile req c).1 = (noRequeue, None))
  ∧ (∀ dtc : DeploymentTargetClaim,
       claimName ≠ "" → UnstableConfigurationFields (envSpec environment) = None →
       lookupObj claimKey (deploymentTargetClaims (cluster c)) = Some dtc →
       dtcPhase dtc = DeploymentTargetClaimPhase_Bound →
       resolveTarget dtc (inNamespace (Namespace (envMeta environment))
                            (deploymentTargets (cluster c))) = None →
       (Reconcile req c).1 = (noRequeue, None)).
Proof.
  intros Hrel Hns Henv claimName claimKey managedKey c'.
  split; [|split; [|split]].
  - intros credentials Hboth Hcred Hsecret raised generated.
    destruct (Reconcile_secret_absent req c environment credentials
                Hrel Hns Henv Hboth Hcred Hsecret)
      as (Hgen & Hres & Herr & Hc' & Hstored & Hfind & Hsecrets & Hgone & Hmanaged
          & outcome & new & Hcalls & Hout & Hnew).
    split; [exact Hgen|]. split; [exact Hres|]. split; [exact Herr|].
    split; [exact Hc'|]. split.
    { eexists. split; [exact Hstored|]. split; [reflexivity|exact Hfind]. }
    split; [exact Hsecrets|]. split; [exact Hgone|]. split; [exact Hmanaged|].
    exists new. split; [|exact Hnew]. subst c'. rewrite Hcalls. by rewrite Hout.
  - intros [Hclaim Hucf]. destruct c as [s sched cs]. unfold reliable in Hrel.
    cbn [schedule cluster] in *. subst sched.
    rewrite (Reconcile_invalid_step req environment s cs Hns Henv Hclaim Hucf).
    done.
  - intros Hclaim Hucf Hdtc. destruct c as [s sched cs]. unfold reliable in Hrel.
    cbn [schedule cluster] in *. subst sched.
    by rewrite (Reconcile_claim_missing req environment s cs Hns Henv Hclaim Hucf Hdtc).
  - intros dtc Hclaim Hucf Hdtc Hphase Hdt. destruct c as [s sched cs].
    unfold reliable in Hrel. cbn [schedule cluster] in *. subst sched.
    by rewrite (Reconcile_target_missing req environment s cs Hns Henv dtc
                  Hclaim Hucf Hdtc Hphase Hdt).
Qed.

(** ** Idempotence *)

Lemma Forall_readEvents req : Forall readOrStatus (readEvents req).
Proof. unfold readEvents. solve_readOrStatus. Qed.

Ltac solve_reads :=
  repeat match goal with
    | |- Forall _ [] => apply Forall_nil
    | |- Forall _ (statusCalls _ _) => apply Forall_statusCalls
    | |- Forall _ (readEvents _) => apply Forall_readEvents
    | |- Forall _ (_ :: _) => constructor; [unfold readOrStatus; cbn; by auto|]
    | |- Forall _ (_ ++ _) => apply Forall_app; split
    end.


Lemma lookupObj_withEnvironment_stored (e environment : Environment) req s :
  lookupObj req (environments s) = Some environment →
  objectKey e = objectKey environment →
  lookupObj req (environments (withEnvironment e s)) = Some e.
Proof.
  intros Henv Hk. pose proof (lookupObj_key _ _ _ Henv) as Hkey.
  rewrite lookupObj_withEnvironment, Hk, Hkey, decide_True by done. by rewrite Henv.
Qed.

Lemma withEnvironment_stored (e environment : Environment) req s :
  lookupObj req (environments s) = Some environment →
  objectKey e = objectKey environment →
  withEnvironment e (withEnvironment e s) = withEnvironment e s.
Proof. intros. by apply withEnvironment_twice. Qed.







Section SettledPaths.
Context (req : Request) (environment : Environment) (s : Cluster) (cs : list Event).
Hypothesis Hns : namespaceActive (nnNamespace req) s.
Hypothesis Henv : lookupObj req (environments s) = Some environment.

Let conds := envConditions environment.





End SettledPaths.

Lemma unapplied_applyManagedEnvironment w req desired s :
  namespaces (applyManagedEnvironment w req desired s).1 = namespaces s
  ∧ environments (applyManagedEnvironment w req desired s).1 = environments s
  ∧ secrets (applyManagedEnvironment w req desired s).1 = secrets s
  ∧ deploymentTargetClaims (applyManagedEnvironment w req desired s).1
    = deploymentTargetClaims s
  ∧ deploymentTargets (applyManagedEnvironment w req desired s).1 = deploymentTargets s.
Proof.
  unfold applyManagedEnvironment. destruct (lookupObj _ _); [|done]. by case_decide.
Qed.

Lemma applyManagedEnvironment_current w req desired s :
  objectKey desired = managedEnvironmentKey req →
  ∃ current,
    lookupObj (managedEnvironmentKey req)
      (managedEnvironments (applyManagedEnvironment w req desired s).1) = Some current
    ∧ meSpec current = meSpec desired.
Proof.
  intros Hkey. unfold applyManagedEnvironment.
  destruct (lookupObj (managedEnvironmentKey req) (managedEnvironments s))
    as [current|] eqn:Hcurrent.
  - pose proof (lookupObj_key _ _ _ Hcurrent) as Hckey.
    case_decide as Hspec; cbn [fst]; cluster_simpl.
    + by exists current.
    + exists (mkManagedEnvironment (meMeta current) (meSpec desired)).
      split; [|done]. rewrite <- Hckey.
      assert (lookupObj
                (objectKey (mkManagedEnvironment (meMeta current) (meSpec desired)))
                (managedEnvironments s) = Some current) as Hx.
      { change (objectKey (mkManagedEnvironment (meMeta current) (meSpec desired)))
          with (objectKey current). by rewrite Hckey. }
      exact (lookupObj_replaceObj_eq _ _ _ Hx).
  - cbn [fst]. cluster_simpl. exists desired. split; [|done].
    by rewrite lookupObj_app, Hcurrent, decide_True.
Qed.




Lemma generateDesiredResource_inline_found env ucf secret s cs :
  lookupObj (objectKey env) (environments s) = Some env →
  GetDeploymentTargetClaimName env = "" →
  UnstableConfigurationFields (envSpec env) = Some ucf →
  lookupObj (credentialSecretKey env (ucfCredentials ucf)) (secrets s) = Some secret →
  generateDesiredResource env (mkClient s [] cs) =
    ((Some (desiredManagedEnvironment env
              (desiredSpec env (ucfCredentials ucf)
                 (ClusterCredentialsSecret (ucfCredentials ucf)))), false, None),
     mkClient (withEnvironment
                 (withConditions env (resolvedConditions (envConditions env))) s) []
       (statusCalls (needsResolve EnvironmentReasonErrorOccurred (envConditions env))
          (objectKey env)
        ++ mkEvent VGet KSecret (credentialSecretKey env (ucfCredentials ucf)) None
        :: cs)).
Proof.
  intros Hsync Hclaim Hucf Hsecret.
  unfold generateDesiredResource. rewrite Hclaim, decide_False by (intros Hn; by apply Hn).
  rewrite Hucf. rewrite (fromCredentials_found _ _ _ secret) by done.
  cbv zeta. by rewrite bool_decide_false by (intros [Hn _]; by apply Hn).
Qed.


Section SettledDesired.
Context (req : Request) (environment : Environment) (s : Cluster) (cs : list Event).
Hypothesis Hns : namespaceActive (nnNamespace req) s.
Hypothesis Henv : lookupObj req (environments s) = Some environment.




End SettledDesired.








(** ** The theorems at the sample cluster *)

Lemma Reconcile_inline_credentials_witness :
  (reliable sampleClient
   ∧ namespaceActive (nnNamespace stagingRequest) (cluster sampleClient)
   ∧ lookupObj stagingRequest (environments (cluster sampleClient))
     = Some stagingEnvironment
   ∧ GetDeploymentTargetClaimName stagingEnvironment = ""
   ∧ UnstableConfigurationFields (envSpec stagingEnvironment) = Some sampleInline
   ∧ lookupObj (mkNamespacedName (nnNamespace stagingRequest)
                  (ClusterCredentialsSecret (ucfCredentials sampleInline)))
       (secrets (cluster sampleClient)) = Some stagingSecret)
  ∧ (Reconcile stagingRequest sampleClient).1 = (noRequeue, None).
Proof.
  assert (H1 : reliable sampleClient) by reflexivity.
  assert (H2 : namespaceActive (nnNamespace stagingRequest) (cluster sampleClient))
    by (eexists; split; reflexivity).
  assert (H3 : lookupObj stagingRequest (environments (cluster sampleClient))
               = Some stagingEnvironment) by reflexivity.
  assert (H4 : GetDeploymentTargetClaimName stagingEnvironment = "") by reflexivity.
  assert (H5 : UnstableConfigurationFields (envSpec stagingEnvironment)
               = Some sampleInline) by reflexivity.
  assert (H6 : lookupObj (mkNamespacedName (nnNamespace stagingRequest)
                            (ClusterCredentialsSecret (ucfCredentials sampleInline)))
                 (secrets (cluster sampleClient)) = Some stagingSecret) by reflexivity.
  split; [by repeat split|].
  exact (proj1 (Reconcile_inline_credentials stagingRequest sampleClient
                  stagingEnvironment sampleInline stagingSecret H1 H2 H3 H4 H5 H6)).
Defined.

Lemma Reconcile_environment_gone_witness :
  (namespaceActive (nnNamespace retiredRequest) (cluster sampleClient)
   ∧ scheduled 0 (schedule sampleClient) = None
   ∧ scheduled 1 (schedule sampleClient) = None
   ∧ lookupObj retiredRequest (environments (cluster sampleClient)) = None)
  ∧ (Reconcile retiredRequest sampleClient).1 = (noRequeue, None)
  ∧ lookupObj (managedEnvironmentKey retiredRequest)
      (managedEnvironments (cluster (Reconcile retiredRequest sampleClient).2)) = None.
Proof.
  assert (H1 : namespaceActive (nnNamespace retiredRequest) (cluster sampleClient))
    by (eexists; split; reflexivity).
  assert (H2 : scheduled 0 (schedule sampleClient) = None) by reflexivity.
  assert (H3 : scheduled 1 (schedule sampleClient) = None) by reflexivity.
  assert (H4 : lookupObj retiredRequest (environments (cluster sampleClient)) = None)
    by reflexivity.
  split; [by repeat split|].
  pose proof (Reconcile_environment_gone retiredRequest sampleClient H1 H2 H3 H4) as H.
  cbv zeta in H.
  change (scheduled 2 (schedule sampleClient)) with (@None string) in H.
  change (lookupObj (managedEnvironmentKey retiredRequest)
            (managedEnvironments (cluster sampleClient)))
    with (Some retiredManagedEnvironment) in H.
  change (scheduled 3 (schedule sampleClient)) with (@None string) in H.
  cbv beta iota in H. destruct H as (Hres & _ & Hgone & _). by split.
Defined.





Lemma Reconcile_transient_failure_witness :
  (namespaceActive (nnNamespace prodRequest) sampleCluster
   ∧ lookupObj prodRequest (environments sampleCluster) = Some prodEnvironment
   ∧ GetDeploymentTargetClaimName prodEnvironment ≠ ""
   ∧ UnstableConfigurationFields (envSpec prodEnvironment) = None
   ∧ scheduled 0 [] = None)
  ∧ let raised :=
      {| condType := "ErrorOccurred";
         condMessage := "Unable to find DeploymentTarget for DeploymentTargetClaim";
         condStatus := ConditionTrue; condReason := "ErrorOccurred" |} in
    is_Some (Reconcile prodRequest flakyClient).1.2
    ∧ lookupObj prodRequest
        (environments (cluster (Reconcile prodRequest flakyClient).2))
      = Some (mkEnvironment "appstudio.redhat.com/v1alpha1" "Environment"
                (sampleMeta "prod" "uid-prod") (mkEnvironmentSpec "prod-claim" None)
                [raised])
    ∧ findCondition [raised] "ErrorOccurred" = (raised, true).
Proof.
  assert (H1 : namespaceActive (nnNamespace prodRequest) sampleCluster)
    by (eexists; split; reflexivity).
  assert (H2 : lookupObj prodRequest (environments sampleCluster) = Some prodEnvironment)
    by reflexivity.
  assert (H3 : GetDeploymentTargetClaimName prodEnvironment ≠ "") by discriminate.
  assert (H4 : UnstableConfigurationFields (envSpec prodEnvironment) = None)
    by reflexivity.
  assert (H5 : scheduled 0 [] = None) by reflexivity.
  split; [by repeat split|].
  exact (proj1 (proj2 (proj2 (proj2 (Reconcile_transient_failure prodRequest))))
           sampleCluster [] [] prodEnvironment "connection refused" H1 H2 H3 H4 H5).
Defined.

(** C5, as stated, fails: the fetch of the claim of "prod" fails with a generic
    error on the third call; Reconcile returns an error, and the Environment
    is stored with a raised condition it did not have. *)
Lemma transient_failure_is_recorded :
  ¬ transientFailureUnrecorded prodRequest flakyClient.
Proof.
  intros Hclaim.
  destruct Hclaim as [_ Henvs].
  - constructor.
  - intros Hclean.
    assert (Hlog : (calls (Reconcile prodRequest flakyClient).2) !! 1
                   = Some (mkEvent VGet KDeploymentTargetClaim
                             (mkNamespacedName "team-a" "prod-claim")
                             (Some (plainError "connection refused"))))
      by (vm_compute; reflexivity).
    apply (Forall_lookup_1 _ _ _ _ Hclean) in Hlog.
    apply Hlog. by eexists.
  - vm_compute in Henvs. discriminate Henvs.
Qed.

Lemma Reconcile_missing_secret_witness :
  (reliable orphanedClient
   ∧ namespaceActive (nnNamespace orphanedRequest) (cluster orphanedClient)
   ∧ lookupObj orphanedRequest (environments (cluster orphanedClient))
     = Some orphanedEnvironment
   ∧ lookupObj (mkNamespacedName "team-a" "gone-creds") (secrets (cluster orphanedClient))
     = None
   ∧ lookupObj (mkNamespacedName "team-a" "managed-environment-secret-orphaned")
       (secrets (cluster orphanedClient)) = Some orphanedManagedSecret)
  ∧ (Reconcile orphanedRequest orphanedClient).1.1 = noRequeue
  ∧ is_Some (Reconcile orphanedRequest orphanedClient).1.2
  ∧ lookupObj (mkNamespacedName "team-a" "managed-environment-secret-orphaned")
      (secrets (cluster (Reconcile orphanedRequest orphanedClient).2)) = None
  ∧ head (calls (Reconcile orphanedRequest orphanedClient).2)
    = Some (mkEvent VDelete KSecret
              (mkNamespacedName "team-a" "managed-environment-secret-orphaned") None).
Proof.
  pose (credentials :=
          mkKubernetesClusterCredentials "https://api.gone.example" "gone-creds" false).
  assert (H1 : reliable orphanedClient) by reflexivity.
  assert (H2 : namespaceActive (nnNamespace orphanedRequest) (cluster orphanedClient))
    by (eexists; split; reflexivity).
  assert (H3 : lookupObj orphanedRequest (environments (cluster orphanedClient))
               = Some orphanedEnvironment) by reflexivity.
  assert (H4 : ¬ (GetDeploymentTargetClaimName orphanedEnvironment ≠ ""
                  ∧ UnstableConfigurationFields (envSpec orphanedEnvironment) ≠ None))
    by (intros [Hne _]; by apply Hne).
  assert (H5 : resolvedCredentials orphanedEnvironment (cluster orphanedClient) credentials)
    by (left; split; [reflexivity|eexists; split; reflexivity]).
  assert (H6 : lookupObj (mkNamespacedName (Namespace (envMeta orphanedEnvironment))
                            (ClusterCredentialsSecret credentials))
                 (secrets (cluster orphanedClient)) = None) by reflexivity.
  assert (H7 : lookupObj (mkNamespacedName "team-a" "managed-environment-secret-orphaned")
                 (secrets (cluster orphanedClient)) = Some orphanedManagedSecret)
    by reflexivity.
  split; [by repeat split|].
  destruct (proj1 (Reconcile_missing_secret orphanedRequest orphanedClient
                     orphanedEnvironment H1 H2 H3) credentials H4 H5 H6)
    as (_ & Hres & Herr & _ & _ & _ & Hgone & _ & new & Hcalls & _).
  split; [exact Hres|]. split; [exact Herr|]. split; [exact Hgone|].
  rewrite Hcalls. reflexivity.
Defined.

Lemma generateDesiredResource_mirrors_secret_witness :
  (reliable sampleClient
   ∧ lookupObj (objectKey prodEnvironment) (environments (cluster sampleClient))
     = Some prodEnvironment
   ∧ GetDeploymentTargetClaimName prodEnvironment ≠ ""
   ∧ lookupObj (mkNamespacedName "team-a" "prod-claim")
       (deploymentTargetClaims (cluster sampleClient)) = Some prodClaim
   ∧ dtcPhase prodClaim = DeploymentTargetClaimPhase_Bound
   ∧ resolveTarget prodClaim (inNamespace "team-a" (deploymentTargets (cluster sampleClient)))
     = Some prodTarget
   ∧ lookupObj (mkNamespacedName "team-a" "space-creds") (secrets (cluster sampleClient))
     = Some spaceSecret
   ∧ secType spaceSecret ≠ ManagedEnvironmentSecretType)
  ∧ secrets (cluster (generateDesiredResource prodEnvironment sampleClient).2)
    = secrets (cluster sampleClient)
      ++ [ {| secMeta :=
                {| Name := "managed-environment-secret-prod";
                   Namespace := "team-a";
                   UID := "";
                   Labels := {[ "appstudio.openshift.io/environment-secret" := "prod" ]};
                   OwnerReferences :=
                     [ {| orAPIVersion := "appstudio.redhat.com/v1alpha1";
                          orKind := "Environment"; orName := "prod"; orUID := "uid-prod";
                          orBlockOwnerDeletion := Some true;
                          orController := Some true |} ];
                   DeletionTimestamp := None |};
              secType := ManagedEnvironmentSecretType;
              secData := {[ "a" := "1" ]} |} ]
  ∧ writeCalls (newCalls sampleClient
                  (generateDesiredResource prodEnvironment sampleClient).2)
    = [ mkEvent VCreate KSecret
          (mkNamespacedName "team-a" "managed-environment-secret-prod") None ].
Proof.
  assert (H1 : reliable sampleClient) by reflexivity.
  assert (H2 : lookupObj (objectKey prodEnvironment)
                 (environments (cluster sampleClient)) = Some prodEnvironment)
    by reflexivity.
  assert (H3 : GetDeploymentTargetClaimName prodEnvironment ≠ "") by discriminate.
  assert (H4 : lookupObj (mkNamespacedName (Namespace (envMeta prodEnvironment))
                            (GetDeploymentTargetClaimName prodEnvironment))
                 (deploymentTargetClaims (cluster sampleClient)) = Some prodClaim)
    by reflexivity.
  assert (H5 : dtcPhase prodClaim = DeploymentTargetClaimPhase_Bound) by reflexivity.
  assert (H6 : resolveTarget prodClaim
                 (inNamespace (Namespace (envMeta prodEnvironment))
                    (deploymentTargets (cluster sampleClient))) = Some prodTarget)
    by reflexivity.
  assert (H7 : lookupObj (mkNamespacedName (Namespace (envMeta prodEnvironment))
                            (ClusterCredentialsSecret (dtCredentials prodTarget)))
                 (secrets (cluster sampleClient)) = Some spaceSecret) by reflexivity.
  assert (H8 : secType spaceSecret ≠ ManagedEnvironmentSecretType) by discriminate.
  split; [by repeat split|].
  pose proof (generateDesiredResource_mirrors_secret prodEnvironment sampleClient
                prodClaim prodTarget spaceSecret H1 H2 H3 H4 H5 H6 H7 H8) as H.
  cbv zeta in H.
  change (lookupObj (mkNamespacedName (Namespace (envMeta prodEnvironment))
                       ("managed-environment-secret-" +:+ Name (envMeta prodEnvironment)))
            (secrets (cluster sampleClient)))
    with (@None Secret) in H.
  cbv beta iota in H. destruct H as (_ & _ & Hsecrets & _ & Hwrites). by split.
Defined.

Lemma findObjectsForDeploymentTarget_exact_witness :
  (scheduled 0 (schedule sampleClient) = None
   ∧ scheduled 1 (schedule sampleClient) = None
   ∧ prodClaim ∈ deploymentTargetClaims (cluster sampleClient))
  ∧ ∀ req : Request,
      req ∈ (findObjectsForDeploymentTarget prodTarget sampleClient).1 ↔
      ∃ env, env ∈ environments (cluster sampleClient)
             ∧ Namespace (envMeta env) = "team-a"
             ∧ GetDeploymentTargetClaimName env = "prod-claim"
             ∧ req = objectKey env.
Proof.
  assert (H1 : scheduled 0 (schedule sampleClient) = None) by reflexivity.
  assert (H2 : scheduled 1 (schedule sampleClient) = None) by reflexivity.
  assert (H3 : prodClaim ∈ deploymentTargetClaims (cluster sampleClient))
    by (apply list_elem_of_singleton; reflexivity).
  split; [by repeat split|].
  apply (proj2 (findObjectsForDeploymentTarget_exact prodTarget sampleClient H1 H2)
           prodClaim H3 eq_refl).
  intros dtc Hdtc _. apply list_elem_of_singleton in Hdtc as ->.
  split; [reflexivity|]. intros _. by left.
Defined.

Lemma resolve_idempotent_witness :
  (findCondition (envConditions raisedEnvironment) EnvironmentConditionErrorOccurred
   = (raisedCondition "the secret was not found", true)
   ∧ condReason (raisedCondition "the secret was not found")
     ≠ EnvironmentReasonErrorOccurred +:+ "Resolved")
  ∧ ∃ err environment' c',
      updateConditionErrorAsResolved "" raisedEnvironment
        EnvironmentConditionErrorOccurred ConditionFalse EnvironmentReasonErrorOccurred
        sampleClient = ((err, environment'), c')
      ∧ length (calls c') = 1
      ∧ updateConditionErrorAsResolved "" environment'
          EnvironmentConditionErrorOccurred ConditionFalse EnvironmentReasonErrorOccurred
          c' = ((None, environment'), c').
Proof.
  assert (H1 : findCondition (envConditions raisedEnvironment)
                 EnvironmentConditionErrorOccurred
               = (raisedCondition "the secret was not found", true)) by reflexivity.
  assert (H2 : condReason (raisedCondition "the secret was not found")
               ≠ EnvironmentReasonErrorOccurred +:+ "Resolved") by discriminate.
  split; [by split|].
  destruct (proj1 (proj2 (proj2
              (resolve_idempotent "" EnvironmentConditionErrorOccurred ConditionFalse
                 EnvironmentReasonErrorOccurred raisedEnvironment sampleClient)))
              _ H1 H2)
    as (err & environment' & c' & outcome & Hrun & Hcalls & _ & _ & _ & Hagain).
  exists err, environment', c'. split; [exact Hrun|].
  split; [by rewrite Hcalls|exact Hagain].
Defined.

Lemma findObjectsForSecret_claim_fetch_failure_witness :
  (secType spaceSecret = SecretTypeOpaque
   ∧ danglingEnvironment ∈ environments (cluster danglingClient)
   ∧ lookupObj (mkNamespacedName "team-a" "no-such-claim")
       (deploymentTargetClaims (cluster danglingClient)) = None)
  ∧ (findObjectsForSecret spaceSecret danglingClient).1 = [].
Proof.
  assert (H1 : secType spaceSecret = SecretTypeOpaque) by reflexivity.
  assert (H2 : danglingEnvironment ∈ environments (cluster danglingClient))
    by (apply list_elem_of_further, list_elem_of_here).
  assert (H3 : lookupObj (mkNamespacedName "team-a" "no-such-claim")
                 (deploymentTargetClaims (cluster danglingClient)) = None)
    by reflexivity.
  split; [by repeat split|].
  apply (proj2 (findObjectsForSecret_claim_fetch_failure spaceSecret danglingClient H1)).
  exists danglingEnvironment. split; [exact H2|]. split; [reflexivity|].
  split; [discriminate|exact H3].
Defined.

(** * What a reconciliation may change *)

Lemma keeps_ret {A} (R : relation Client) (a : A) (Q : A → Prop) :
  Reflexive R → Q a → keeps R (ret a) Q.
Proof. intros HR Ha c. split; [apply HR|done]. Qed.

Lemma keeps_bind {A B} (R : relation Client) (m : M A) (k : A → M B)
    (Q : A → Prop) (Q' : B → Prop) :
  Transitive R → keeps R m Q → (∀ a, Q a → keeps R (k a) Q') → keeps R (bind m k) Q'.
Proof.
  intros HR Hm Hk c. rewrite bind_eq. destruct (Hm c) as [H1 Ha].
  destruct (Hk _ Ha (m c).2) as [H2 Hb]. split; [by apply (HR _ _ _ H1)|done].
Qed.

Lemma keeps_weaken {A} (R R' : relation Client) (m : M A) (Q Q' : A → Prop) :
  keeps R m Q → (∀ c c', R c c' → R' c c') → (∀ a, Q a → Q' a) → keeps R' m Q'.
Proof. intros Hm HR HQ c. destruct (Hm c). split; auto. Qed.

Lemma conditionsOnly_trans key l1 l2 l3 :
  conditionsOnly key l1 l2 → conditionsOnly key l2 l3 → conditionsOnly key l1 l3.
Proof.
  intros [->|(stored & conds & Hl & ->)]; [done|].
  intros [->|(stored' & conds' & Hl' & ->)]; [right; by eauto|].
  right. exists stored, conds'. split; [done|].
  pose proof (lookupObj_key _ _ _ Hl) as Hkey.
  assert (Hk : objectKey (withConditions stored conds) = key) by done.
  rewrite <- Hk in Hl'. erewrite lookupObj_replaceObj_eq in Hl' by (by rewrite Hk).
  injection Hl' as <-. by rewrite replaceObj_replaceObj.
Qed.

Lemma othersServed_trans `{Resource T} key (l1 l2 l3 : list T) :
  othersServed key l1 l2 → othersServed key l2 l3 → othersServed key l1 l3.
Proof. intros H1 H2 k Hk. by rewrite H2, H1. Qed.

Lemma generatorFrame_refl req : Reflexive (generatorFrame req).
Proof. intros c. repeat split. by left. Qed.

Lemma generatorFrame_trans req : Transitive (generatorFrame req).
Proof.
  intros c1 c2 c3 (N1 & C1 & T1 & M1 & E1 & S1) (N2 & C2 & T2 & M2 & E2 & S2).
  repeat split; [congruence..| |].
  - by apply (conditionsOnly_trans _ _ _ _ E1).
  - by apply (othersServed_trans _ _ _ _ S1).
Qed.

Lemma reconcileFrame_refl req : Reflexive (reconcileFrame req).
Proof. intros c. repeat split. by left. Qed.

Lemma reconcileFrame_trans req : Transitive (reconcileFrame req).
Proof.
  intros c1 c2 c3 (N1 & C1 & T1 & E1 & S1 & M1) (N2 & C2 & T2 & E2 & S2 & M2).
  repeat split; [congruence..| | |].
  - by apply (conditionsOnly_trans _ _ _ _ E1).
  - by apply (othersServed_trans _ _ _ _ S1).
  - by apply (othersServed_trans _ _ _ _ M1).
Qed.

Lemma generatorFrame_reconcileFrame req c c' :
  generatorFrame req c c' → reconcileFrame req c c'.
Proof.
  intros (N & C & T & M & E & S). repeat split; try done.
  intros k _. by rewrite M.
Qed.

Lemma generatorFrame_cluster req c c' : cluster c' = cluster c → generatorFrame req c c'.
Proof. intros Hc. unfold generatorFrame. rewrite Hc. repeat split. by left. Qed.

Section OthersServed.
Context `{Resource T}.

Lemma othersServed_refl key (l : list T) : othersServed key l l.
Proof. by intros k _. Qed.

Lemma othersServed_app (o : T) l : othersServed (objectKey o) l (l ++ [o]).
Proof.
  intros k Hk. rewrite lookupObj_app. destruct (lookupObj k l); [done|].
  by rewrite decide_False by congruence.
Qed.

Lemma othersServed_replaceObj (o : T) l : othersServed (objectKey o) l (replaceObj o l).
Proof. intros k Hk. apply lookupObj_replaceObj_ne. congruence. Qed.

Lemma othersServed_removeObj key (l : list T) : othersServed key l (removeObj key l).
Proof. intros k Hk. rewrite lookupObj_removeObj. by rewrite decide_False by congruence. Qed.
End OthersServed.

Section FrameReads.
Context `{Resource T} (req : Request).

Lemma keeps_k8sGet key :
  keeps (generatorFrame req) (k8sGet (T := T) key)
    (λ r, match r with inr o => objectKey o = key | inl _ => True end).
Proof.
  intros c. rewrite k8sGet_eq. destruct (scheduled 0 (schedule c)).
  { split; [by apply generatorFrame_cluster|done]. }
  destruct (lookupObj key _) eqn:Hl; (split; [by apply generatorFrame_cluster|]);
    [by eapply lookupObj_key|done].
Qed.

Lemma keeps_k8sList ns : keeps (generatorFrame req) (k8sList (T := T) ns) (λ _, True).
Proof.
  intros c. rewrite k8sList_eq.
  destruct (scheduled 0 (schedule c)); (split; [by apply generatorFrame_cluster|done]).
Qed.
End FrameReads.

Lemma keeps_k8sStatusUpdate req e :
  objectKey e = req →
  keeps (generatorFrame req) (k8sStatusUpdate e) (λ r, objectKey r.2 = req).
Proof.
  intros He c. rewrite k8sStatusUpdate_eq.
  destruct (scheduled 0 (schedule c)).
  { split; [by apply generatorFrame_cluster|done]. }
  rewrite He.
  destruct (lookupObj req _) as [stored|] eqn:Hl;
    [|split; [by apply generatorFrame_cluster|done]].
  split; [|by apply (lookupObj_key _ _ _ Hl)].
  unfold generatorFrame. cluster_simpl. repeat split.
  right. by exists stored, (envConditions e).
Qed.

Lemma keeps_updateStatusConditionOfEnvironment req message e conditionType status reason :
  objectKey e = req →
  keeps (generatorFrame req)
    (updateStatusConditionOfEnvironment message e conditionType status reason)
    (λ r, objectKey r.2 = req).
Proof.
  intros He c. rewrite updateStatusConditionOfEnvironment_eq. cbv zeta.
  destruct (insertOrUpdateConditionsInSlice _ _).1.
  - by apply keeps_k8sStatusUpdate.
  - split; [apply generatorFrame_refl|done].
Qed.

Lemma keeps_updateConditionErrorAsResolved req message e conditionType status reason :
  objectKey e = req →
  keeps (generatorFrame req)
    (updateConditionErrorAsResolved message e conditionType status reason)
    (λ r, objectKey r.2 = req).
Proof.
  intros He c. rewrite updateConditionErrorAsResolved_eq.
  destruct (needsResolve _ _).
  - cbv zeta. cbn [fst snd]. by apply keeps_k8sStatusUpdate.
  - split; [apply generatorFrame_refl|done].
Qed.

Lemma keeps_getDTBoundByDTC req dtc :
  keeps (generatorFrame req) (getDTBoundByDTC dtc) (λ _, True).
Proof.
  unfold getDTBoundByDTC.
  apply (keeps_bind _ _ _ (λ _, True)); [apply generatorFrame_trans|apply keeps_k8sList|].
  intros [err|l] _; by apply keeps_ret; [apply generatorFrame_refl|].
Qed.

Section FrameSecrets.
Context (req : Request) (o : Secret).
Hypothesis Hkey : objectKey o = ownedSecretKey req.

Lemma keeps_secret_k8sCreate : keeps (generatorFrame req) (k8sCreate o) (λ _, True).
Proof using Hkey.
  intros c. rewrite k8sCreate_eq.
  destruct (scheduled 0 (schedule c)); [split; [by apply generatorFrame_cluster|done]|].
  destruct (lookupObj _ _); (split; [|done]); [by apply generatorFrame_cluster|].
  unfold generatorFrame. cluster_simpl. repeat split; [by left|].
  rewrite <- Hkey. apply othersServed_app.
Qed.

Lemma keeps_secret_k8sUpdate : keeps (generatorFrame req) (k8sUpdate o) (λ _, True).
Proof using Hkey.
  intros c. rewrite k8sUpdate_eq.
  destruct (scheduled 0 (schedule c)); [split; [by apply generatorFrame_cluster|done]|].
  destruct (lookupObj _ _); (split; [|done]); [|by apply generatorFrame_cluster].
  unfold generatorFrame. cluster_simpl. repeat split; [by left|].
  rewrite <- Hkey. apply othersServed_replaceObj.
Qed.

Lemma keeps_secret_k8sDelete : keeps (generatorFrame req) (k8sDelete o) (λ _, True).
Proof using Hkey.
  intros c. rewrite k8sDelete_eq.
  destruct (scheduled 0 (schedule c)); [split; [by apply generatorFrame_cluster|done]|].
  destruct (lookupObj _ _); (split; [|done]); [|by apply generatorFrame_cluster].
  unfold generatorFrame. cluster_simpl. repeat split; [by left|].
  rewrite <- Hkey. apply othersServed_removeObj.
Qed.
End FrameSecrets.

Lemma objectKey_parts (e : Environment) req :
  objectKey e = req →
  Namespace (envMeta e) = nnNamespace req ∧ Name (envMeta e) = nnName req.
Proof. by intros <-. Qed.

Ltac key_solve :=
  try assumption;
  repeat match goal with
    | H : generatedFor _ (Some _, _, _) |- _ =>
        destruct (H _ eq_refl) as (_ & _ & ? & _); clear H
    end;
  try assumption;
  repeat match goal with
    | H : objectKey (T := Environment) _ = _ |- _ =>
        apply objectKey_parts in H; destruct H as [? ?]
    end;
  unfold ownedSecretKey, managedEnvironmentKey in *; key_simpl;
  try congruence;
  try match goal with
    | |- _ = ?r => is_var r; destruct r; cbn in *; congruence
    end.

Ltac frame_call req :=
  first
    [ apply (keeps_k8sGet req)
    | apply (keeps_k8sList req)
    | apply (keeps_getDTBoundByDTC req)
    | apply (keeps_updateStatusConditionOfEnvironment req); solve [key_solve]
    | apply (keeps_updateConditionErrorAsResolved req); solve [key_solve]
    | apply (keeps_secret_k8sCreate req); solve [key_solve]
    | apply (keeps_secret_k8sUpdate req); solve [key_solve]
    | apply (keeps_secret_k8sDelete req); solve [key_solve] ].

Ltac frame_step req :=
  lazymatch goal with
  | |- keeps _ (ret _) _ => apply keeps_ret; [apply generatorFrame_refl|]
  | |- keeps _ (bind _ _) _ =>
      eapply keeps_bind; [apply generatorFrame_trans|frame_call req|intros ? ?]
  | |- keeps _ (match ?x with _ => _ end) _ =>
      first [is_var x; destruct x | destruct x eqn:?]; cbn [fst snd] in *
  end.

Lemma generatedFor_None req flag err : generatedFor req (None, flag, err).
Proof. by intros desired. Qed.

Lemma generatedFor_Some req desired uid :
  Name (meMeta desired) = "managed-environment-" +:+ nnName req →
  Namespace (meMeta desired) = nnNamespace req →
  OwnerReferences (meMeta desired)
  = [ {| orAPIVersion := GroupVersion_Group +:+ "/" +:+ GroupVersion_Version;
         orKind := "Environment"; orName := nnName req; orUID := uid;
         orBlockOwnerDeletion := None; orController := None |} ] →
  generatedFor req (Some desired, false, None).
Proof.
  intros Hname Hns Hrefs d [= <-]. split; [done|]. split; [done|]. split.
  - unfold managedEnvironmentKey. key_simpl. by rewrite Hname, Hns.
  - unfold findObjectsForGitOpsDeploymentManagedEnvironment. rewrite Hrefs, Hns.
    cbn. by destruct req.
Qed.

Ltac generated_solve :=
  first
    [ apply generatedFor_None
    | eapply generatedFor_Some; cbn; key_solve;
      repeat match goal with
        | H : Name (envMeta _) = nnName _ |- _ => rewrite H
        end; reflexivity ].

Lemma keeps_fromCredentials req env claimName details :
  objectKey env = req →
  keeps (generatorFrame req)
    (generateDesiredResource_fromCredentials env claimName details) (generatedFor req).
Proof.
  intros Hkey. unfold generateDesiredResource_fromCredentials. cbv zeta.
  repeat frame_step req; generated_solve.
Qed.

Lemma keeps_generateDesiredResource req env :
  objectKey env = req →
  keeps (generatorFrame req) (generateDesiredResource env) (generatedFor req).
Proof.
  intros Hkey. unfold generateDesiredResource. cbv zeta.
  repeat first
    [ apply keeps_fromCredentials; solve [key_solve]
    | frame_step req ]; generated_solve.
Qed.

Lemma reconcileFrame_cluster req c c' : cluster c' = cluster c → reconcileFrame req c c'.
Proof. intros Hc. by apply generatorFrame_reconcileFrame, generatorFrame_cluster. Qed.

Section FrameManagedEnvironments.
Context (req : Request) (o : GitOpsDeploymentManagedEnvironment).
Hypothesis Hkey : objectKey o = managedEnvironmentKey req.

Lemma keeps_managed_k8sCreate : keeps (reconcileFrame req) (k8sCreate o) (λ _, True).
Proof using Hkey.
  intros c. rewrite k8sCreate_eq.
  destruct (scheduled 0 (schedule c)); [split; [by apply reconcileFrame_cluster|done]|].
  destruct (lookupObj _ _); (split; [|done]); [by apply reconcileFrame_cluster|].
  unfold reconcileFrame. cluster_simpl. repeat split; [by left|].
  rewrite <- Hkey. apply othersServed_app.
Qed.

Lemma keeps_managed_k8sUpdate : keeps (reconcileFrame req) (k8sUpdate o) (λ _, True).
Proof using Hkey.
  intros c. rewrite k8sUpdate_eq.
  destruct (scheduled 0 (schedule c)); [split; [by apply reconcileFrame_cluster|done]|].
  destruct (lookupObj _ _); (split; [|done]); [|by apply reconcileFrame_cluster].
  unfold reconcileFrame. cluster_simpl. repeat split; [by left|].
  rewrite <- Hkey. apply othersServed_replaceObj.
Qed.

Lemma keeps_managed_k8sDelete : keeps (reconcileFrame req) (k8sDelete o) (λ _, True).
Proof using Hkey.
  intros c. rewrite k8sDelete_eq.
  destruct (scheduled 0 (schedule c)); [split; [by apply reconcileFrame_cluster|done]|].
  destruct (lookupObj _ _); (split; [|done]); [|by apply reconcileFrame_cluster].
  unfold reconcileFrame. cluster_simpl. repeat split; [by left|].
  rewrite <- Hkey. apply othersServed_removeObj.
Qed.
End FrameManagedEnvironments.

Lemma keeps_isRequestNamespaceBeingDeleted req ns :
  keeps (generatorFrame req) (isRequestNamespaceBeingDeleted ns) (λ _, True).
Proof.
  unfold isRequestNamespaceBeingDeleted.
  eapply keeps_bind; [apply generatorFrame_trans|apply keeps_k8sGet|].
  intros [err|namespace] _; [by apply keeps_ret; [apply generatorFrame_refl|]|].
  case_decide; by apply keeps_ret; [apply generatorFrame_refl|].
Qed.

Ltac reconcile_call req :=
  first
    [ eapply keeps_weaken;
      [ first [ frame_call req
              | apply (keeps_isRequestNamespaceBeingDeleted req)
              | apply (keeps_generateDesiredResource req); solve [key_solve] ]
      | apply generatorFrame_reconcileFrame
      | intros ? HQ; exact HQ ]
    | apply (keeps_managed_k8sCreate req); solve [key_solve]
    | apply (keeps_managed_k8sUpdate req); solve [key_solve]
    | apply (keeps_managed_k8sDelete req); solve [key_solve] ].

Ltac reconcile_step req :=
  lazymatch goal with
  | |- keeps _ (ret _) _ => apply keeps_ret; [apply reconcileFrame_refl|]
  | |- keeps _ (bind _ _) _ =>
      eapply keeps_bind; [apply reconcileFrame_trans|reconcile_call req|intros ? ?]
  | |- keeps _ (match ?x with _ => _ end) _ =>
      first [is_var x; destruct x | destruct x eqn:?]; cbn [fst snd] in *
  end.

Lemma keeps_Reconcile req :
  keeps (reconcileFrame req) (Reconcile req) (λ r, r.1 = noRequeue).
Proof.
  unfold Reconcile. cbv zeta.
  repeat reconcile_step req; done.
Qed.

Lemma conditionsOnly_skeleton key l l' :
  conditionsOnly key l l' →
  map envMeta l' = map envMeta l ∧ map envSpec l' = map envSpec l
  ∧ map envAPIVersion l' = map envAPIVersion l ∧ map envKind l' = map envKind l.
Proof.
  intros [->|(stored & conds & Hl & ->)]; [done|].
  pose proof (lookupObj_key _ _ _ Hl) as Hkey.
  assert (Hk : objectKey (withConditions stored conds) = key) by done.
  revert Hl. induction l as [|x l IH]; [done|]. cbn [lookupObj replaceObj].
  rewrite Hk. case_decide as Hx.
  - intros [= ->]. done.
  - intros Hl. destruct (IH Hl) as (H1 & H2 & H3 & H4). cbn [map].
    by rewrite H1, H2, H3, H4.
Qed.

Lemma conditionsOnly_others key l l' k :
  conditionsOnly key l l' → k ≠ key → lookupObj k l' = lookupObj k l.
Proof.
  intros [->|(stored & conds & Hl & ->)] Hk; [done|].
  apply lookupObj_replaceObj_ne.
  change (objectKey (withConditions stored conds)) with (objectKey stored).
  rewrite (lookupObj_key _ _ _ Hl). congruence.
Qed.

(** X1. Whatever the fault schedule, a reconciliation changes nothing of the
    Environments but, at most, the condition list of the Environment of the
    request: none is added, removed or moved, and metadata and spec of each
    stay as they are. *)
Theorem Reconcile_changes_conditions_only (req : Request) (c : Client) :
  let envs := environments (cluster c) in
  let envs' := environments (cluster (Reconcile req c).2) in
  (envs' = envs
   ∨ ∃ stored conds,
       lookupObj req envs = Some stored
       ∧ envs' = replaceObj (withConditions stored conds) envs)
  ∧ map envMeta envs' = map envMeta envs
  ∧ map envSpec envs' = map envSpec envs.
Proof.
  intros envs envs'.
  destruct (keeps_Reconcile req c) as [(_ & _ & _ & Henvs & _) _].
  split; [exact Henvs|].
  by destruct (conditionsOnly_skeleton _ _ _ Henvs) as (? & ? & _).
Qed.

(** X2. Whatever the fault schedule, a reconciliation writes no namespace, no
    DeploymentTargetClaim and no DeploymentTarget, and of the secrets and the
    ManagedEnvironments it leaves all but the ones it derives from the
    request, "managed-environment-secret-<name>" and
    "managed-environment-<name>" in the namespace of the request, as they
    are. *)
Theorem Reconcile_writes_owned_objects_only (req : Request) (c : Client) :
  let s := cluster c in
  let s' := cluster (Reconcile req c).2 in
  namespaces s' = namespaces s
  ∧ deploymentTargetClaims s' = deploymentTargetClaims s
  ∧ deploymentTargets s' = deploymentTargets s
  ∧ (∀ k, k ≠ mkNamespacedName (nnNamespace req)
                 ("managed-environment-secret-" +:+ nnName req) →
          lookupObj k (secrets s') = lookupObj k (secrets s))
  ∧ (∀ k, k ≠ mkNamespacedName (nnNamespace req) ("managed-environment-" +:+ nnName req) →
          lookupObj k (managedEnvironments s') = lookupObj k (managedEnvironments s)).
Proof.
  intros s s'.
  by destruct (keeps_Reconcile req c) as [(? & ? & ? & _ & ? & ?) _].
Qed.

Lemma managedEnvironmentKey_inj : Inj (=) (=) managedEnvironmentKey.
Proof.
  intros [ns1 n1] [ns2 n2] [= -> Hn]. f_equal. exact Hn.
Qed.

Lemma ownedSecretKey_inj : Inj (=) (=) ownedSecretKey.
Proof.
  intros [ns1 n1] [ns2 n2] [= -> Hn]. f_equal. exact Hn.
Qed.

(** X3. Reconciliations of different requests do not interfere: whatever the
    fault schedule, a reconciliation of [req] leaves the Environment, the
    ManagedEnvironment and the managed secret of every other request as they
    are. *)
Theorem Reconcile_isolated (req req' : Request) (c : Client) :
  req' ≠ req →
  let s := cluster c in
  let s' := cluster (Reconcile req c).2 in
  lookupObj req' (environments s') = lookupObj req' (environments s)
  ∧ lookupObj (mkNamespacedName (nnNamespace req') ("managed-environment-" +:+ nnName req'))
      (managedEnvironments s')
    = lookupObj (mkNamespacedName (nnNamespace req') ("managed-environment-" +:+ nnName req'))
        (managedEnvironments s)
  ∧ lookupObj (mkNamespacedName (nnNamespace req')
                 ("managed-environment-secret-" +:+ nnName req')) (secrets s')
    = lookupObj (mkNamespacedName (nnNamespace req')
                   ("managed-environment-secret-" +:+ nnName req')) (secrets s).
Proof.
  intros Hne s s'.
  destruct (keeps_Reconcile req c) as [(_ & _ & _ & Henvs & Hsecrets & Hmanaged) _].
  split; [by apply (conditionsOnly_others req)|]. split.
  - apply Hmanaged. intros Heq. by apply Hne, managedEnvironmentKey_inj.
  - apply Hsecrets. intros Heq. by apply Hne, ownedSecretKey_inj.
Qed.

(** X4. Reconcile returns the zero [ctrl.Result] on every path and for every
    fault schedule: it never asks for a requeue through the result, a retry is
    requested through the returned error only. *)
Theorem Reconcile_never_requeues (req : Request) (c : Client) :
  (Reconcile req c).1.1 = noRequeue.
Proof. by destruct (keeps_Reconcile req c) as [_ ?]. Qed.

(** X5. The generator generates and does not apply: whatever the fault
    schedule, it writes no ManagedEnvironment (nor a namespace, claim or
    target); of the Environments it changes at most the condition list of
    its own, and of the secrets at most "managed-environment-secret-<name>". *)
Theorem generateDesiredResource_never_applies (env : Environment) (c : Client) :
  let s := cluster c in
  let s' := cluster (generateDesiredResource env c).2 in
  managedEnvironments s' = managedEnvironments s
  ∧ namespaces s' = namespaces s
  ∧ deploymentTargetClaims s' = deploymentTargetClaims s
  ∧ deploymentTargets s' = deploymentTargets s
  ∧ map envSpec (environments s') = map envSpec (environments s)
  ∧ map envMeta (environments s') = map envMeta (environments s)
  ∧ (∀ k, k ≠ objectKey env → lookupObj k (environments s') = lookupObj k (environments s))
  ∧ (∀ k, k ≠ mkNamespacedName (Namespace (envMeta env))
                 ("managed-environment-secret-" +:+ Name (envMeta env)) →
          lookupObj k (secrets s') = lookupObj k (secrets s)).
Proof.
  intros s s'.
  destruct (keeps_generateDesiredResource (objectKey env) env eq_refl c)
    as [(? & ? & ? & ? & Henvs & ?) _].
  destruct (conditionsOnly_skeleton _ _ _ Henvs) as (? & ? & _).
  repeat split; try done.
  intros k Hk. by apply (conditionsOnly_others (objectKey env)).
Qed.

(** X6. The three results of the generator are consistent, whatever the fault
    schedule: a desired ManagedEnvironment is returned only together with no
    error and no do-not-continue flag, and it carries the name
    "managed-environment-<name>" and the namespace of the Environment; with an
    error or the flag, no ManagedEnvironment is returned. *)
Theorem generateDesiredResource_result_consistent (env : Environment) (c : Client) :
  let r := (generateDesiredResource env c).1 in
  match r.1.1 with
  | Some desired =>
      r.1.2 = false ∧ r.2 = None
      ∧ Name (meMeta desired) = "managed-environment-" +:+ Name (envMeta env)
      ∧ Namespace (meMeta desired) = Namespace (envMeta env)
  | None => True
  end
  ∧ (r.1.2 = true ∨ is_Some r.2 → r.1.1 = None).
Proof.
  intros r.
  destruct (keeps_generateDesiredResource (objectKey env) env eq_refl c) as [_ Hr].
  fold r in Hr. destruct r as [[[desired|] flag] err]; cbn [fst snd]; [|done].
  destruct (Hr desired eq_refl) as (Hf & He & Hkey & _). cbn [fst snd] in Hf, He.
  injection Hkey as Hns Hname. subst flag err.
  split; [done|]. by intros [?|[? ?]].
Qed.

(** X7. The ManagedEnvironment the generator returns leads back to its
    Environment: the ManagedEnvironment mapper sends it to the request of that
    Environment, and to no other. *)
Theorem generateDesiredResource_maps_back (env : Environment) (c : Client)
    (desired : GitOpsDeploymentManagedEnvironment) :
  (generateDesiredResource env c).1.1.1 = Some desired →
  findObjectsForGitOpsDeploymentManagedEnvironment desired = [objectKey env].
Proof.
  intros Hr.
  destruct (keeps_generateDesiredResource (objectKey env) env eq_refl c) as [_ Hg].
  by destruct (Hg desired Hr) as (_ & _ & _ & ?).
Qed.

Lemma keeps_fst {A} (R : relation Client) (m : M A) (Q : A → Prop) :
  keeps R m Q → ∀ c, R c (m c).2.
Proof. intros Hm c. by destruct (Hm c). Qed.

(** * The mappers *)

Lemma readOnly_refl : Reflexive readOnly.
Proof. intros c. split; [done|]. by exists []. Qed.

Lemma readOnly_trans : Transitive readOnly.
Proof.
  intros c1 c2 c3 (Hs1 & new1 & Hc1 & Hr1) (Hs2 & new2 & Hc2 & Hr2).
  split; [congruence|]. exists (new2 ++ new1).
  split; [by rewrite Hc2, Hc1, app_assoc|]. by apply Forall_app.
Qed.

Section ReadCalls.
Context `{Resource T}.

Lemma reads_k8sGet key : keeps readOnly (k8sGet (T := T) key) (λ _, True).
Proof.
  intros c. split; [|done]. rewrite k8sGet_eq.
  destruct (scheduled 0 (schedule c)); [|destruct (lookupObj key _)];
    (split; [done|]); eexists [_]; (split; [done|]);
    by repeat constructor.
Qed.

Lemma reads_k8sList ns : keeps readOnly (k8sList (T := T) ns) (λ _, True).
Proof.
  intros c. split; [|done]. rewrite k8sList_eq.
  destruct (scheduled 0 (schedule c));
    (split; [done|]); eexists [_]; (split; [done|]);
    constructor; [by right|done|by right|done].
Qed.
End ReadCalls.

Ltac reads_step :=
  lazymatch goal with
  | |- keeps _ (ret _) _ => apply keeps_ret; [apply readOnly_refl|done]
  | |- keeps _ (bind _ _) _ =>
      eapply keeps_bind;
      [apply readOnly_trans|first [apply reads_k8sGet|apply reads_k8sList]|intros ? _]
  | |- keeps _ (match ?x with _ => _ end) _ =>
      first [is_var x; destruct x | destruct x eqn:?]
  end.

Lemma reads_findObjectsForSecret_envs secret dtList envs acc :
  keeps readOnly (findObjectsForSecret_envs secret dtList envs acc) (λ _, True).
Proof.
  revert acc. induction envs as [|env rest IH]; intros acc; cbn [findObjectsForSecret_envs].
  - reads_step.
  - cbv zeta. repeat first [apply IH | reads_step].
Qed.

(** X8. The mappers only read: whatever the fault schedule, none of them
    changes the cluster, every call they issue is a Get or a List, and the
    secret mapper issues no call at all for a secret that is not of the opaque
    type. *)
Theorem mappers_read_only (c : Client) :
  (∀ dtc, readOnly c (findObjectsForDeploymentTargetClaim dtc c).2)
  ∧ (∀ dt, readOnly c (findObjectsForDeploymentTarget dt c).2)
  ∧ (∀ secret,
       readOnly c (findObjectsForSecret secret c).2
       ∧ (secType secret ≠ SecretTypeOpaque → (findObjectsForSecret secret c).2 = c)).
Proof.
  split; [|split].
  - intros dtc. revert c. apply (keeps_fst readOnly _ (λ _, True)).
    unfold findObjectsForDeploymentTargetClaim. repeat reads_step.
  - intros dt. revert c. apply (keeps_fst readOnly _ (λ _, True)).
    unfold findObjectsForDeploymentTarget. cbv zeta. repeat reads_step.
  - intros secret. split.
    + revert c. apply (keeps_fst readOnly _ (λ _, True)).
      unfold findObjectsForSecret. cbv zeta.
      repeat first [apply reads_findObjectsForSecret_envs | reads_step].
    + intros Htype. unfold findObjectsForSecret. cbv zeta.
      case_decide as H1; [done|]. case_decide as H2; [by case_decide|].
      destruct H1. by split.
Qed.

Lemma fold_append_map_filter {A B} (P : A → Prop) `{!∀ x, Decision (P x)} (f : A → B)
    (l : list A) (acc : list B) :
  fold_left (λ acc x, if decide (P x) then acc ++ [f x] else acc) l acc
  = acc ++ map f (filter P l).
Proof.
  revert acc. induction l as [|a l IH]; intros acc; simpl.
  - by rewrite app_nil_r.
  - rewrite IH. destruct (decide (P a)).
    + rewrite filter_cons_True by done. by rewrite <- app_assoc.
    + by rewrite filter_cons_False by done.
Qed.

(** X9. The DeploymentTargetClaim mapper issues one listing of the
    Environments of the claim's namespace; when that fails it returns no
    request, and otherwise the requests of the listed Environments that
    reference the claim by name, in the order of the listing and one for each
    such Environment. *)
Theorem findObjectsForDeploymentTargetClaim_exact (dtc : DeploymentTargetClaim)
    (c : Client) :
  (findObjectsForDeploymentTargetClaim dtc c).1 =
    match scheduled 0 (schedule c) with
    | Some _ => []
    | None =>
        map objectKey
          (filter (λ env, GetDeploymentTargetClaimName env = Name (dtcMeta dtc))
             (inNamespace (Namespace (dtcMeta dtc)) (environments (cluster c))))
    end
  ∧ ∃ outcome,
      calls (findObjectsForDeploymentTargetClaim dtc c).2
      = mkEvent VList KEnvironment (mkNamespacedName (Namespace (dtcMeta dtc)) "") outcome
          :: calls c.
Proof.
  unfold findObjectsForDeploymentTargetClaim. rewrite bind_eq, k8sList_eq.
  destruct (scheduled 0 (schedule c)); cbn [fst snd].
  - split; [done|]. by eexists.
  - split; [|by eexists]. rewrite ret_eq. cbn [fst].
    by rewrite (fold_append_map_filter
                  (λ env, GetDeploymentTargetClaimName env = Name (dtcMeta dtc))).
Qed.

(** The Environments for which the secret mapper emits a request. *)
Lemma findObjectsForSecret_envs_elem secret dtList envs acc c :
  reliable c →
  (∀ env, env ∈ envs → GetDeploymentTargetClaimName env ≠ "" →
          is_Some (lookupObj (claimKey env) (deploymentTargetClaims (cluster c)))) →
  ∀ req,
    req ∈ (findObjectsForSecret_envs secret dtList envs acc c).1 ↔
    req ∈ acc
    ∨ ∃ env dtc,
        env ∈ envs ∧ GetDeploymentTargetClaimName env ≠ ""
        ∧ lookupObj (claimKey env) (deploymentTargetClaims (cluster c)) = Some dtc
        ∧ ClusterCredentialsSecret
            (dtCredentials (default emptyDeploymentTarget (firstBound dtc dtList)))
          = Name (secMeta secret)
        ∧ req = objectKey env.
Proof.
  revert acc c. induction envs as [|env rest IH]; intros acc c Hrel Hclaims req.
  { cbn. split; [by left|]. intros [?|(e & ? & He & _)]; [done|].
    by apply elem_of_nil in He. }
  cbn [findObjectsForSecret_envs]. cbv zeta.
  assert (Hrest : ∀ env0, env0 ∈ rest → GetDeploymentTargetClaimName env0 ≠ "" →
            is_Some (lookupObj (claimKey env0) (deploymentTargetClaims (cluster c)))).
  { intros env0 Hin. apply Hclaims. by right. }
  case_decide as Hname.
  { rewrite (IH acc c Hrel Hrest). split.
    - intros [?|(e & d & He & Hrest')]; [by left|]. right. exists e, d.
      split; [by right|done].
    - intros [?|(e & d & He & Hn & Hrest')]; [by left|].
      apply elem_of_cons in He as [->|He]; [done|]. right. by exists e, d. }
  destruct (Hclaims env (list_elem_of_here _ _) Hname) as [dtc Hdtc].
  rewrite bind_eq, k8sGet_eq. unfold reliable in Hrel. rewrite Hrel. cbn [scheduled lookup].
  change (scheduled 0 []) with (@None string).
  change (objectKey (mkDeploymentTargetClaim
            (namedMeta (GetDeploymentTargetClaimName env) (Namespace (envMeta env))) "" ""))
    with (claimKey env).
  cluster_simpl. rewrite Hdtc. cbn [fst snd].
  set (c1 := logged _ _ _ _ _ _).
  assert (Hrel1 : reliable c1) by (unfold reliable, c1; cbn; by rewrite Hrel).
  case_decide as Hsecret.
  - rewrite (IH _ c1 Hrel1 Hrest). rewrite elem_of_app, list_elem_of_singleton. split.
    + intros [[?| ->]|(e & d & He & Hrest')]; [by left| |].
      * right. exists env, dtc. split; [by left|done].
      * right. exists e, d. split; [by right|done].
    + intros [?|(e & d & He & Hn & Hd & Hs & ->)]; [by left; left|].
      apply elem_of_cons in He as [->|He]; [by left; right|].
      right. by exists e, d.
  - rewrite (IH _ c1 Hrel1 Hrest). split.
    + intros [?|(e & d & He & Hrest')]; [by left|]. right. exists e, d.
      split; [by right|done].
    + intros [?|(e & d & He & Hn & Hd & Hs & ->)]; [by left|].
      apply elem_of_cons in He as [->|He]; [|right; by exists e, d].
      rewrite Hdtc in Hd. injection Hd as <-. done.
Qed.

(** X10. For a secret of the opaque type, on a client whose calls all succeed
    and in a namespace where the claim of every claim-driven Environment
    exists, the secret mapper returns exactly the requests of the
    Environments of the secret's namespace whose claim leads, by the first
    matching DeploymentTarget of that namespace, to credentials that name the
    secret. An Environment whose claim has no matching target is compared with
    the empty DeploymentTarget, whose secret name is empty. *)
Theorem findObjectsForSecret_exact (secret : Secret) (c : Client) :
  secType secret = SecretTypeOpaque →
  reliable c →
  (∀ env, env ∈ environments (cluster c) →
          Namespace (envMeta env) = Namespace (secMeta secret) →
          GetDeploymentTargetClaimName env ≠ "" →
          is_Some (lookupObj (mkNamespacedName (Namespace (envMeta env))
                                (GetDeploymentTargetClaimName env))
                     (deploymentTargetClaims (cluster c)))) →
  ∀ req : Request,
    req ∈ (findObjectsForSecret secret c).1 ↔
    ∃ env dtc,
      env ∈ environments (cluster c)
      ∧ Namespace (envMeta env) = Namespace (secMeta secret)
      ∧ GetDeploymentTargetClaimName env ≠ ""
      ∧ lookupObj (mkNamespacedName (Namespace (envMeta env))
                     (GetDeploymentTargetClaimName env))
          (deploymentTargetClaims (cluster c)) = Some dtc
      ∧ match firstBound dtc (inNamespace (Namespace (secMeta secret))
                                (deploymentTargets (cluster c))) with
        | Some dt => ClusterCredentialsSecret (dtCredentials dt) = Name (secMeta secret)
        | None => Name (secMeta secret) = ""
        end
      ∧ req = objectKey env.
Proof.
  intros Htype Hrel Hclaims req. destruct c as [s sched cs].
  unfold reliable in Hrel. cbn [schedule cluster] in *. subst sched.
  unfold findObjectsForSecret. rewrite Htype.
  rewrite decide_False by (by intros [? _]).
  rewrite decide_False by done.
  rewrite bind_eq, k8sList_reliable. cbn [fst snd].
  rewrite bind_eq, k8sList_reliable. cbn [fst snd]. cluster_simpl.
  rewrite findObjectsForSecret_envs_elem; [|done|].
  2:{ intros env Hin Hn. apply elem_of_inNamespace in Hin as [Hin Hns].
      by apply Hclaims. }
  cbn [cluster]. split.
  - intros [Hnil|(env & dtc & Hin & Hn & Hd & Hs & ->)]; [by apply elem_of_nil in Hnil|].
    apply elem_of_inNamespace in Hin as [Hin Hns].
    exists env, dtc. repeat split; try done.
    destruct (firstBound dtc _); [done|]. by rewrite <- Hs.
  - intros (env & dtc & Hin & Hns & Hn & Hd & Hs & ->). right.
    exists env, dtc. split; [by apply elem_of_inNamespace|].
    repeat split; try done.
    destruct (firstBound dtc _); [done|]. by rewrite Hs.
Qed.

(** X11. The managed secret leads back to its Environment: once the generator
    has mirrored the source secret of a claim-driven Environment into a new
    managed secret, the secret mapper sends the stored managed secret to the
    request of that Environment, without a call to the cluster. *)
Theorem managed_secret_maps_back (env : Environment) (c : Client)
    (dtc : DeploymentTargetClaim) (dt : DeploymentTarget) (secret : Secret) :
  reliable c →
  lookupObj (objectKey env) (environments (cluster c)) = Some env →
  Name (envMeta env) ≠ "" →
  GetDeploymentTargetClaimName env ≠ "" →
  lookupObj (mkNamespacedName (Namespace (envMeta env)) (GetDeploymentTargetClaimName env))
    (deploymentTargetClaims (cluster c)) = Some dtc →
  dtcPhase dtc = DeploymentTargetClaimPhase_Bound →
  resolveTarget dtc (inNamespace (Namespace (envMeta env)) (deploymentTargets (cluster c)))
  = Some dt →
  lookupObj (mkNamespacedName (Namespace (envMeta env))
               (ClusterCredentialsSecret (dtCredentials dt)))
    (secrets (cluster c)) = Some secret →
  secType secret ≠ ManagedEnvironmentSecretType →
  lookupObj (mkNamespacedName (Namespace (envMeta env))
               ("managed-environment-secret-" +:+ Name (envMeta env)))
    (secrets (cluster c)) = None →
  ∃ managed,
    lookupObj (mkNamespacedName (Namespace (envMeta env))
                 ("managed-environment-secret-" +:+ Name (envMeta env)))
      (secrets (cluster (generateDesiredResource env c).2)) = Some managed
    ∧ secData managed = secData secret
    ∧ ∀ c', findObjectsForSecret managed c' = ([objectKey env], c').
Proof.
  intros Hrel Hsync Hname Hclaim Hdtc Hphase Hdt Hsecret Htype Habsent.
  change ("managed-environment-secret-" +:+ Name (envMeta env))
    with (generateManagedEnvSecretName (Name (envMeta env))) in *.
  destruct c as [s sched cs]. unfold reliable in Hrel. cbn [schedule cluster] in *.
  subst sched.
  rewrite (generateDesiredResource_claim_found env dtc dt secret) by done. cbv zeta.
  rewrite bool_decide_true by done. cbn [fst snd cluster]. frame_simpl.
  destruct (mirrorSecret_managed env secret s) as (managed & Hl & Hdata & Hnew).
  unfold managedSecretKey in Hl, Hnew. rewrite Habsent in Hnew. subst managed.
  exists (managedSecretOf env (secData secret)). split; [exact Hl|]. split; [done|].
  intros c'. unfold findObjectsForSecret. cbn [managedSecretOf secType secMeta Labels].
  rewrite decide_False by (by intros [_ ?]).
  rewrite decide_True by done. rewrite lookup_singleton_eq. cbn [default].
  by rewrite decide_True by done.
Qed.

(** X12. findCondition returns the first condition of the given type: when it
    reports one, that condition has the type, is in the list, and no
    condition before it has the type; it reports none exactly when no
    condition of the list has the type, and then returns the zero condition. *)
Theorem findCondition_first (conditions : list Condition) (conditionType : string) :
  match findCondition conditions conditionType with
  | (cond, true) =>
      ∃ before after,
        conditions = before ++ cond :: after
        ∧ condType cond = conditionType
        ∧ Forall (λ x, condType x ≠ conditionType) before
  | (cond, false) =>
      Forall (λ x, condType x ≠ conditionType) conditions
      ∧ cond = mkCondition "" "" ConditionUnknown ""
  end.
Proof.
  induction conditions as [|x l IH]; cbn [findCondition]; [done|].
  case_decide as Hx.
  - exists [], l. by repeat split.
  - destruct (findCondition l conditionType) as [cond []].
    + destruct IH as (before & after & -> & Hc & Hb).
      exists (x :: before), after. repeat split; [done|]. by constructor.
    + destruct IH as [Hall ->]. split; [by constructor|done].
Qed.

(** * Reconcile on a reliable client, outcome by outcome *)

Lemma writeCalls_statusCalls b key : writeCalls (statusCalls b key) = [].
Proof. apply writeCalls_readOrStatus, Forall_statusCalls. Qed.

Lemma writeCalls_readEvents req : writeCalls (readEvents req) = [].
Proof. done. Qed.

(** X13. A claim-driven Environment whose DeploymentTargetClaim does not
    exist: Reconcile upserts the error condition with the message
    "DeploymentTargetClaim not found while generating the desired Environment
    resource" on the Environment and ends with success and no requeue; it
    creates, updates and deletes nothing. *)
Theorem Reconcile_claim_not_found (req : Request) (c : Client)
    (environment : Environment) :
  reliable c → namespaceActive (nnNamespace req) (cluster c) →
  lookupObj req (environments (cluster c)) = Some environment →
  GetDeploymentTargetClaimName environment ≠ "" →
  UnstableConfigurationFields (envSpec environment) = None →
  lookupObj (mkNamespacedName (Namespace (envMeta environment))
               (GetDeploymentTargetClaimName environment))
    (deploymentTargetClaims (cluster c)) = None →
  let raised :=
    {| condType := "ErrorOccurred";
       condMessage := "DeploymentTargetClaim not found while generating the desired Environment resource";
       condStatus := ConditionTrue; condReason := "ErrorOccurred" |} in
  let conds := (insertOrUpdateConditionsInSlice raised (envConditions environment)).2 in
  let c' := (Reconcile req c).2 in
  (Reconcile req c).1 = (noRequeue, None)
  ∧ lookupObj req (environments (cluster c'))
    = Some (mkEnvironment (envAPIVersion environment) (envKind environment)
              (envMeta environment) (envSpec environment) conds)
  ∧ findCondition conds "ErrorOccurred" = (raised, true)
  ∧ managedEnvironments (cluster c') = managedEnvironments (cluster c)
  ∧ secrets (cluster c') = secrets (cluster c)
  ∧ writeCalls (newCalls c c') = [].
Proof.
  intros Hrel Hns Henv Hclaim Hucf Hdtc raised conds c'. subst conds c'.
  destruct c as [s sched cs]. unfold reliable in Hrel. cbn [schedule cluster] in *.
  subst sched.
  rewrite (Reconcile_claim_missing req environment s cs Hns Henv Hclaim Hucf Hdtc).
  cbn [fst snd cluster]. frame_simpl. split; [done|]. split.
  { by apply (lookupObj_withEnvironment_stored _ environment). }
  split; [apply (findCondition_insertOrUpdate raised)|].
  split; [done|]. split; [done|].
  erewrite newCalls_app.
  2:{ cbn [calls]. rewrite app_comm_cons, !app_assoc. reflexivity. }
  apply writeCalls_readOrStatus. solve_reads.
Qed.




(** X15. A claim-driven Environment whose bound DeploymentTargetClaim matches
    no DeploymentTarget of the namespace: Reconcile upserts the error
    condition with the message "DeploymentTarget not found for
    DeploymentTargetClaim" and ends with success and no requeue; it creates,
    updates and deletes nothing. *)
Theorem Reconcile_target_not_found (req : Request) (c : Client)
    (environment : Environment) (dtc : DeploymentTargetClaim) :
  reliable c → namespaceActive (nnNamespace req) (cluster c) →
  lookupObj req (environments (cluster c)) = Some environment →
  GetDeploymentTargetClaimName environment ≠ "" →
  UnstableConfigurationFields (envSpec environment) = None →
  lookupObj (mkNamespacedName (Namespace (envMeta environment))
               (GetDeploymentTargetClaimName environment))
    (deploymentTargetClaims (cluster c)) = Some dtc →
  dtcPhase dtc = DeploymentTargetClaimPhase_Bound →
  resolveTarget dtc (inNamespace (Namespace (envMeta environment))
                    (deploymentTargets (cluster c))) = None →
  let raised :=
    {| condType := "ErrorOccurred";
       condMessage := "DeploymentTarget not found for DeploymentTargetClaim";
       condStatus := ConditionTrue; condReason := "ErrorOccurred" |} in
  let conds := (insertOrUpdateConditionsInSlice raised (envConditions environment)).2 in
  let c' := (Reconcile req c).2 in
  (Reconcile req c).1 = (noRequeue, None)
  ∧ lookupObj req (environments (cluster c'))
    = Some (mkEnvironment (envAPIVersion environment) (envKind environment)
              (envMeta environment) (envSpec environment) conds)
  ∧ findCondition conds "ErrorOccurred" = (raised, true)
  ∧ managedEnvironments (cluster c') = managedEnvironments (cluster c)
  ∧ secrets (cluster c') = secrets (cluster c)
  ∧ writeCalls (newCalls c c') = [].
Proof.
  intros Hrel Hns Henv Hclaim Hucf Hdtc Hphase Hdt raised conds c'. subst conds c'.
  destruct c as [s sched cs]. unfold reliable in Hrel. cbn [schedule cluster] in *.
  subst sched.
  rewrite (Reconcile_target_missing req environment s cs Hns Henv dtc
             Hclaim Hucf Hdtc Hphase Hdt).
  cbn [fst snd cluster]. frame_simpl. split; [done|]. split.
  { by apply (lookupObj_withEnvironment_stored _ environment). }
  split; [apply (findCondition_insertOrUpdate raised)|].
  split; [done|]. split; [done|].
  erewrite newCalls_app.
  2:{ cbn [calls]. rewrite !app_comm_cons, !app_assoc. reflexivity. }
  apply writeCalls_readOrStatus. solve_reads.
Qed.


(** The generator when the credentials resolve and their secret exists. *)
Lemma generateDesiredResource_found env credentials secret s cs :
  lookupObj (objectKey env) (environments s) = Some env →
  resolvedCredentials env s credentials →
  lookupObj (credentialSecretKey env credentials) (secrets s) = Some secret →
  let mirror := bool_decide (GetDeploymentTargetClaimName env ≠ ""
                             ∧ secType secret ≠ ManagedEnvironmentSecretType) in
  let s1 := if mirror then (mirrorSecret env secret s).1 else s in
  let evs := if mirror then (mirrorSecret env secret s).2 else [] in
  let name := if mirror then managedSecretName env
              else ClusterCredentialsSecret credentials in
  let env' := withConditions env (resolvedConditions (envConditions env)) in
  ∃ reads1 reads2,
    generateDesiredResource env (mkClient s [] cs) =
      ((Some (desiredManagedEnvironment env (desiredSpec env credentials name)),
        false, None),
       mkClient (withEnvironment env' s1) [] (reads1 ++ evs ++ reads2 ++ cs))
    ∧ Forall readOrStatus reads1 ∧ Forall readOrStatus reads2.
Proof.
  intros Hsync Hcred Hsecret.
  destruct Hcred as [(Hclaim & ucf & Hucf & ->)|(Hclaim & dtc & dt & Hdtc & Hphase & Hdt & ->)].
  - rewrite bool_decide_false by (intros [Hn _]; by apply Hn). cbv zeta.
    rewrite (generateDesiredResource_inline_found env ucf secret) by done.
    exists (statusCalls (needsResolve EnvironmentReasonErrorOccurred (envConditions env))
              (objectKey env)),
           [mkEvent VGet KSecret (credentialSecretKey env (ucfCredentials ucf)) None].
    split; [done|]. split; solve_readOrStatus.
  - rewrite (generateDesiredResource_claim_found env dtc dt secret) by done. cbv zeta.
    rewrite (bool_decide_ext (GetDeploymentTargetClaimName env ≠ ""
                              ∧ secType secret ≠ ManagedEnvironmentSecretType)
               (secType secret ≠ ManagedEnvironmentSecretType)) by tauto.
    exists [],
      (mkEvent VGet KSecret (credentialSecretKey env (dtCredentials dt)) None
       :: mkEvent VList KDeploymentTarget
            (mkNamespacedName (Namespace (envMeta env)) "") None
       :: statusCalls (needsResolve EnvironmentReasonErrorOccurred (envConditions env))
            (objectKey env)
       ++ [mkEvent VGet KDeploymentTargetClaim
             (mkNamespacedName (Namespace (envMeta env))
                (GetDeploymentTargetClaimName env)) None]).
    split; [|split; solve_readOrStatus].
    cbn [app]. do 5 f_equal. by rewrite <- app_assoc.
Qed.

(** Reconcile when the credentials resolve and their secret exists. *)
Lemma Reconcile_found (req : Request) environment credentials secret s cs :
  namespaceActive (nnNamespace req) s →
  lookupObj req (environments s) = Some environment →
  ¬ (GetDeploymentTargetClaimName environment ≠ ""
     ∧ UnstableConfigurationFields (envSpec environment) ≠ None) →
  resolvedCredentials environment s credentials →
  lookupObj (credentialSecretKey environment credentials) (secrets s) = Some secret →
  let mirror := bool_decide (GetDeploymentTargetClaimName environment ≠ ""
                             ∧ secType secret ≠ ManagedEnvironmentSecretType) in
  let s1 := if mirror then (mirrorSecret environment secret s).1 else s in
  let name := if mirror then managedSecretName environment
              else ClusterCredentialsSecret credentials in
  let env' := withConditions environment (resolvedConditions (envConditions environment)) in
  let desired :=
    desiredManagedEnvironment environment (desiredSpec environment credentials name) in
  let applied :=
    applyManagedEnvironment
      (needsResolve EnvironmentReasonErrorOccurred (envConditions environment))
      req desired (withEnvironment env' s1) in
  ∃ new, Reconcile req (mkClient s [] cs)
         = ((noRequeue, None), mkClient applied.1 [] (new ++ cs)).
Proof.
  intros Hns Henv Hboth Hcred Hsecret.
  pose proof (lookupObj_key _ _ _ Henv) as Hkey.
  destruct (generateDesiredResource_found environment credentials secret s
              (readEvents req ++ cs)) as (reads1 & reads2 & Hgen & _);
    [by rewrite Hkey|done..|].
  cbv zeta in Hgen |- *.
  set (mirror := bool_decide _) in *.
  set (evs := if mirror then (mirrorSecret environment secret s).2 else []) in *.
  set (s1 := if mirror then (mirrorSecret environment secret s).1 else s) in *.
  set (desired := desiredManagedEnvironment _ _) in *.
  set (env' := withConditions _ _) in *.
  rewrite (Reconcile_desired req environment desired s cs _ _ Hns Henv Hboth Hgen).
  - cbv zeta.
    set (applied := applyManagedEnvironment _ _ _ _).
    exists (applied.2 ++ reads1 ++ evs ++ reads2 ++ readEvents req).
    by rewrite <- !app_assoc.
  - apply (lookupObj_withEnvironment_stored _ environment); [|done].
    subst s1. destruct mirror; [|done]. by rewrite environments_mirrorSecret.
  - unfold managedEnvironmentKey. by rewrite <- Hkey.
Qed.

(** X17. Applying the desired state: when the credentials of the Environment
    resolve and their secret exists, Reconcile on a reliable client ends with
    success and creates the desired ManagedEnvironment when none is stored
    under "managed-environment-<name>"; when one is stored it leaves the
    ManagedEnvironments as they are if the stored spec equals the desired one,
    and otherwise replaces the spec of the stored object, keeping its
    metadata. *)
Theorem Reconcile_applies_desired_state (req : Request) (c : Client)
    (environment : Environment) (credentials : KubernetesClusterCredentials)
    (secret : Secret) :
  reliable c → namespaceActive (nnNamespace req) (cluster c) →
  lookupObj req (environments (cluster c)) = Some environment →
  ¬ (GetDeploymentTargetClaimName environment ≠ ""
     ∧ UnstableConfigurationFields (envSpec environment) ≠ None) →
  resolvedCredentials environment (cluster c) credentials →
  lookupObj (mkNamespacedName (Namespace (envMeta environment))
               (ClusterCredentialsSecret credentials))
    (secrets (cluster c)) = Some secret →
  let name :=
    if bool_decide (GetDeploymentTargetClaimName environment ≠ ""
                    ∧ secType secret ≠ ManagedEnvironmentSecretType)
    then "managed-environment-secret-" +:+ Name (envMeta environment)
    else ClusterCredentialsSecret credentials in
  let spec := desiredSpec environment credentials name in
  let managed := managedEnvironments (cluster c) in
  let managed' := managedEnvironments (cluster (Reconcile req c).2) in
  (Reconcile req c).1 = (noRequeue, None)
  ∧ match lookupObj (mkNamespacedName (nnNamespace req)
                      ("managed-environment-" +:+ nnName req)) managed with
    | None => managed' = managed ++ [desiredManagedEnvironment environment spec]
    | Some current =>
        if decide (meSpec current = spec) then managed' = managed
        else managed' = replaceObj (mkManagedEnvironment (meMeta current) spec) managed
    end.
Proof.
  intros Hrel Hns Henv Hboth Hcred Hsecret name spec managed managed'.
  subst name spec managed managed'.
  change ("managed-environment-secret-" +:+ Name (envMeta environment))
    with (generateManagedEnvSecretName (Name (envMeta environment))).
  destruct c as [s sched cs]. unfold reliable in Hrel. cbn [schedule cluster] in *.
  subst sched.
  destruct (Reconcile_found req environment credentials secret s cs)
    as (new & Hrun); [done..|].
  cbv zeta in Hrun. rewrite Hrun. cbn [fst snd cluster]. split; [done|].
  change (mkNamespacedName (nnNamespace req) ("managed-environment-" +:+ nnName req))
    with (managedEnvironmentKey req).
  unfold managedSecretName. unfold applyManagedEnvironment. frame_simpl.
  assert (Hmanaged : ∀ b : bool,
            managedEnvironments (if b then (mirrorSecret environment secret s).1 else s)
            = managedEnvironments s).
  { intros [|]; [apply managedEnvironments_mirrorSecret|done]. }
  rewrite !Hmanaged.
  destruct (lookupObj (managedEnvironmentKey req) (managedEnvironments s)) as [current|].
  - cbn [meSpec desiredManagedEnvironment].
    destruct (decide (meSpec current = _)); cbn [fst]; cluster_simpl; frame_simpl;
      by rewrite ?Hmanaged.
  - cbn [fst]. cluster_simpl. frame_simpl. by rewrite ?Hmanaged.
Qed.

(** X18. A claim-driven Environment whose claim is bound to a
    DeploymentTarget and whose source secret exists and is not of the
    managed-environment type: one Reconcile on a reliable client ends with
    success and leaves, under "managed-environment-<name>", a
    ManagedEnvironment with the API URL and the TLS flag of the target's
    credentials, no cluster resources and no namespaces, that refers to the
    secret "managed-environment-secret-<name>", and that secret holds the data
    of the source secret. *)
Theorem Reconcile_claim_credentials (req : Request) (c : Client)
    (environment : Environment) (dtc : DeploymentTargetClaim) (dt : DeploymentTarget)
    (secret : Secret) :
  reliable c → namespaceActive (nnNamespace req) (cluster c) →
  lookupObj req (environments (cluster c)) = Some environment →
  GetDeploymentTargetClaimName environment ≠ "" →
  UnstableConfigurationFields (envSpec environment) = None →
  lookupObj (mkNamespacedName (Namespace (envMeta environment))
               (GetDeploymentTargetClaimName environment))
    (deploymentTargetClaims (cluster c)) = Some dtc →
  dtcPhase dtc = DeploymentTargetClaimPhase_Bound →
  resolveTarget dtc (inNamespace (Namespace (envMeta environment))
                    (deploymentTargets (cluster c))) = Some dt →
  lookupObj (mkNamespacedName (Namespace (envMeta environment))
               (ClusterCredentialsSecret (dtCredentials dt)))
    (secrets (cluster c)) = Some secret →
  secType secret ≠ ManagedEnvironmentSecretType →
  let c' := (Reconcile req c).2 in
  (Reconcile req c).1 = (noRequeue, None)
  ∧ ∃ managedEnv managedSecret,
      lookupObj (mkNamespacedName (nnNamespace req) ("managed-environment-" +:+ nnName req))
        (managedEnvironments (cluster c')) = Some managedEnv
      ∧ meSpec managedEnv =
          {| meAPIURL := APIURL (dtCredentials dt);
             meClusterCredentialsSecret :=
               "managed-environment-secret-" +:+ Name (envMeta environment);
             meAllowInsecureSkipTLSVerify := AllowInsecureSkipTLSVerify (dtCredentials dt);
             meClusterResources := false;
             meNamespaces := [] |}
      ∧ lookupObj (mkNamespacedName (nnNamespace req)
                     ("managed-environment-secret-" +:+ nnName req))
          (secrets (cluster c')) = Some managedSecret
      ∧ secData managedSecret = secData secret.
Proof.
  intros Hrel Hns Henv Hclaim Hucf Hdtc Hphase Hdt Hsecret Htype c'. subst c'.
  destruct c as [s sched cs]. unfold reliable in Hrel. cbn [schedule cluster] in *.
  subst sched.
  pose proof (lookupObj_key _ _ _ Henv) as Hkey.
  destruct (Reconcile_found req environment (dtCredentials dt) secret s cs)
    as (new & Hrun); [done|done|by rewrite Hucf; intros [_ ?]| |done|].
  { right. split; [done|]. by exists dtc, dt. }
  cbv zeta in Hrun. rewrite bool_decide_true in Hrun by done.
  rewrite Hrun. cbn [fst snd cluster]. split; [done|].
  set (desired := desiredManagedEnvironment _ _).
  set (sg := withEnvironment _ _).
  destruct (applyManagedEnvironment_current
              (needsResolve EnvironmentReasonErrorOccurred (envConditions environment))
              req desired sg) as (current & Hcurrent & Hspec).
  { unfold managedEnvironmentKey. by rewrite <- Hkey. }
  destruct (unapplied_applyManagedEnvironment
              (needsResolve EnvironmentReasonErrorOccurred (envConditions environment))
              req desired sg) as (_ & _ & Hsecrets & _).
  destruct (mirrorSecret_managed environment secret s) as (managed & Hl & Hdata & _).
  exists current, managed. split; [exact Hcurrent|]. split.
  { rewrite Hspec. subst desired. unfold desiredSpec, managedSecretName.
    cbn [meSpec desiredManagedEnvironment]. by rewrite Hucf. }
  split; [|done]. rewrite Hsecrets. subst sg. frame_simpl.
  unfold managedSecretKey in Hl. rewrite <- Hl. f_equal. by rewrite <- Hkey.
Qed.

(** X19. Mirroring is for claim-driven Environments and source secrets that
    are not of the managed-environment type only: for inline credentials, and
    for a source secret that already is of the managed-environment type, the
    generator on a reliable client writes no secret, issues no create, update
    or delete call, and returns a desired spec that refers to the source
    secret by its own name. *)
Theorem generateDesiredResource_does_not_mirror (env : Environment) (c : Client)
    (credentials : KubernetesClusterCredentials) (secret : Secret) :
  reliable c →
  lookupObj (objectKey env) (environments (cluster c)) = Some env →
  resolvedCredentials env (cluster c) credentials →
  lookupObj (mkNamespacedName (Namespace (envMeta env))
               (ClusterCredentialsSecret credentials))
    (secrets (cluster c)) = Some secret →
  GetDeploymentTargetClaimName env = "" ∨ secType secret = ManagedEnvironmentSecretType →
  let generated := generateDesiredResource env c in
  secrets (cluster generated.2) = secrets (cluster c)
  ∧ writeCalls (newCalls c generated.2) = []
  ∧ ∃ desired,
      generated.1 = (Some desired, false, None)
      ∧ meClusterCredentialsSecret (meSpec desired) = ClusterCredentialsSecret credentials.
Proof.
  intros Hrel Hsync Hcred Hsecret Hno generated. subst generated.
  destruct c as [s sched cs]. unfold reliable in Hrel. cbn [schedule cluster] in *.
  subst sched.
  destruct (generateDesiredResource_found env credentials secret s cs)
    as (reads1 & reads2 & Hgen & Hr1 & Hr2); [done..|].
  cbv zeta in Hgen. rewrite bool_decide_false in Hgen by (intros [? ?]; by destruct Hno).
  rewrite Hgen. cbn [fst snd cluster]. frame_simpl. split; [done|]. split.
  - rewrite (newCalls_app _ _ (reads1 ++ reads2)).
    + apply writeCalls_readOrStatus. by apply Forall_app.
    + cbn [calls app]. by rewrite <- app_assoc.
  - eexists. split; [done|]. done.
Qed.

(** * What is never deleted, and the status write *)

Lemma keepsManaged_refl : Reflexive keepsManaged.
Proof. by intros c k. Qed.

Lemma keepsManaged_trans : Transitive keepsManaged.
Proof. intros c1 c2 c3 H1 H2 k Hk. by apply H2, H1. Qed.

Lemma generatorFrame_keepsManaged req c c' : generatorFrame req c c' → keepsManaged c c'.
Proof. intros (_ & _ & _ & Hm & _) k. by rewrite Hm. Qed.

Lemma keepsManaged_k8sCreate (o : GitOpsDeploymentManagedEnvironment) :
  keeps keepsManaged (k8sCreate o) (λ _, True).
Proof.
  intros c. split; [|done]. rewrite k8sCreate_eq.
  destruct (scheduled 0 (schedule c)); [by intros k|].
  destruct (lookupObj _ _); [by intros k|].
  intros k Hk. cluster_simpl. rewrite lookupObj_app. by destruct Hk as [x ->].
Qed.

Lemma keepsManaged_k8sUpdate (o : GitOpsDeploymentManagedEnvironment) :
  keeps keepsManaged (k8sUpdate o) (λ _, True).
Proof.
  intros c. split; [|done]. rewrite k8sUpdate_eq.
  destruct (scheduled 0 (schedule c)); [by intros k|].
  destruct (lookupObj _ _); [|by intros k].
  intros k Hk. cluster_simpl. rewrite lookupObj_replaceObj.
  case_decide; [|done]. by destruct Hk as [x ->].
Qed.

Lemma reads_isRequestNamespaceBeingDeleted ns :
  keeps readOnly (isRequestNamespaceBeingDeleted ns) (λ _, True).
Proof. unfold isRequestNamespaceBeingDeleted. repeat reads_step. Qed.

Ltac managed_call req :=
  first
    [ eapply keeps_weaken;
      [ first [ frame_call req
              | apply (keeps_generateDesiredResource req); solve [key_solve] ]
      | apply generatorFrame_keepsManaged
      | intros ? HQ; exact HQ ]
    | apply keepsManaged_k8sCreate
    | apply keepsManaged_k8sUpdate ].

Ltac managed_step req :=
  lazymatch goal with
  | |- keeps _ (ret _) _ => apply keeps_ret; [apply keepsManaged_refl|]
  | |- keeps _ (bind _ _) _ =>
      eapply keeps_bind; [apply keepsManaged_trans|managed_call req|intros ? ?]
  | |- keeps _ (match ?x with _ => _ end) _ =>
      first [is_var x; destruct x | destruct x eqn:?]; cbn [fst snd] in *
  end.

(** X20. Reconcile never deletes the ManagedEnvironment of an Environment
    that exists: whatever the fault schedule, when the Environment of the
    request is stored, every ManagedEnvironment stored before the
    reconciliation is still stored after it. *)
Theorem Reconcile_keeps_managed_environment (req : Request) (c : Client) :
  is_Some (lookupObj req (environments (cluster c))) →
  ∀ k, is_Some (lookupObj k (managedEnvironments (cluster c))) →
       is_Some (lookupObj k (managedEnvironments (cluster (Reconcile req c).2))).
Proof.
  intros [environment Henv] k Hk. unfold Reconcile. rewrite bind_eq.
  destruct (reads_isRequestNamespaceBeingDeleted (nnNamespace req) c) as [[Hc1 _] _].
  destruct (isRequestNamespaceBeingDeleted (nnNamespace req) c) as [[b err] c1].
  cbn [fst snd] in *. case_decide; [rewrite ret_eq; cbn [snd]; by rewrite Hc1|].
  cbv zeta. rewrite bind_eq, k8sGet_eq.
  change (objectKey (mkEnvironment "" "" (namedMeta (nnName req) (nnNamespace req))
                       (mkEnvironmentSpec "" None) []))
    with (mkNamespacedName (nnNamespace req) (nnName req)).
  replace (mkNamespacedName (nnNamespace req) (nnName req)) with req by (by destruct req).
  destruct (scheduled 0 (schedule c1)); cbn [fst snd IsNotFound negb].
  { rewrite ret_eq. cbn [snd]. cluster_simpl. by rewrite Hc1. }
  cluster_simpl. rewrite Hc1, Henv. cbn [fst snd].
  pose proof (lookupObj_key _ _ _ Henv) as Hkey.
  lazymatch goal with
  | |- is_Some (lookupObj _ (managedEnvironments (cluster (?body ?c2).2))) =>
      assert (Hbody : keeps keepsManaged body (λ _, True));
      [|destruct (Hbody c2) as [Hkeep _]; apply Hkeep]
  end.
  - repeat managed_step req; done.
  - cluster_simpl. by rewrite ?Hc1.
Qed.

(** X21. updateStatusConditionOfEnvironment writes the status exactly when
    the upsert reports a change, with one status write on the Environment,
    and returns the error of that write; the Environment it leaves in memory
    carries the upserted conditions whether the write succeeded or not, and a
    failed write leaves the cluster as it is. *)
Theorem updateStatusConditionOfEnvironment_outcome (message : string)
    (environment : Environment) (conditionType : string) (status : ConditionStatus)
    (reason : string) (c : Client) :
  let upserted :=
    insertOrUpdateConditionsInSlice (mkCondition conditionType message status reason)
      (envConditions environment) in
  let r := updateStatusConditionOfEnvironment message environment conditionType
             status reason c in
  if upserted.1 then
    envConditions r.1.2 = upserted.2
    ∧ calls r.2
      = mkEvent VStatusUpdate KEnvironment (objectKey environment) r.1.1 :: calls c
    ∧ (is_Some r.1.1 → cluster r.2 = cluster c)
    ∧ (r.1.1 = None →
       lookupObj (objectKey environment) (environments (cluster r.2)) = Some r.1.2)
  else r = ((None, environment), c).
Proof.
  intros upserted r. subst r. rewrite updateStatusConditionOfEnvironment_eq. cbv zeta.
  fold upserted. destruct upserted.1; [|done].
  rewrite k8sStatusUpdate_eq.
  change (objectKey (withConditions environment upserted.2)) with (objectKey environment).
  destruct (scheduled 0 (schedule c)); [by repeat split|].
  destruct (lookupObj (objectKey environment) (environments (cluster c)))
    as [stored|] eqn:Hl; [|by repeat split].
  cbv zeta. cbn [fst snd calls logged cluster]. split; [done|]. split; [done|].
  split; [by intros [? ?]|]. intros _. cluster_simpl.
  pose proof (lookupObj_key _ _ _ Hl) as Hk.
  assert (Hk' : objectKey (withConditions stored upserted.2) = objectKey environment)
    by (by rewrite objectKey_withConditions).
  cbn [envConditions withConditions]. rewrite <- Hk'. eapply lookupObj_replaceObj_eq. rewrite Hk'. done.
Qed.

(** * The further properties at the sample clusters *)

Lemma Reconcile_isolated_witness :
  stagingRequest ≠ prodRequest
  ∧ lookupObj stagingRequest (environments (cluster (Reconcile prodRequest sampleClient).2))
    = lookupObj stagingRequest (environments (cluster sampleClient)).
Proof.
  assert (H : stagingRequest ≠ prodRequest) by discriminate.
  split; [exact H|].
  exact (proj1 (Reconcile_isolated prodRequest stagingRequest sampleClient H)).
Defined.

Lemma generateDesiredResource_maps_back_witness :
  let desired :=
    desiredManagedEnvironment stagingEnvironment
      (desiredSpec stagingEnvironment sampleCredentials "staging-creds") in
  (generateDesiredResource stagingEnvironment sampleClient).1.1.1 = Some desired
  ∧ findObjectsForGitOpsDeploymentManagedEnvironment desired = [stagingRequest].
Proof.
  intros desired.
  assert (H : (generateDesiredResource stagingEnvironment sampleClient).1.1.1
              = Some desired) by (vm_compute; reflexivity).
  split; [exact H|].
  exact (generateDesiredResource_maps_back stagingEnvironment sampleClient desired H).
Defined.

Lemma findObjectsForSecret_exact_witness :
  (secType spaceSecret = SecretTypeOpaque
   ∧ reliable sampleClient
   ∧ (∀ env, env ∈ environments (cluster sampleClient) →
             Namespace (envMeta env) = Namespace (secMeta spaceSecret) →
             GetDeploymentTargetClaimName env ≠ "" →
             is_Some (lookupObj (mkNamespacedName (Namespace (envMeta env))
                                   (GetDeploymentTargetClaimName env))
                        (deploymentTargetClaims (cluster sampleClient)))))
  ∧ (prodRequest ∈ (findObjectsForSecret spaceSecret sampleClient).1 ↔
     ∃ env dtc,
       env ∈ environments (cluster sampleClient)
       ∧ Namespace (envMeta env) = Namespace (secMeta spaceSecret)
       ∧ GetDeploymentTargetClaimName env ≠ ""
       ∧ lookupObj (mkNamespacedName (Namespace (envMeta env))
                      (GetDeploymentTargetClaimName env))
           (deploymentTargetClaims (cluster sampleClient)) = Some dtc
       ∧ match firstBound dtc (inNamespace (Namespace (secMeta spaceSecret))
                                 (deploymentTargets (cluster sampleClient))) with
         | Some dt => ClusterCredentialsSecret (dtCredentials dt) = Name (secMeta spaceSecret)
         | None => Name (secMeta spaceSecret) = ""
         end
       ∧ prodRequest = objectKey env).
Proof.
  assert (H1 : secType spaceSecret = SecretTypeOpaque) by reflexivity.
  assert (H2 : reliable sampleClient) by reflexivity.
  assert (H3 : ∀ env, env ∈ environments (cluster sampleClient) →
             Namespace (envMeta env) = Namespace (secMeta spaceSecret) →
             GetDeploymentTargetClaimName env ≠ "" →
             is_Some (lookupObj (mkNamespacedName (Namespace (envMeta env))
                                   (GetDeploymentTargetClaimName env))
                        (deploymentTargetClaims (cluster sampleClient)))).
  { intros env Hin _ Hclaim. cbn [sampleClient cluster sampleCluster environments] in Hin.
    repeat (apply elem_of_cons in Hin as [->|Hin]);
      [by destruct Hclaim|by eexists|by eexists|by eexists|by destruct Hclaim|].
    by apply elem_of_nil in Hin. }
  split; [by repeat split|].
  exact (findObjectsForSecret_exact spaceSecret sampleClient H1 H2 H3 prodRequest).
Defined.

Lemma managed_secret_maps_back_witness :
  (reliable sampleClient
   ∧ lookupObj (objectKey prodEnvironment) (environments (cluster sampleClient))
     = Some prodEnvironment
   ∧ Name (envMeta prodEnvironment) ≠ ""
   ∧ GetDeploymentTargetClaimName prodEnvironment ≠ ""
   ∧ lookupObj (mkNamespacedName "team-a" "prod-claim")
       (deploymentTargetClaims (cluster sampleClient)) = Some prodClaim
   ∧ dtcPhase prodClaim = DeploymentTargetClaimPhase_Bound
   ∧ resolveTarget prodClaim (inNamespace "team-a" (deploymentTargets (cluster sampleClient)))
     = Some prodTarget
   ∧ lookupObj (mkNamespacedName "team-a" "space-creds") (secrets (cluster sampleClient))
     = Some spaceSecret
   ∧ secType spaceSecret ≠ ManagedEnvironmentSecretType
   ∧ lookupObj (mkNamespacedName "team-a" "managed-environment-secret-prod")
       (secrets (cluster sampleClient)) = None)
  ∧ ∃ managed,
      lookupObj (mkNamespacedName "team-a" "managed-environment-secret-prod")
        (secrets (cluster (generateDesiredResource prodEnvironment sampleClient).2))
      = Some managed
      ∧ secData managed = secData spaceSecret
      ∧ ∀ c', findObjectsForSecret managed c' = ([prodRequest], c').
Proof.
  assert (H1 : reliable sampleClient) by reflexivity.
  assert (H2 : lookupObj (objectKey prodEnvironment) (environments (cluster sampleClient))
               = Some prodEnvironment) by reflexivity.
  assert (H3 : Name (envMeta prodEnvironment) ≠ "") by discriminate.
  assert (H4 : GetDeploymentTargetClaimName prodEnvironment ≠ "") by discriminate.
  assert (H5 : lookupObj (mkNamespacedName "team-a" "prod-claim")
                 (deploymentTargetClaims (cluster sampleClient)) = Some prodClaim)
    by reflexivity.
  assert (H6 : dtcPhase prodClaim = DeploymentTargetClaimPhase_Bound) by reflexivity.
  assert (H7 : resolveTarget prodClaim
                 (inNamespace "team-a" (deploymentTargets (cluster sampleClient)))
               = Some prodTarget) by reflexivity.
  assert (H8 : lookupObj (mkNamespacedName "team-a" "space-creds")
                 (secrets (cluster sampleClient)) = Some spaceSecret) by reflexivity.
  assert (H9 : secType spaceSecret ≠ ManagedEnvironmentSecretType) by discriminate.
  assert (H10 : lookupObj (mkNamespacedName "team-a" "managed-environment-secret-prod")
                  (secrets (cluster sampleClient)) = None) by reflexivity.
  split; [by repeat split|].
  exact (managed_secret_maps_back prodEnvironment sampleClient prodClaim prodTarget
           spaceSecret H1 H2 H3 H4 H5 H6 H7 H8 H9 H10).
Defined.

Lemma Reconcile_claim_not_found_witness :
  (reliable danglingClient
   ∧ namespaceActive (nnNamespace danglingRequest) (cluster danglingClient)
   ∧ lookupObj danglingRequest (environments (cluster danglingClient))
     = Some danglingEnvironment
   ∧ GetDeploymentTargetClaimName danglingEnvironment ≠ ""
   ∧ UnstableConfigurationFields (envSpec danglingEnvironment) = None
   ∧ lookupObj (mkNamespacedName "team-a" "no-such-claim")
       (deploymentTargetClaims (cluster danglingClient)) = None)
  ∧ (Reconcile danglingRequest danglingClient).1 = (noRequeue, None)
  ∧ writeCalls (newCalls danglingClient (Reconcile danglingRequest danglingClient).2) = [].
Proof.
  assert (H1 : reliable danglingClient) by reflexivity.
  assert (H2 : namespaceActive (nnNamespace danglingRequest) (cluster danglingClient))
    by (eexists; split; reflexivity).
  assert (H3 : lookupObj danglingRequest (environments (cluster danglingClient))
               = Some danglingEnvironment) by reflexivity.
  assert (H4 : GetDeploymentTargetClaimName danglingEnvironment ≠ "") by discriminate.
  assert (H5 : UnstableConfigurationFields (envSpec danglingEnvironment) = None)
    by reflexivity.
  assert (H6 : lookupObj (mkNamespacedName "team-a" "no-such-claim")
                 (deploymentTargetClaims (cluster danglingClient)) = None) by reflexivity.
  split; [by repeat split|].
  destruct (Reconcile_claim_not_found danglingRequest danglingClient danglingEnvironment
              H1 H2 H3 H4 H5 H6) as (Hres & _ & _ & _ & _ & Hwrites).
  split; [exact Hres|exact Hwrites].
Defined.


Lemma Reconcile_target_not_found_witness :
  (reliable waitingClient
   ∧ namespaceActive (nnNamespace lonelyRequest) (cluster waitingClient)
   ∧ lookupObj lonelyRequest (environments (cluster waitingClient))
     = Some lonelyEnvironment
   ∧ GetDeploymentTargetClaimName lonelyEnvironment ≠ ""
   ∧ UnstableConfigurationFields (envSpec lonelyEnvironment) = None
   ∧ lookupObj (mkNamespacedName "team-a" "lonely-claim")
       (deploymentTargetClaims (cluster waitingClient)) = Some lonelyClaim
   ∧ dtcPhase lonelyClaim = DeploymentTargetClaimPhase_Bound
   ∧ resolveTarget lonelyClaim
       (inNamespace "team-a" (deploymentTargets (cluster waitingClient))) = None)
  ∧ (Reconcile lonelyRequest waitingClient).1 = (noRequeue, None)
  ∧ writeCalls (newCalls waitingClient (Reconcile lonelyRequest waitingClient).2) = [].
Proof.
  assert (H1 : reliable waitingClient) by reflexivity.
  assert (H2 : namespaceActive (nnNamespace lonelyRequest) (cluster waitingClient))
    by (eexists; split; reflexivity).
  assert (H3 : lookupObj lonelyRequest (environments (cluster waitingClient))
               = Some lonelyEnvironment) by reflexivity.
  assert (H4 : GetDeploymentTargetClaimName lonelyEnvironment ≠ "") by discriminate.
  assert (H5 : UnstableConfigurationFields (envSpec lonelyEnvironment) = None)
    by reflexivity.
  assert (H6 : lookupObj (mkNamespacedName "team-a" "lonely-claim")
                 (deploymentTargetClaims (cluster waitingClient)) = Some lonelyClaim)
    by reflexivity.
  assert (H7 : dtcPhase lonelyClaim = DeploymentTargetClaimPhase_Bound) by reflexivity.
  assert (H8 : resolveTarget lonelyClaim
                 (inNamespace "team-a" (deploymentTargets (cluster waitingClient))) = None)
    by reflexivity.
  split; [by repeat split|].
  destruct (Reconcile_target_not_found lonelyRequest waitingClient lonelyEnvironment
              lonelyClaim H1 H2 H3 H4 H5 H6 H7 H8) as (Hres & _ & _ & _ & _ & Hwrites).
  split; [exact Hres|exact Hwrites].
Defined.


Lemma Reconcile_applies_desired_state_witness :
  (reliable sampleClient
   ∧ namespaceActive (nnNamespace stagingRequest) (cluster sampleClient)
   ∧ lookupObj stagingRequest (environments (cluster sampleClient))
     = Some stagingEnvironment
   ∧ ¬ (GetDeploymentTargetClaimName stagingEnvironment ≠ ""
        ∧ UnstableConfigurationFields (envSpec stagingEnvironment) ≠ None)
   ∧ resolvedCredentials stagingEnvironment (cluster sampleClient) sampleCredentials
   ∧ lookupObj (mkNamespacedName "team-a" "staging-creds") (secrets (cluster sampleClient))
     = Some stagingSecret)
  ∧ (Reconcile stagingRequest sampleClient).1 = (noRequeue, None)
  ∧ managedEnvironments (cluster (Reconcile stagingRequest sampleClient).2)
    = managedEnvironments (cluster sampleClient)
      ++ [ desiredManagedEnvironment stagingEnvironment
             (desiredSpec stagingEnvironment sampleCredentials "staging-creds") ].
Proof.
  assert (H1 : reliable sampleClient) by reflexivity.
  assert (H2 : namespaceActive (nnNamespace stagingRequest) (cluster sampleClient))
    by (eexists; split; reflexivity).
  assert (H3 : lookupObj stagingRequest (environments (cluster sampleClient))
               = Some stagingEnvironment) by reflexivity.
  assert (H4 : ¬ (GetDeploymentTargetClaimName stagingEnvironment ≠ ""
                  ∧ UnstableConfigurationFields (envSpec stagingEnvironment) ≠ None))
    by (intros [Hn _]; by apply Hn).
  assert (H5 : resolvedCredentials stagingEnvironment (cluster sampleClient)
                 sampleCredentials)
    by (left; split; [reflexivity|]; exists sampleInline; split; reflexivity).
  assert (H6 : lookupObj (mkNamespacedName "team-a" "staging-creds")
                 (secrets (cluster sampleClient)) = Some stagingSecret) by reflexivity.
  split; [by repeat split|].
  destruct (Reconcile_applies_desired_state stagingRequest sampleClient stagingEnvironment
              sampleCredentials stagingSecret H1 H2 H3 H4 H5 H6) as (Hres & Hmanaged).
  split; [exact Hres|exact Hmanaged].
Defined.

Lemma Reconcile_claim_credentials_witness :
  (reliable sampleClient
   ∧ namespaceActive (nnNamespace prodRequest) (cluster sampleClient)
   ∧ lookupObj prodRequest (environments (cluster sampleClient)) = Some prodEnvironment
   ∧ GetDeploymentTargetClaimName prodEnvironment ≠ ""
   ∧ UnstableConfigurationFields (envSpec prodEnvironment) = None
   ∧ lookupObj (mkNamespacedName "team-a" "prod-claim")
       (deploymentTargetClaims (cluster sampleClient)) = Some prodClaim
   ∧ dtcPhase prodClaim = DeploymentTargetClaimPhase_Bound
   ∧ resolveTarget prodClaim (inNamespace "team-a" (deploymentTargets (cluster sampleClient)))
     = Some prodTarget
   ∧ lookupObj (mkNamespacedName "team-a" "space-creds") (secrets (cluster sampleClient))
     = Some spaceSecret
   ∧ secType spaceSecret ≠ ManagedEnvironmentSecretType)
  ∧ (Reconcile prodRequest sampleClient).1 = (noRequeue, None)
  ∧ ∃ managedEnv managedSecret,
      lookupObj (mkNamespacedName "team-a" "managed-environment-prod")
        (managedEnvironments (cluster (Reconcile prodRequest sampleClient).2))
      = Some managedEnv
      ∧ meSpec managedEnv =
          {| meAPIURL := "https://api.prod.example:6443";
             meClusterCredentialsSecret := "managed-environment-secret-prod";
             meAllowInsecureSkipTLSVerify := false;
             meClusterResources := false;
             meNamespaces := [] |}
      ∧ lookupObj (mkNamespacedName "team-a" "managed-environment-secret-prod")
          (secrets (cluster (Reconcile prodRequest sampleClient).2)) = Some managedSecret
      ∧ secData managedSecret = secData spaceSecret.
Proof.
  assert (H1 : reliable sampleClient) by reflexivity.
  assert (H2 : namespaceActive (nnNamespace prodRequest) (cluster sampleClient))
    by (eexists; split; reflexivity).
  assert (H3 : lookupObj prodRequest (environments (cluster sampleClient))
               = Some prodEnvironment) by reflexivity.
  assert (H4 : GetDeploymentTargetClaimName prodEnvironment ≠ "") by discriminate.
  assert (H5 : UnstableConfigurationFields (envSpec prodEnvironment) = None)
    by reflexivity.
  assert (H6 : lookupObj (mkNamespacedName "team-a" "prod-claim")
                 (deploymentTargetClaims (cluster sampleClient)) = Some prodClaim)
    by reflexivity.
  assert (H7 : dtcPhase prodClaim = DeploymentTargetClaimPhase_Bound) by reflexivity.
  assert (H8 : resolveTarget prodClaim
                 (inNamespace "team-a" (deploymentTargets (cluster sampleClient)))
               = Some prodTarget) by reflexivity.
  assert (H9 : lookupObj (mkNamespacedName "team-a" "space-creds")
                 (secrets (cluster sampleClient)) = Some spaceSecret) by reflexivity.
  assert (H10 : secType spaceSecret ≠ ManagedEnvironmentSecretType) by discriminate.
  split; [by repeat split|].
  exact (Reconcile_claim_credentials prodRequest sampleClient prodEnvironment prodClaim
           prodTarget spaceSecret H1 H2 H3 H4 H5 H6 H7 H8 H9 H10).
Defined.

Lemma generateDesiredResource_does_not_mirror_witness :
  (reliable sampleClient
   ∧ lookupObj (objectKey stagingEnvironment) (environments (cluster sampleClient))
     = Some stagingEnvironment
   ∧ resolvedCredentials stagingEnvironment (cluster sampleClient) sampleCredentials
   ∧ lookupObj (mkNamespacedName "team-a" "staging-creds") (secrets (cluster sampleClient))
     = Some stagingSecret
   ∧ (GetDeploymentTargetClaimName stagingEnvironment = ""
      ∨ secType stagingSecret = ManagedEnvironmentSecretType))
  ∧ secrets (cluster (generateDesiredResource stagingEnvironment sampleClient).2)
    = secrets (cluster sampleClient)
  ∧ writeCalls (newCalls sampleClient
                  (generateDesiredResource stagingEnvironment sampleClient).2) = [].
Proof.
  assert (H1 : reliable sampleClient) by reflexivity.
  assert (H2 : lookupObj (objectKey stagingEnvironment)
                 (environments (cluster sampleClient)) = Some stagingEnvironment)
    by reflexivity.
  assert (H3 : resolvedCredentials stagingEnvironment (cluster sampleClient)
                 sampleCredentials)
    by (left; split; [reflexivity|]; exists sampleInline; split; reflexivity).
  assert (H4 : lookupObj (mkNamespacedName "team-a" "staging-creds")
                 (secrets (cluster sampleClient)) = Some stagingSecret) by reflexivity.
  assert (H5 : GetDeploymentTargetClaimName stagingEnvironment = ""
               ∨ secType stagingSecret = ManagedEnvironmentSecretType)
    by (left; reflexivity).
  split; [by repeat split|].
  destruct (generateDesiredResource_does_not_mirror stagingEnvironment sampleClient
              sampleCredentials stagingSecret H1 H2 H3 H4 H5) as (Hsecrets & Hwrites & _).
  split; [exact Hsecrets|exact Hwrites].
Defined.

Lemma Reconcile_keeps_managed_environment_witness :
  (is_Some (lookupObj stagingRequest (environments (cluster sampleClient)))
   ∧ is_Some (lookupObj (mkNamespacedName "team-a" "managed-environment-retired")
                (managedEnvironments (cluster sampleClient))))
  ∧ is_Some (lookupObj (mkNamespacedName "team-a" "managed-environment-retired")
               (managedEnvironments (cluster (Reconcile stagingRequest sampleClient).2))).
Proof.
  assert (H1 : is_Some (lookupObj stagingRequest (environments (cluster sampleClient))))
    by (by eexists).
  assert (H2 : is_Some (lookupObj (mkNamespacedName "team-a" "managed-environment-retired")
                          (managedEnvironments (cluster sampleClient))))
    by (by eexists).
  split; [by split|].
  exact (Reconcile_keeps_managed_environment stagingRequest sampleClient H1
           (mkNamespacedName "team-a" "managed-environment-retired") H2).
Defined.
